(** * cdnbuddy-intent: conversation state and response integrity

    A shallow embedding of the Go packages [models], [prompts], [handlers],
    [transport], [memory] and [llm] of cdnbuddy-intent, followed by the
    properties of the intent pipeline and of the session store.

    Go strings are byte sequences and are modelled by [string]; Go maps by
    stdpp's [gmap]; a Go function returning [(T, error)] by [result T];
    code that mutates the Redis store, the session cache or the clock
    threads a [World] explicitly.  Library calls whose behaviour the
    repository does not define (encoding/json, strings.Title, the HTTP
    round trip) are parameters of the sections that use them. *)

From Stdlib Require Import ZArith Ascii String List Lia.
From Stdlib Require Import DecimalString DecimalFacts DecimalPos DecimalZ.
From stdpp Require Import base option list gmap strings.

#[local] Set Warnings "-register-all".
Local Open Scope string_scope.
Local Open Scope list_scope.
Local Open Scope Z_scope.

(** ** Go runtime: errors, results, byte strings *)

(** An [error] value.  [DeadlineExceeded] is [context.DeadlineExceeded],
    [RedisNil] is [redis.Nil], [Errorf] an error built from a message and
    [Wrap] the [%w] form of [fmt.Errorf]. *)
Inductive error : Type :=
| DeadlineExceeded
| RedisNil
| Errorf (msg : string)
| Wrap (prefix : string) (cause : error).

Fixpoint Error (e : error) : string :=
  match e with
  | DeadlineExceeded => "context deadline exceeded"
  | RedisNil => "redis: nil"
  | Errorf msg => msg
  | Wrap prefix cause => prefix +:+ Error cause
  end.

Inductive result (A : Type) : Type :=
| Ok (a : A)
| Err (e : error).
Arguments Ok {A} a.
Arguments Err {A} e.

Definition is_Ok {A} (r : result A) : bool :=
  match r with Ok _ => true | Err _ => false end.

Definition dq : ascii := ascii_of_nat 34.
Definition nl : string := String (ascii_of_nat 10) EmptyString.
Definition quoted (s : string) : string := String dq (s +:+ String dq EmptyString).

(** [lines l] joins the lines of a raw string literal with newlines. *)
Definition lines (l : list string) : string := String.concat nl l.

Definition is_empty (s : string) : bool :=
  match s with EmptyString => true | String _ _ => false end.

Definition lbrace : ascii := ascii_of_nat 123.
Definition rbrace : ascii := ascii_of_nat 125.

(** [braced body] is [body] between an opening and a closing brace, the
    shape of the text of every JSON object. *)
Definition braced (body : string) : string :=
  String lbrace (body +:+ String rbrace EmptyString).

Module strings.

(** [strings.Index(s, c)] for a one-byte needle: the index of the first
    occurrence, or [-1]. *)
Fixpoint IndexByte (s : string) (c : ascii) : Z :=
  match s with
  | EmptyString => -1
  | String a r =>
      if Ascii.eqb a c then 0
      else let i := IndexByte r c in if i =? -1 then -1 else i + 1
  end.

(** [strings.LastIndex(s, c)] for a one-byte needle. *)
Fixpoint LastIndexByte (s : string) (c : ascii) : Z :=
  match s with
  | EmptyString => -1
  | String a r =>
      let i := LastIndexByte r c in
      if i =? -1 then (if Ascii.eqb a c then 0 else -1) else i + 1
  end.

(** [strings.IndexByte(s, c) >= 0]: the byte occurs in [s]. *)
Fixpoint ContainsByte (s : string) (c : ascii) : bool :=
  match s with
  | EmptyString => false
  | String a r => (Ascii.eqb a c || ContainsByte r c)%bool
  end.

(** The slice expression [s[lo:hi]]. *)
Definition slice (s : string) (lo hi : Z) : string :=
  substring (Z.to_nat lo) (Z.to_nat (hi - lo)) s.

(** [strings.Join]. *)
Definition Join (elems : list string) (sep : string) : string :=
  String.concat sep elems.

(** [strings.Title] restricted to ASCII: the first letter of every word
    is upper-cased, a word starting after any byte that is not a letter,
    a digit or an underscore. *)
Definition is_lower (c : ascii) : bool :=
  let n := nat_of_ascii c in (Nat.leb 97 n && Nat.leb n 122)%bool.
Definition is_upper (c : ascii) : bool :=
  let n := nat_of_ascii c in (Nat.leb 65 n && Nat.leb n 90)%bool.
Definition is_digit (c : ascii) : bool :=
  let n := nat_of_ascii c in (Nat.leb 48 n && Nat.leb n 57)%bool.
Definition to_upper (c : ascii) : ascii :=
  if is_lower c then ascii_of_nat (nat_of_ascii c - 32) else c.
Definition to_lower (c : ascii) : ascii :=
  if is_upper c then ascii_of_nat (nat_of_ascii c + 32) else c.
Definition isSeparator (c : ascii) : bool :=
  negb (is_lower c || is_upper c || is_digit c
        || Ascii.eqb c "_" || Nat.leb 128 (nat_of_ascii c))%bool.

Fixpoint title_from (prev : ascii) (s : string) : string :=
  match s with
  | EmptyString => EmptyString
  | String a r =>
      String (if isSeparator prev then to_upper a else a) (title_from a r)
  end.

Definition TitleASCII (s : string) : string := title_from " " s.

End strings.

(** ** Package models *)

Module ConversationMessage.
Record t : Type := mk { Role : string; Message : string }.
End ConversationMessage.

Module ActionSchema.
Record t : Type := mk { Action : string; Parameters : list string }.
End ActionSchema.

Module IntentRequest.
Record t : Type := mk {
  SessionID : string;
  UserMessage : string;
  ConversationHistory : list ConversationMessage.t;
  AvailableActions : list ActionSchema.t
}.
(** The zero value of the struct. *)
Definition zero : t := mk EmptyString EmptyString [] [].
End IntentRequest.

Module IntentResponse.
(** [Parameters] is a Go map: [None] is the nil map.  The values are
    [*string]: [None] is a nil pointer (JSON null). *)
Record t : Type := mk {
  SessionID : string;
  Action : option string;
  Status : string;
  Parameters : option (gmap string (option string));
  UserMessage : string;
  ErrorCode : option string;
  ErrorMessage : option string
}.
Definition zero : t :=
  mk EmptyString None EmptyString None EmptyString None None.

Definition set_SessionID (v : string) (r : t) : t :=
  mk v (Action r) (Status r) (Parameters r) (UserMessage r)
     (ErrorCode r) (ErrorMessage r).
Definition set_Action (v : option string) (r : t) : t :=
  mk (SessionID r) v (Status r) (Parameters r) (UserMessage r)
     (ErrorCode r) (ErrorMessage r).
Definition set_Status (v : string) (r : t) : t :=
  mk (SessionID r) (Action r) v (Parameters r) (UserMessage r)
     (ErrorCode r) (ErrorMessage r).
Definition set_Parameters (v : option (gmap string (option string)))
    (r : t) : t :=
  mk (SessionID r) (Action r) (Status r) v (UserMessage r)
     (ErrorCode r) (ErrorMessage r).
Definition set_UserMessage (v : string) (r : t) : t :=
  mk (SessionID r) (Action r) (Status r) (Parameters r) v
     (ErrorCode r) (ErrorMessage r).
Definition set_ErrorCode (v : option string) (r : t) : t :=
  mk (SessionID r) (Action r) (Status r) (Parameters r) (UserMessage r)
     v (ErrorMessage r).
Definition set_ErrorMessage (v : option string) (r : t) : t :=
  mk (SessionID r) (Action r) (Status r) (Parameters r) (UserMessage r)
     (ErrorCode r) v.
End IntentResponse.

Module models.
Definition StatusNeedsInfo : string := "NEEDS_INFO".
Definition StatusReady : string := "READY".
Definition StatusError : string := "ERROR".

Definition ErrorLLMTimeout : string := "LLM_API_TIMEOUT".
Definition ErrorLLMFailed : string := "LLM_API_FAILED".
Definition ErrorParseError : string := "PARSE_ERROR".
Definition ErrorUnknownIntent : string := "UNKNOWN_INTENT".
End models.

(** [make(map[string]*string)]. *)
Definition make_map : option (gmap string (option string)) := Some ∅.

(** ** unicode/utf8

    How a loop over [utf8.DecodeRuneInString] cuts a string: into the
    well-formed UTF-8 sequences it holds and the bytes that start none,
    for which the function reports [RuneError] with width 1. *)

Module utf8.

Definition between (lo hi : N) (c : ascii) : bool :=
  ((lo <=? N_of_ascii c) && (N_of_ascii c <=? hi))%N.

(** The second byte accepted after the first byte of a sequence of
    three and of four: the [acceptRanges] of the package. *)
Definition accept3 (b0 b1 : ascii) : bool :=
  if (N_of_ascii b0 =? 224)%N then between 160 191 b1
  else if (N_of_ascii b0 =? 237)%N then between 128 159 b1
  else between 128 191 b1.

Definition accept4 (b0 b1 : ascii) : bool :=
  if (N_of_ascii b0 =? 240)%N then between 144 191 b1
  else if (N_of_ascii b0 =? 244)%N then between 128 143 b1
  else between 128 191 b1.

Definition seq2 (b0 b1 : ascii) : bool :=
  between 194 223 b0 && between 128 191 b1.
Definition seq3 (b0 b1 b2 : ascii) : bool :=
  between 224 239 b0 && accept3 b0 b1 && between 128 191 b2.
Definition seq4 (b0 b1 b2 b3 : ascii) : bool :=
  between 240 244 b0 && accept4 b0 b1 && between 128 191 b2
  && between 128 191 b3.

Inductive chunk : Type :=
| Rune (bytes : string)
| Bad (b : ascii).

Fixpoint runes (s : string) : list chunk :=
  match s with
  | EmptyString => []
  | String b0 r0 =>
      if (N_of_ascii b0 <? 128)%N then
        Rune (String b0 EmptyString) :: runes r0
      else
        match r0 with
        | String b1 r1 =>
            if seq2 b0 b1 then
              Rune (String b0 (String b1 EmptyString)) :: runes r1
            else
              match r1 with
              | String b2 r2 =>
                  if seq3 b0 b1 b2 then
                    Rune (String b0 (String b1 (String b2 EmptyString)))
                    :: runes r2
                  else
                    match r2 with
                    | String b3 r3 =>
                        if seq4 b0 b1 b2 b3 then
                          Rune (String b0 (String b1 (String b2
                                  (String b3 EmptyString))))
                          :: runes r3
                        else Bad b0 :: runes r0
                    | EmptyString => Bad b0 :: runes r0
                    end
              | EmptyString => Bad b0 :: runes r0
              end
        | EmptyString => Bad b0 :: runes r0
        end
  end.

(** [utf8.ValidString]. *)
Definition ValidString (s : string) : bool :=
  forallb (fun c => match c with Rune _ => true | Bad _ => false end)
          (runes s).

(** The encoding of U+FFFD, the replacement character. *)
Definition replacement : string :=
  String (ascii_of_N 239) (String (ascii_of_N 191)
    (String (ascii_of_N 189) EmptyString)).

Definition flat (l : list string) : string :=
  fold_right String.append EmptyString l.

(** The string with every byte that starts no well-formed sequence
    replaced by U+FFFD: what encoding/json keeps of a string. *)
Definition coerce (s : string) : string :=
  flat (map (fun c => match c with
                      | Rune bytes => bytes
                      | Bad _ => replacement
                      end) (runes s)).

End utf8.

(** ** encoding/json

    A reference model of the part of encoding/json the service relies on:
    the JSON grammar of RFC 8259 and the decoding of an object into the
    [IntentResponse] struct, and the compact encoding of a value.
    Strings are coerced to valid UTF-8 on the way in and on the way out,
    and field names are matched up to ASCII case.  The pipeline
    definitions below do not depend on it: they take the decoder as a
    parameter, and this model instantiates it. *)

Module Json.

Inductive value : Type :=
| Null
| Bool (b : bool)
| Number (lit : string)
| Str (s : string)
| Array (elems : list value)
| Object (members : list (string * value)).

Definition is_ws (c : ascii) : bool :=
  let n := nat_of_ascii c in
  (Nat.eqb n 32 || Nat.eqb n 9 || Nat.eqb n 10 || Nat.eqb n 13)%bool.

Fixpoint skip_ws (s : string) : string :=
  match s with
  | String c r => if is_ws c then skip_ws r else s
  | EmptyString => s
  end.

(** *** String literals *)

Inductive unit16 : Type :=
| Byte (c : ascii)
| U16 (n : N).

Definition hex_digit (c : ascii) : option N :=
  let n := N_of_ascii c in
  if (48 <=? n)%N && (n <=? 57)%N then Some (n - 48)%N
  else if (97 <=? n)%N && (n <=? 102)%N then Some (n - 87)%N
  else if (65 <=? n)%N && (n <=? 70)%N then Some (n - 55)%N
  else None.

Definition hex4 (a b c d : ascii) : option N :=
  match hex_digit a, hex_digit b, hex_digit c, hex_digit d with
  | Some x, Some y, Some z, Some w =>
      Some (((x * 16 + y) * 16 + z) * 16 + w)%N
  | _, _, _, _ => None
  end.

Definition unescape (c : ascii) : option ascii :=
  let n := nat_of_ascii c in
  if Nat.eqb n 34 then Some c              (* quote *)
  else if Nat.eqb n 92 then Some c         (* backslash *)
  else if Nat.eqb n 47 then Some c         (* slash *)
  else if Nat.eqb n 98 then Some (ascii_of_nat 8)
  else if Nat.eqb n 102 then Some (ascii_of_nat 12)
  else if Nat.eqb n 110 then Some (ascii_of_nat 10)
  else if Nat.eqb n 114 then Some (ascii_of_nat 13)
  else if Nat.eqb n 116 then Some (ascii_of_nat 9)
  else None.

(** The body of a string literal, after the opening quote: the units up
    to the closing quote and the text after it. *)
Fixpoint scan_string (s : string) : option (list unit16 * string) :=
  match s with
  | EmptyString => None
  | String c r =>
      let n := nat_of_ascii c in
      if Nat.eqb n 34 then Some ([], r)
      else if Nat.ltb n 32 then None
      else if Nat.eqb n 92 then
        match r with
        | String e r1 =>
            if Nat.eqb (nat_of_ascii e) 117 then
              match r1 with
              | String h1 (String h2 (String h3 (String h4 r2))) =>
                  match hex4 h1 h2 h3 h4 with
                  | Some u =>
                      match scan_string r2 with
                      | Some (us, rest) => Some (U16 u :: us, rest)
                      | None => None
                      end
                  | None => None
                  end
              | _ => None
              end
            else
              match unescape e with
              | Some b =>
                  match scan_string r1 with
                  | Some (us, rest) => Some (Byte b :: us, rest)
                  | None => None
                  end
              | None => None
              end
        | EmptyString => None
        end
      else
        match scan_string r with
        | Some (us, rest) => Some (Byte c :: us, rest)
        | None => None
        end
  end.

Definition byte (n : N) : ascii := ascii_of_N n.

(** UTF-8 encoding of a code point. *)
Definition utf8 (cp : N) : list ascii :=
  (if cp <? 128 then [byte cp]
   else if cp <? 2048 then
     [byte (192 + cp / 64); byte (128 + cp mod 64)]
   else if cp <? 65536 then
     [byte (224 + cp / 4096); byte (128 + (cp / 64) mod 64);
      byte (128 + cp mod 64)]
   else
     [byte (240 + cp / 262144); byte (128 + (cp / 4096) mod 64);
      byte (128 + (cp / 64) mod 64); byte (128 + cp mod 64)])%N.

Definition is_high (u : N) : bool := ((55296 <=? u) && (u <? 56320))%N.
Definition is_low (u : N) : bool := ((56320 <=? u) && (u <? 57344))%N.
Definition replacement : N := 65533%N.

(** Escaped UTF-16 units are combined into code points; a surrogate
    without its partner becomes U+FFFD. *)
Fixpoint encode_units (us : list unit16) : list ascii :=
  match us with
  | [] => []
  | Byte c :: r => c :: encode_units r
  | U16 u :: r =>
      if is_high u then
        match r with
        | U16 v :: r' =>
            if is_low v then
              utf8 (65536 + (u - 55296) * 1024 + (v - 56320))%N
                ++ encode_units r'
            else utf8 replacement ++ encode_units r
        | _ => utf8 replacement ++ encode_units r
        end
      else if is_low u then utf8 replacement ++ encode_units r
      else utf8 u ++ encode_units r
  end.

(** The string of a literal: escapes resolved and, as [unquote] does,
    the bytes coerced to valid UTF-8. *)
Definition parse_string (s : string) : option (string * string) :=
  match scan_string s with
  | Some (us, rest) =>
      Some (utf8.coerce (string_of_list_ascii (encode_units us)), rest)
  | None => None
  end.

(** *** Numbers *)

Fixpoint span_digits (s : string) : string * string :=
  match s with
  | String c r =>
      if strings.is_digit c then
        let '(d, rest) := span_digits r in (String c d, rest)
      else (EmptyString, s)
  | EmptyString => (EmptyString, s)
  end.

Definition parse_int_part (s : string) : option (string * string) :=
  match s with
  | String c r =>
      if Ascii.eqb c "0" then Some ("0", r)
      else if strings.is_digit c then
        let '(d, rest) := span_digits r in Some (String c d, rest)
      else None
  | EmptyString => None
  end.

Definition parse_frac (s : string) : option (string * string) :=
  match s with
  | String c r =>
      if Ascii.eqb c "." then
        match span_digits r with
        | (EmptyString, _) => None
        | (d, rest) => Some (String c d, rest)
        end
      else Some (EmptyString, s)
  | EmptyString => Some (EmptyString, s)
  end.

Definition parse_exp (s : string) : option (string * string) :=
  match s with
  | String c r =>
      if (Ascii.eqb c "e" || Ascii.eqb c "E")%bool then
        let '(sign, r1) :=
          match r with
          | String g r' =>
              if (Ascii.eqb g "+" || Ascii.eqb g "-")%bool
              then (String g EmptyString, r') else (EmptyString, r)
          | EmptyString => (EmptyString, r)
          end in
        match span_digits r1 with
        | (EmptyString, _) => None
        | (d, rest) => Some (String c (sign +:+ d), rest)
        end
      else Some (EmptyString, s)
  | EmptyString => Some (EmptyString, s)
  end.

Definition parse_number (s : string) : option (string * string) :=
  let '(sign, s1) :=
    match s with
    | String c r =>
        if Ascii.eqb c "-" then (String c EmptyString, r)
        else (EmptyString, s)
    | EmptyString => (EmptyString, s)
    end in
  match parse_int_part s1 with
  | Some (i, s2) =>
      match parse_frac s2 with
      | Some (f, s3) =>
          match parse_exp s3 with
          | Some (e, s4) => Some (sign +:+ i +:+ f +:+ e, s4)
          | None => None
          end
      | None => None
      end
  | None => None
  end.

Fixpoint strip_prefix (p s : string) : option string :=
  match p, s with
  | EmptyString, _ => Some s
  | String a p', String b s' =>
      if Ascii.eqb a b then strip_prefix p' s' else None
  | String _ _, EmptyString => None
  end.

(** *** Values.  Every nested call is made after at least one byte has
    been consumed, so a fuel of the input length plus one is enough. *)

Fixpoint parse_value (fuel : nat) (s : string) : option (value * string) :=
  match fuel with
  | O => None
  | S f =>
      match skip_ws s with
      | EmptyString => None
      | String c r =>
          let n := nat_of_ascii c in
          if Nat.eqb n 123 then                       (* object *)
            match skip_ws r with
            | String c1 r1 =>
                if Nat.eqb (nat_of_ascii c1) 125 then Some (Object [], r1)
                else
                  match parse_members f (skip_ws r) with
                  | Some (ms, rest) => Some (Object ms, rest)
                  | None => None
                  end
            | EmptyString => None
            end
          else if Nat.eqb n 91 then                   (* array *)
            match skip_ws r with
            | String c1 r1 =>
                if Nat.eqb (nat_of_ascii c1) 93 then Some (Array [], r1)
                else
                  match parse_elements f r with
                  | Some (es, rest) => Some (Array es, rest)
                  | None => None
                  end
            | EmptyString => None
            end
          else if Nat.eqb n 34 then
            match parse_string r with
            | Some (str, rest) => Some (Str str, rest)
            | None => None
            end
          else if Nat.eqb n 116 then
            option_map (fun rest => (Bool true, rest)) (strip_prefix "rue" r)
          else if Nat.eqb n 102 then
            option_map (fun rest => (Bool false, rest))
                       (strip_prefix "alse" r)
          else if Nat.eqb n 110 then
            option_map (fun rest => (Null, rest)) (strip_prefix "ull" r)
          else
            match parse_number (String c r) with
            | Some (lit, rest) => Some (Number lit, rest)
            | None => None
            end
      end
  end

(** Members of a non-empty object, from the first key (white space
    already skipped) through the closing brace. *)
with parse_members (fuel : nat) (s : string)
    : option (list (string * value) * string) :=
  match fuel with
  | O => None
  | S f =>
      match s with
      | String c r =>
          if Nat.eqb (nat_of_ascii c) 34 then
            match parse_string r with
            | Some (key, r1) =>
                match skip_ws r1 with
                | String c2 r2 =>
                    if Nat.eqb (nat_of_ascii c2) 58 then
                      match parse_value f r2 with
                      | Some (v, r3) =>
                          match skip_ws r3 with
                          | String c4 r4 =>
                              let n4 := nat_of_ascii c4 in
                              if Nat.eqb n4 125 then Some ([(key, v)], r4)
                              else if Nat.eqb n4 44 then
                                match parse_members f (skip_ws r4) with
                                | Some (ms, rest) =>
                                    Some ((key, v) :: ms, rest)
                                | None => None
                                end
                              else None
                          | EmptyString => None
                          end
                      | None => None
                      end
                    else None
                | EmptyString => None
                end
            | None => None
            end
          else None
      | EmptyString => None
      end
  end

(** Elements of a non-empty array through the closing bracket. *)
with parse_elements (fuel : nat) (s : string)
    : option (list value * string) :=
  match fuel with
  | O => None
  | S f =>
      match parse_value f s with
      | Some (v, r1) =>
          match skip_ws r1 with
          | String c r2 =>
              let n := nat_of_ascii c in
              if Nat.eqb n 93 then Some ([v], r2)
              else if Nat.eqb n 44 then
                match parse_elements f r2 with
                | Some (es, rest) => Some (v :: es, rest)
                | None => None
                end
              else None
          | EmptyString => None
          end
      | None => None
      end
  end.

(** A complete JSON text: one value surrounded by white space only. *)
Definition parse (s : string) : option value :=
  match parse_value (S (String.length s)) s with
  | Some (v, rest) => if is_empty (skip_ws rest) then Some v else None
  | None => None
  end.

(** *** Encoding.  [escape] is the body of the string literal that
    [appendString] writes with HTML escaping on, as [json.Marshal] does;
    [print] is the compact text of a value. *)

Definition html_safe (c : ascii) : bool :=
  let n := N_of_ascii c in
  ((32 <=? n) && (n <=? 127)
   && negb (n =? 34) && negb (n =? 92)
   && negb (n =? 60) && negb (n =? 62) && negb (n =? 38))%N.

Definition hex_char (n : N) : ascii :=
  if (n <? 10)%N then ascii_of_N (48 + n) else ascii_of_N (87 + n).

Definition backslash : ascii := ascii_of_nat 92.

Definition escape_byte (c : ascii) : string :=
  let n := N_of_ascii c in
  if html_safe c then String c EmptyString
  else if ((n =? 34) || (n =? 92))%N then String backslash (String c EmptyString)
  else if (n =? 8)%N then String backslash "b"
  else if (n =? 12)%N then String backslash "f"
  else if (n =? 10)%N then String backslash "n"
  else if (n =? 13)%N then String backslash "r"
  else if (n =? 9)%N then String backslash "t"
  else
    String backslash
      (String "u" (String "0" (String "0"
         (String (hex_char (n / 16)) (String (hex_char (n mod 16))
            EmptyString))))).

(** The encodings of U+2028 and U+2029. *)
Definition line_separator : string :=
  String (ascii_of_N 226) (String (ascii_of_N 128)
    (String (ascii_of_N 168) EmptyString)).
Definition paragraph_separator : string :=
  String (ascii_of_N 226) (String (ascii_of_N 128)
    (String (ascii_of_N 169) EmptyString)).

Definition escape_chunk (c : utf8.chunk) : string :=
  match c with
  | utf8.Bad _ => String backslash "ufffd"
  | utf8.Rune bytes =>
      if String.eqb bytes line_separator then String backslash "u2028"
      else if String.eqb bytes paragraph_separator then
        String backslash "u2029"
      else
        match bytes with
        | String b EmptyString => escape_byte b
        | _ => bytes
        end
  end.

Definition escape (s : string) : string :=
  utf8.flat (map escape_chunk (utf8.runes s)).

Definition print_string (s : string) : string :=
  String dq (escape s +:+ String dq EmptyString).

Fixpoint print (v : value) : string :=
  match v with
  | Null => "null"
  | Bool b => if b then "true" else "false"
  | Number lit => lit
  | Str s => print_string s
  | Array elems => "[" +:+ strings.Join (map print elems) "," +:+ "]"
  | Object members =>
      "{" +:+
      strings.Join
        (map (fun kv => let '(k, v) := kv in
                        print_string k +:+ ":" +:+ print v) members) ","
      +:+ "}"
  end.

(** What is left of a value once its strings went through the encoder:
    every string, keys included, coerced to valid UTF-8. *)
Fixpoint norm (v : value) : value :=
  match v with
  | Str s => Str (utf8.coerce s)
  | Array elems => Array (map norm elems)
  | Object members =>
      Object (map (fun kv => let '(k, v) := kv in (utf8.coerce k, norm v))
                  members)
  | _ => v
  end.

(** *** Decoding into [IntentResponse] *)

Definition fold_name (s : string) : string :=
  string_of_list_ascii (map strings.to_lower (list_ascii_of_string s)).

Definition type_error (field : string) : error :=
  Errorf ("json: cannot unmarshal value into Go struct field IntentResponse."
          +:+ field).

Definition decode_string (field : string) (v : value) (old : string)
    : result string :=
  match v with
  | Str s => Ok s
  | Null => Ok old
  | _ => Err (type_error field)
  end.

Definition decode_ptr (field : string) (v : value)
    : result (option string) :=
  match v with
  | Str s => Ok (Some s)
  | Null => Ok None
  | _ => Err (type_error field)
  end.

Fixpoint decode_entries (field : string) (ms : list (string * value))
    (m : gmap string (option string))
    : result (gmap string (option string)) :=
  match ms with
  | [] => Ok m
  | (k, v) :: rest =>
      match decode_ptr field v with
      | Ok p => decode_entries field rest (<[k := p]> m)
      | Err e => Err e
      end
  end.

Definition decode_map (field : string) (v : value)
    (old : option (gmap string (option string)))
    : result (option (gmap string (option string))) :=
  match v with
  | Null => Ok None
  | Object ms =>
      match decode_entries field ms (default ∅ old) with
      | Ok m => Ok (Some m)
      | Err e => Err e
      end
  | _ => Err (type_error field)
  end.

Definition decode_field (r : IntentResponse.t) (kv : string * value)
    : result IntentResponse.t :=
  let '(k, v) := kv in
  let name := fold_name k in
  if String.eqb name "session_id" then
    match decode_string name v (IntentResponse.SessionID r) with
    | Ok s => Ok (IntentResponse.set_SessionID s r) | Err e => Err e end
  else if String.eqb name "action" then
    match decode_ptr name v with
    | Ok p => Ok (IntentResponse.set_Action p r) | Err e => Err e end
  else if String.eqb name "status" then
    match decode_string name v (IntentResponse.Status r) with
    | Ok s => Ok (IntentResponse.set_Status s r) | Err e => Err e end
  else if String.eqb name "parameters" then
    match decode_map name v (IntentResponse.Parameters r) with
    | Ok m => Ok (IntentResponse.set_Parameters m r) | Err e => Err e end
  else if String.eqb name "user_message" then
    match decode_string name v (IntentResponse.UserMessage r) with
    | Ok s => Ok (IntentResponse.set_UserMessage s r) | Err e => Err e end
  else if String.eqb name "error_code" then
    match decode_ptr name v with
    | Ok p => Ok (IntentResponse.set_ErrorCode p r) | Err e => Err e end
  else if String.eqb name "error_message" then
    match decode_ptr name v with
    | Ok p => Ok (IntentResponse.set_ErrorMessage p r) | Err e => Err e end
  else Ok r.

Fixpoint decode_fields (ms : list (string * value)) (r : IntentResponse.t)
    : result IntentResponse.t :=
  match ms with
  | [] => Ok r
  | kv :: rest =>
      match decode_field r kv with
      | Ok r' => decode_fields rest r'
      | Err e => Err e
      end
  end.

(** [json.Unmarshal(data, &response)] on a zero [IntentResponse]. *)
Definition UnmarshalIntentResponse (data : string)
    : result IntentResponse.t :=
  match parse data with
  | None => Err (Errorf "invalid character looking for beginning of value")
  | Some Null => Ok IntentResponse.zero
  | Some (Object ms) => decode_fields ms IntentResponse.zero
  | Some _ =>
      Err (Errorf "json: cannot unmarshal value into Go value of type models.IntentResponse")
  end.

End Json.

(** ** Package prompts *)

Module prompts.

(** The raw literal [SystemPrompt], cut at its two [%s] verbs. *)
Definition SystemPrompt_0 : string :=
  lines
    ["You are an AI assistant for CDNbuddy, a CDN management platform. Your job is to analyze user conversations and determine what CDN-related actions they want to perform.";
     EmptyString;
     "IMPORTANT RULES:";
     "1. Work on ONE action at a time, even if multiple actions are mentioned";
     "2. If multiple actions are mentioned, pick the first one mentioned";
     "3. Extract parameters from the conversation for the selected action";
     "4. If you need more information, ask specific questions";
     "5. When an action is complete, you can ask " +:+ quoted "Do you have any other requirements?";
     EmptyString;
     "RESPONSE FORMAT:";
     "You must respond with a valid JSON object in this exact format:";
     "{";
     "  " +:+ quoted "action" +:+ ": " +:+ quoted "ACTION_NAME or null" +:+ ",";
     "  " +:+ quoted "status" +:+ ": " +:+ quoted "NEEDS_INFO or READY" +:+ ", ";
     "  " +:+ quoted "parameters" +:+ ": {";
     "    " +:+ quoted "param_name" +:+ ": " +:+ quoted "extracted_value or null";
     "  },";
     "  " +:+ quoted "user_message" +:+ ": " +:+ quoted "Your response to the user";
     "}";
     EmptyString;
     "Available Actions:";
     EmptyString].

Definition SystemPrompt_1 : string :=
  lines [EmptyString; EmptyString; "Current Conversation:"; EmptyString].

Definition SystemPrompt_2 : string :=
  lines
    [EmptyString;
     EmptyString;
     "Analyze the conversation and respond with the JSON format above."].

Definition FallbackMessage : string :=
  "I didn't understand your request clearly. Could you please rephrase what you'd like me to help you with regarding CDN setup or management?".

Section Build.
(** [strings.Title]. *)
Variable Title : string -> string.

Definition buildActionsSection (actions : list ActionSchema.t) : string :=
  fold_left
    (fun builder action =>
       builder +:+
       ("- " +:+ ActionSchema.Action action +:+ ": requires ["
        +:+ strings.Join (ActionSchema.Parameters action) ", "
        +:+ "]" +:+ nl))
    actions EmptyString.

Definition buildConversationSection
    (history : list ConversationMessage.t) (currentMessage : string)
    : string :=
  let builder :=
    fold_left
      (fun builder msg =>
         builder +:+
         (Title (ConversationMessage.Role msg) +:+ ": "
          +:+ ConversationMessage.Message msg +:+ nl))
      history EmptyString in
  builder +:+ ("User: " +:+ currentMessage +:+ nl).

Definition BuildIntentPrompt (request : IntentRequest.t) : string :=
  let actionsSection :=
    buildActionsSection (IntentRequest.AvailableActions request) in
  let conversationSection :=
    buildConversationSection
      (IntentRequest.ConversationHistory request)
      (IntentRequest.UserMessage request) in
  SystemPrompt_0 +:+ actionsSection +:+ SystemPrompt_1
  +:+ conversationSection +:+ SystemPrompt_2.
End Build.

Definition extractJSON (content : string) : string :=
  let start := strings.IndexByte content "{" in
  if start =? -1 then EmptyString
  else
    let end_ := strings.LastIndexByte content "}" in
    if ((end_ =? -1) || (end_ <=? start))%bool then EmptyString
    else strings.slice content start (end_ + 1).

Section Parse.
(** [json.Unmarshal] into a zero [IntentResponse]. *)
Variable Unmarshal : string -> result IntentResponse.t.

Definition ParseLLMResponse (content : string) : result IntentResponse.t :=
  let jsonContent := extractJSON content in
  if is_empty jsonContent then
    Err (Errorf "no valid JSON found in response")
  else
    match Unmarshal jsonContent with
    | Err err => Err (Wrap "failed to parse JSON: " err)
    | Ok response =>
        let response :=
          if is_empty (IntentResponse.Status response) then
            IntentResponse.set_UserMessage FallbackMessage
              (IntentResponse.set_Status models.StatusError response)
          else response in
        let response :=
          match IntentResponse.Parameters response with
          | None => IntentResponse.set_Parameters make_map response
          | Some _ => response
          end in
        Ok response
    end.
End Parse.

End prompts.

(** ** Package llm: request and response of a completion call *)

Module Usage.
Record t : Type := mk { InputTokens : Z; OutputTokens : Z }.
End Usage.

Module LLMRequest.
(** [Temperature] is kept as the decimal literal of the source. *)
Record t : Type := mk {
  Prompt : string;
  ConversationHistory : list ConversationMessage.t;
  MaxTokens : Z;
  Temperature : string
}.
End LLMRequest.

Module LLMResponse.
Record t : Type := mk { Content : string; Usage : Usage.t }.
End LLMResponse.

(** ** Package handlers *)

Module handlers.

Definition validateRequest (request : IntentRequest.t) : option error :=
  if is_empty (IntentRequest.SessionID request) then
    Some (Errorf "session_id is required")
  else if is_empty (IntentRequest.UserMessage request) then
    Some (Errorf "user_message is required")
  else None.

(** The body of [callLLM] as the source has it: a canned completion. *)
Definition callLLM_placeholder (request : LLMRequest.t)
    : result LLMResponse.t :=
  Ok (LLMResponse.mk
        ("{" +:+ quoted "action" +:+ ": " +:+ quoted "CREATE_SERVICE"
         +:+ ", " +:+ quoted "status" +:+ ": " +:+ quoted "NEEDS_INFO"
         +:+ ", " +:+ quoted "parameters" +:+ ": {"
         +:+ quoted "domain_name" +:+ ": null}, "
         +:+ quoted "user_message" +:+ ": "
         +:+ quoted "I can help you setup a CDN! What would you like to name your service?"
         +:+ "}")
        (Usage.mk 100 50)).

Definition validStatuses : gmap string bool :=
  <[models.StatusNeedsInfo := true]>
    (<[models.StatusReady := true]>
       (<[models.StatusError := true]> ∅)).

Definition validateAndCleanResponse (response : IntentResponse.t)
    : IntentResponse.t :=
  let response :=
    if negb (default false (validStatuses !! IntentResponse.Status response))
    then IntentResponse.set_UserMessage prompts.FallbackMessage
           (IntentResponse.set_Status models.StatusError response)
    else response in
  let response :=
    match IntentResponse.Parameters response with
    | None => IntentResponse.set_Parameters make_map response
    | Some _ => response
    end in
  if is_empty (IntentResponse.UserMessage response) then
    IntentResponse.set_UserMessage
      "How can I help you with your CDN setup?" response
  else response.

Definition createErrorResponse (request : IntentRequest.t)
    (errorCode errorMessage : string) : IntentResponse.t :=
  IntentResponse.mk
    (IntentRequest.SessionID request)
    None
    models.StatusError
    make_map
    prompts.FallbackMessage
    (Some errorCode)
    (Some errorMessage).

Section Handler.
(** The completion call behind [callLLM], the JSON decoder and
    [strings.Title]. *)
Variable callLLM : LLMRequest.t -> result LLMResponse.t.
Variable Unmarshal : string -> result IntentResponse.t.
Variable Title : string -> string.

(** The prompt built for [request] and the [LLMRequest] around it. *)
Definition llmRequestFor (request : IntentRequest.t) : LLMRequest.t :=
  let prompt := prompts.BuildIntentPrompt Title request in
  LLMRequest.mk prompt (IntentRequest.ConversationHistory request)
                1000 "0.1".

(** [ProcessIntent] returns the Go pair as a [result], together with
    the completion requests it issued, in order. *)
Definition ProcessIntent (request : IntentRequest.t)
    : result IntentResponse.t * list LLMRequest.t :=
  match validateRequest request with
  | Some err =>
      (Ok (createErrorResponse request models.ErrorParseError (Error err)),
       [])
  | None =>
      let llmRequest := llmRequestFor request in
      match callLLM llmRequest with
      | Err err =>
          (Ok (createErrorResponse request models.ErrorLLMFailed
                 (Error err)),
           [llmRequest])
      | Ok llmResponse =>
          match prompts.ParseLLMResponse Unmarshal
                  (LLMResponse.Content llmResponse) with
          | Err _ =>
              (Ok (createErrorResponse request models.ErrorParseError
                     "Failed to understand response"),
               [llmRequest])
          | Ok response =>
              let response :=
                IntentResponse.set_SessionID
                  (IntentRequest.SessionID request) response in
              (Ok (validateAndCleanResponse response), [llmRequest])
          end
      end
  end.
End Handler.

End handlers.

(** ** Package transport *)

Module transport.

Definition sendErrorResponse (request : IntentRequest.t)
    (errorCode errorMessage : string) : IntentResponse.t :=
  IntentResponse.mk
    (IntentRequest.SessionID request)
    None
    models.StatusError
    make_map
    "I'm sorry, I encountered an error processing your request. Please try again."
    (Some errorCode)
    (Some errorMessage).

Section Transport.
Variable callLLM : LLMRequest.t -> result LLMResponse.t.
Variable Unmarshal : string -> result IntentResponse.t.
Variable Title : string -> string.
(** [json.Unmarshal(msg.Data, &request)]: the request as far as it was
    filled, and the decoding error if any. *)
Variable UnmarshalRequest : string -> IntentRequest.t * option error.

(** The replies handed to [sendResponse], and the completion requests
    issued while handling the message. *)
Definition handleIntentRequest (data : string)
    : list IntentResponse.t * list LLMRequest.t :=
  let '(request, err) := UnmarshalRequest data in
  match err with
  | Some _ =>
      ([sendErrorResponse request models.ErrorParseError
          "Invalid request format"], [])
  | None =>
      match handlers.ProcessIntent callLLM Unmarshal Title request with
      | (Err err, calls) =>
          ([sendErrorResponse request models.ErrorLLMFailed (Error err)],
           calls)
      | (Ok response, calls) => ([response], calls)
      end
  end.
End Transport.

End transport.

(** ** Package memory *)

(** A [time.Time], as the instant it denotes (nanoseconds since the epoch). *)
Definition Time : Type := Z.

Module Message.
Record t : Type := mk { Role : string; Content : string; Timestamp : Time }.
End Message.

Module Metadata.
Record t : Type := mk {
  StartedAt : Time;
  LastActivity : Time;
  MessageCount : Z
}.
End Metadata.

Module SessionData.
Record t : Type := mk {
  SessionID : string;
  UserID : string;
  Messages : list Message.t;
  Metadata : Metadata.t
}.
End SessionData.

(** The chat messages of langchaingo's [llms] package that the manager
    builds, and its in-memory [ConversationBuffer] as the list held by its
    [ChatHistory]. *)
Inductive ChatMessage : Type :=
| HumanChatMessage (Content : string)
| AIChatMessage (Content : string)
| SystemChatMessage (Content : string).

Definition ConversationBuffer : Type := list ChatMessage.

(** A call of the completion API. *)
Module AnthropicMessage.
Record t : Type := mk { Role : string; Content : string }.
End AnthropicMessage.

Module AnthropicRequest.
Record t : Type := mk {
  Model : string;
  MaxTokens : Z;
  Temperature : string;
  Messages : list AnthropicMessage.t
}.
End AnthropicRequest.

(** *** The world the memory-integrated service runs in

    [kv] is the Redis keyspace ([Data] being the serialised form of a
    session), [reachable] tells whether the server answers, [tick] counts
    the readings of the wall clock taken so far, [sessions] is the
    manager's cache of conversation buffers (the map holds pointers: a
    buffer handed out by [GetOrCreateSession] is the cached one, and is
    mutated in place), and [sent] logs the completion calls made.  Key
    expiry is not modelled: no time passes inside Redis. *)
Record World (Data : Type) : Type := mkWorld {
  kv : gmap string Data;
  reachable : bool;
  tick : nat;
  sessions : gmap string ConversationBuffer;
  sent : list AnthropicRequest.t
}.
Arguments mkWorld {Data}.
Arguments kv {Data}.
Arguments reachable {Data}.
Arguments tick {Data}.
Arguments sessions {Data}.
Arguments sent {Data}.

Section Monad.
Context {Data : Type}.

(** State passing with errors; the state survives an error. *)
Definition M (A : Type) : Type := World Data -> result A * World Data.

Definition ret {A} (a : A) : M A := fun w => (Ok a, w).
Definition fail {A} (e : error) : M A := fun w => (Err e, w).
Definition bind {A B} (m : M A) (k : A -> M B) : M B :=
  fun w =>
    match m w with
    | (Ok a, w') => k a w'
    | (Err e, w') => (Err e, w')
    end.
(** Run [m] and hand its error to the caller instead of propagating it. *)
Definition try {A} (m : M A) : M (result A) :=
  fun w => let '(r, w') := m w in (Ok r, w').
(** [if err != nil { return fmt.Errorf(prefix + "%w", err) }]. *)
Definition wrap {A} (prefix : string) (m : M A) : M A :=
  fun w =>
    match m w with
    | (Ok a, w') => (Ok a, w')
    | (Err e, w') => (Err (Wrap prefix e), w')
    end.

Definition set_kv (f : gmap string Data -> gmap string Data) : M unit :=
  fun w => (Ok tt,
            mkWorld (f (kv w)) (reachable w) (tick w) (sessions w) (sent w)).
Definition set_sessions
    (f : gmap string ConversationBuffer -> gmap string ConversationBuffer)
    : M unit :=
  fun w => (Ok tt,
            mkWorld (kv w) (reachable w) (tick w) (f (sessions w)) (sent w)).
Definition log_sent (r : AnthropicRequest.t) : M unit :=
  fun w => (Ok tt,
            mkWorld (kv w) (reachable w) (tick w) (sessions w)
                    (sent w ++ [r])).
End Monad.

Notation "'let*' x := m 'in' k" := (bind m (fun x => k))
  (at level 10, x pattern, m at level 100, k at level 200).

Module memory.

Section Store.
Context {Data : Type}.
Local Abbreviation M := (@M Data).
(** [json.Marshal] and [json.Unmarshal] of a [SessionData]. *)
Variable Marshal : SessionData.t -> result Data.
Variable Unmarshal : Data -> result SessionData.t.
(** The successive readings of the wall clock. *)
Variable clock : nat -> Time.

(** [time.Now()]. *)
Definition Now : M Time :=
  fun w => (Ok (clock (tick w)),
            mkWorld (kv w) (reachable w) (S (tick w)) (sessions w)
                    (sent w)).

Definition unreachable : error := Errorf "dial tcp: connection refused".

(** The commands of the Redis client. *)
Definition client_Get (key : string) : M Data :=
  fun w =>
    if reachable w then
      match kv w !! key with
      | Some data => (Ok data, w)
      | None => (Err RedisNil, w)
      end
    else (Err unreachable, w).

Definition client_Set (key : string) (data : Data) : M unit :=
  fun w =>
    if reachable w then set_kv (fun m => <[key := data]> m) w
    else (Err unreachable, w).

Definition client_Del (key : string) : M unit :=
  fun w =>
    if reachable w then set_kv (fun m => delete key m) w
    else (Err unreachable, w).

Definition client_Exists (key : string) : M Z :=
  fun w =>
    if reachable w then
      (Ok (if kv w !! key is Some _ then 1 else 0), w)
    else (Err unreachable, w).

(** **** RedisStore *)

Definition sessionKey (sessionID : string) : string :=
  "session:" +:+ sessionID.

Definition LoadSession (sessionID : string) : M SessionData.t :=
  let key := sessionKey sessionID in
  let* got := try (client_Get key) in
  match got with
  | Err RedisNil =>
      let* startedAt := Now in
      let* lastActivity := Now in
      ret (SessionData.mk sessionID EmptyString []
             (Metadata.mk startedAt lastActivity 0))
  | Err err => fail (Wrap "failed to load session from Redis: " err)
  | Ok data =>
      match Unmarshal data with
      | Err err => fail (Wrap "failed to parse session data: " err)
      | Ok session => ret session
      end
  end.

Definition saveSession (session : SessionData.t) : M unit :=
  let key := sessionKey (SessionData.SessionID session) in
  match Marshal session with
  | Err err => fail (Wrap "failed to marshal session: " err)
  | Ok data => wrap "failed to save session to Redis: " (client_Set key data)
  end.

Definition SaveMessage (sessionID userID : string) (msg : Message.t)
    : M unit :=
  let* session := wrap "failed to load session: " (LoadSession sessionID) in
  let userID' :=
    if is_empty (SessionData.UserID session) then userID
    else SessionData.UserID session in
  let messages := SessionData.Messages session ++ [msg] in
  let* lastActivity := Now in
  let messageCount := Z.of_nat (length messages) in
  let startedAt :=
    if messageCount =? 1 then Message.Timestamp msg
    else Metadata.StartedAt (SessionData.Metadata session) in
  saveSession
    (SessionData.mk (SessionData.SessionID session) userID' messages
       (Metadata.mk startedAt lastActivity messageCount)).

Definition GetMessages (sessionID : string) : M (list Message.t) :=
  let* session := LoadSession sessionID in
  ret (SessionData.Messages session).

Definition ClearSession (sessionID : string) : M unit :=
  wrap "failed to clear session: " (client_Del (sessionKey sessionID)).

Definition SessionExists (sessionID : string) : M bool :=
  let* n := wrap "failed to check session existence: "
                 (client_Exists (sessionKey sessionID)) in
  ret (0 <? n).

Definition UpdateActivity (sessionID : string) : M unit :=
  let* session := LoadSession sessionID in
  let* lastActivity := Now in
  let md := SessionData.Metadata session in
  saveSession
    (SessionData.mk (SessionData.SessionID session)
       (SessionData.UserID session) (SessionData.Messages session)
       (Metadata.mk (Metadata.StartedAt md) lastActivity
          (Metadata.MessageCount md))).

(** **** Manager *)

(** The role switch of the replay loop: the chat message built for a
    stored message, or [None] where the loop skips it. *)
Definition chatMessageOf (msg : Message.t) : option ChatMessage :=
  if String.eqb (Message.Role msg) "user" then
    Some (HumanChatMessage (Message.Content msg))
  else if String.eqb (Message.Role msg) "assistant" then
    Some (AIChatMessage (Message.Content msg))
  else if String.eqb (Message.Role msg) "system" then
    Some (SystemChatMessage (Message.Content msg))
  else None.

(** The replay loop: [AddMessage] appends to the buffer. *)
Definition replay (messages : list Message.t) : ConversationBuffer :=
  fold_left
    (fun mem msg =>
       match chatMessageOf msg with
       | Some chatMsg => mem ++ [chatMsg]
       | None => mem
       end)
    messages [].

Definition GetOrCreateSession (sessionID : string)
    : M ConversationBuffer :=
  fun w =>
    match sessions w !! sessionID with
    | Some mem => (Ok mem, w)
    | None =>
        (let* sessionData :=
           wrap "failed to load session: " (LoadSession sessionID) in
         let mem := replay (SessionData.Messages sessionData) in
         let* _ := set_sessions (fun c => <[sessionID := mem]> c) in
         ret mem) w
    end.

(** [mem.ChatHistory.AddMessage] on the buffer cached for [sessionID]. *)
Definition AddMessage (sessionID : string) (mem : ConversationBuffer)
    (chatMsg : ChatMessage) : M unit :=
  set_sessions (fun c => <[sessionID := mem ++ [chatMsg]]> c).

Definition SaveUserMessage (sessionID userID message : string) : M unit :=
  let* mem := GetOrCreateSession sessionID in
  let* _ := AddMessage sessionID mem (HumanChatMessage message) in
  let* timestamp := Now in
  let msg := Message.mk "user" message timestamp in
  let* _ := wrap "failed to save message to Redis: "
                 (SaveMessage sessionID userID msg) in
  ret tt.

Definition SaveAssistantMessage (sessionID userID message : string)
    : M unit :=
  let* mem := GetOrCreateSession sessionID in
  let* _ := AddMessage sessionID mem (AIChatMessage message) in
  let* timestamp := Now in
  let msg := Message.mk "assistant" message timestamp in
  let* _ := wrap "failed to save message to Redis: "
                 (SaveMessage sessionID userID msg) in
  ret tt.

Definition LoadHistoryFromRequest (sessionID : string)
    (history : list ConversationMessage.t) : M unit :=
  let* _ := GetOrCreateSession sessionID in
  let mem :=
    fold_left
      (fun mem msg =>
         if String.eqb (ConversationMessage.Role msg) "user" then
           mem ++ [HumanChatMessage (ConversationMessage.Message msg)]
         else if String.eqb (ConversationMessage.Role msg) "assistant" then
           mem ++ [AIChatMessage (ConversationMessage.Message msg)]
         else mem)
      history [] in
  set_sessions (fun c => <[sessionID := mem]> c).

Definition formatMessage (msg : ChatMessage) : string :=
  match msg with
  | HumanChatMessage content => "User: " +:+ content +:+ nl
  | AIChatMessage content => "Assistant: " +:+ content +:+ nl
  | SystemChatMessage content => "System: " +:+ content +:+ nl
  end.

Definition GetFormattedHistory (sessionID : string) : M string :=
  let* messages := GetOrCreateSession sessionID in
  match messages with
  | [] => ret "No previous conversation."
  | _ =>
      ret (fold_left (fun formatted msg => formatted +:+ formatMessage msg)
                     messages EmptyString)
  end.

Definition ManagerClearSession (sessionID : string) : M unit :=
  let* _ := set_sessions (fun c => delete sessionID c) in
  wrap "failed to clear session from Redis: " (ClearSession sessionID).

Definition GetActiveSessionCount : M Z :=
  fun w => (Ok (Z.of_nat (size (sessions w))), w).

End Store.

End memory.

(** ** Package llm: the memory-integrated Anthropic provider *)

(** [%d] of an integer, and its inverse. *)
Definition itoa (n : Z) : string := NilEmpty.string_of_int (Z.to_int n).
Definition atoi (s : string) : option Z :=
  option_map Z.of_int (NilEmpty.int_of_string s).

Module llm.

(** The raw literal [SystemPrompt] of [buildPromptWithHistory], cut at
    its three [%s] verbs. *)
Definition SystemPrompt_0 : string :=
  lines
    ["You are an AI assistant for CDNbuddy, a CDN management platform. Your job is to analyze user conversations and determine what CDN-related actions they want to perform.";
     EmptyString;
     "IMPORTANT RULES:";
     "1. Work on ONE action at a time, even if multiple actions are mentioned";
     "2. If multiple actions are mentioned, pick the first one mentioned";
     "3. Extract parameters from the conversation for the selected action";
     "4. If you need more information, ask specific questions";
     "5. When an action is complete, you can ask " +:+ quoted "Do you have any other requirements?";
     "6. IMPORTANT: Review the ENTIRE conversation history before responding - don't ask for information already provided";
     EmptyString;
     "RESPONSE FORMAT:";
     "You must respond with a valid JSON object in this exact format:";
     "{";
     " " +:+ quoted "action" +:+ ": " +:+ quoted "ACTION_NAME or null" +:+ ",";
     " " +:+ quoted "status" +:+ ": " +:+ quoted "NEEDS_INFO or READY" +:+ ",";
     " " +:+ quoted "parameters" +:+ ": {";
     " " +:+ quoted "param_name" +:+ ": " +:+ quoted "extracted_value or null";
     " },";
     " " +:+ quoted "user_message" +:+ ": " +:+ quoted "Your response to the user";
     "}";
     EmptyString;
     "Available Actions:";
     EmptyString].

Definition SystemPrompt_1 : string :=
  lines [EmptyString; EmptyString; "Conversation History:"; EmptyString].

Definition SystemPrompt_2 : string :=
  lines [EmptyString; EmptyString; "Current User Message: "].

Definition SystemPrompt_3 : string :=
  lines
    [EmptyString;
     EmptyString;
     "Analyze the FULL conversation history above and respond with the JSON format. Remember to check what information was already provided in previous messages."].

Definition buildActionsSection (actions : list ActionSchema.t) : string :=
  fold_left
    (fun builder action =>
       builder +:+
       ("- " +:+ ActionSchema.Action action +:+ ": requires ["
        +:+ strings.Join (ActionSchema.Parameters action) ", "
        +:+ "]" +:+ nl))
    actions EmptyString.

Definition buildPromptWithHistory (request : IntentRequest.t)
    (formattedHistory : string) : string :=
  let actionsSection :=
    buildActionsSection (IntentRequest.AvailableActions request) in
  SystemPrompt_0 +:+ actionsSection +:+ SystemPrompt_1
  +:+ formattedHistory +:+ SystemPrompt_2
  +:+ IntentRequest.UserMessage request +:+ SystemPrompt_3.

Definition extractJSON (content : string) : string :=
  let start := strings.IndexByte content "{" in
  if start =? -1 then EmptyString
  else
    let end_ := strings.LastIndexByte content "}" in
    if ((end_ =? -1) || (end_ <=? start))%bool then EmptyString
    else strings.slice content start (end_ + 1).

Section Parse.
Variable UnmarshalIntent : string -> result IntentResponse.t.

Definition parseIntentResponse (content : string)
    : result IntentResponse.t :=
  let jsonContent := extractJSON content in
  if is_empty jsonContent then
    Err (Errorf "no valid JSON found in response")
  else
    match UnmarshalIntent jsonContent with
    | Err err => Err (Wrap "failed to parse JSON: " err)
    | Ok response =>
        let response :=
          if is_empty (IntentResponse.Status response) then
            IntentResponse.set_UserMessage
              "I didn't understand your request clearly. Could you please rephrase what you'd like me to help you with regarding CDN setup or management?"
              (IntentResponse.set_Status models.StatusError response)
          else response in
        let response :=
          match IntentResponse.Parameters response with
          | None => IntentResponse.set_Parameters make_map response
          | Some _ => response
          end in
        Ok response
    end.
End Parse.

Section Provider.
Context {Data : Type}.
Local Abbreviation M := (@M Data).
Variable Marshal : SessionData.t -> result Data.
Variable Unmarshal : Data -> result SessionData.t.
Variable clock : nat -> Time.
(** The provider's [model] field. *)
Variable model : string.
(** [client.Do] followed by [io.ReadAll]: the transport error, or the
    status code with the body (or the error of reading it).  Marshalling
    the request and building the HTTP request do not fail on these
    values and are folded into the call. *)
Variable Do : AnthropicRequest.t -> result (Z * result string).
(** [json.Unmarshal] into [AnthropicError] (its [Message]), into
    [AnthropicResponse] (the [Text] of its content blocks) and into
    [IntentResponse]. *)
Variable UnmarshalError : string -> result string.
Variable UnmarshalResponse : string -> result (list string).
Variable UnmarshalIntent : string -> result IntentResponse.t.

Definition AnalyzeIntent (request : IntentRequest.t)
    : M IntentResponse.t :=
  let sessionID := IntentRequest.SessionID request in
  (* Step 1: save the user message *)
  let userID := "user_" +:+ sessionID in
  let* _ :=
    try (memory.SaveUserMessage Marshal Unmarshal clock sessionID userID
           (IntentRequest.UserMessage request)) in
  (* Step 2: load the conversation history *)
  let* loaded :=
    try (memory.GetFormattedHistory Unmarshal clock sessionID) in
  let formattedHistory :=
    match loaded with
    | Ok formatted => formatted
    | Err _ => "No previous conversation."
    end in
  (* Steps 3 to 5 *)
  let prompt := buildPromptWithHistory request formattedHistory in
  let anthropicReq :=
    AnthropicRequest.mk model 1000 "0.1"
      [AnthropicMessage.mk "user" prompt] in
  (* Steps 6 and 7: the HTTP round trip *)
  let* _ := log_sent anthropicReq in
  match Do anthropicReq with
  | Err err => fail (Wrap "failed to make HTTP request: " err)
  | Ok (_, Err err) => fail (Wrap "failed to read response body: " err)
  | Ok (status, Ok body) =>
      if negb (status =? 200) then
        match UnmarshalError body with
        | Err _ =>
            fail (Errorf ("API request failed with status "
                          +:+ itoa status +:+ ": " +:+ body))
        | Ok message => fail (Errorf ("anthropic API error: " +:+ message))
        end
      else
        (* Step 8 *)
        match UnmarshalResponse body with
        | Err err => fail (Wrap "failed to parse response: " err)
        | Ok texts =>
            let content :=
              match texts with
              | text :: _ => text
              | [] => EmptyString
              end in
            (* Step 9 *)
            match parseIntentResponse UnmarshalIntent content with
            | Err err => fail (Wrap "failed to parse intent response: " err)
            | Ok intentResponse =>
                let intentResponse :=
                  IntentResponse.set_SessionID sessionID intentResponse in
                (* Step 10: save the assistant response *)
                let* _ :=
                  if is_empty (IntentResponse.UserMessage intentResponse)
                  then ret (Ok tt)
                  else
                    try (memory.SaveAssistantMessage Marshal Unmarshal
                           clock sessionID userID
                           (IntentResponse.UserMessage intentResponse)) in
                ret intentResponse
            end
        end
  end.
End Provider.

End llm.

(** ** A JSON codec for sessions

    [SessionData] as the JSON value its struct tags describe, and back.
    The value is kept as a tree: strings are held as they are and instants
    as their integer count, where encoding/json writes text, coerces
    strings to valid UTF-8 and writes instants in RFC 3339; that codec is
    [SessionText] below.  The store definitions above take the codec as a
    parameter; this one instantiates it with [Json.value] as the serialised
    form, for the runs of the store and of the manager. *)

Module SessionJson.

Definition lookup_field (name : string) (ms : list (string * Json.value))
    : option Json.value :=
  match filter (fun kv => String.eqb (Json.fold_name kv.1) name) ms with
  | [] => None
  | kv :: rest => Some (List.last rest kv).2
  end.

Definition int_to_json (n : Z) : Json.value := Json.Number (itoa n).

Definition int_of_json (what : string) (v : option Json.value) (old : Z)
    : result Z :=
  match v with
  | None | Some Json.Null => Ok old
  | Some (Json.Number lit) =>
      match atoi lit with
      | Some n => Ok n
      | None => Err (Errorf ("json: cannot unmarshal number into " +:+ what))
      end
  | Some _ => Err (Errorf ("json: cannot unmarshal value into " +:+ what))
  end.

Definition string_of_json (what : string) (v : option Json.value)
    : result string :=
  match v with
  | None | Some Json.Null => Ok EmptyString
  | Some (Json.Str s) => Ok s
  | Some _ => Err (Errorf ("json: cannot unmarshal value into " +:+ what))
  end.

Definition message_to_json (m : Message.t) : Json.value :=
  Json.Object
    [("role", Json.Str (Message.Role m));
     ("content", Json.Str (Message.Content m));
     ("timestamp", int_to_json (Message.Timestamp m))].

Definition message_of_json (v : Json.value) : result Message.t :=
  match v with
  | Json.Null => Ok (Message.mk EmptyString EmptyString 0)
  | Json.Object ms =>
      match string_of_json "role" (lookup_field "role" ms),
            string_of_json "content" (lookup_field "content" ms),
            int_of_json "timestamp" (lookup_field "timestamp" ms) 0 with
      | Ok r, Ok c, Ok t => Ok (Message.mk r c t)
      | Err e, _, _ | _, Err e, _ | _, _, Err e => Err e
      end
  | _ => Err (Errorf "json: cannot unmarshal value into memory.Message")
  end.

Fixpoint messages_of_json (vs : list Json.value) : result (list Message.t) :=
  match vs with
  | [] => Ok []
  | v :: rest =>
      match message_of_json v, messages_of_json rest with
      | Ok m, Ok l => Ok (m :: l)
      | Err e, _ | _, Err e => Err e
      end
  end.

Definition metadata_to_json (md : Metadata.t) : Json.value :=
  Json.Object
    [("started_at", int_to_json (Metadata.StartedAt md));
     ("last_activity", int_to_json (Metadata.LastActivity md));
     ("message_count", int_to_json (Metadata.MessageCount md))].

Definition metadata_of_json (v : option Json.value) : result Metadata.t :=
  match v with
  | None | Some Json.Null => Ok (Metadata.mk 0 0 0)
  | Some (Json.Object ms) =>
      match int_of_json "started_at" (lookup_field "started_at" ms) 0,
            int_of_json "last_activity" (lookup_field "last_activity" ms) 0,
            int_of_json "message_count" (lookup_field "message_count" ms) 0
      with
      | Ok s, Ok l, Ok c => Ok (Metadata.mk s l c)
      | Err e, _, _ | _, Err e, _ | _, _, Err e => Err e
      end
  | Some _ => Err (Errorf "json: cannot unmarshal value into memory.Metadata")
  end.

Definition to_json (s : SessionData.t) : Json.value :=
  Json.Object
    [("session_id", Json.Str (SessionData.SessionID s));
     ("user_id", Json.Str (SessionData.UserID s));
     ("messages",
      Json.Array (map message_to_json (SessionData.Messages s)));
     ("metadata", metadata_to_json (SessionData.Metadata s))].

Definition Marshal (s : SessionData.t) : result Json.value :=
  Ok (to_json s).

Definition Unmarshal (v : Json.value) : result SessionData.t :=
  match v with
  | Json.Null => Ok (SessionData.mk EmptyString EmptyString []
                       (Metadata.mk 0 0 0))
  | Json.Object ms =>
      let msgs :=
        match lookup_field "messages" ms with
        | None | Some Json.Null => Ok []
        | Some (Json.Array vs) => messages_of_json vs
        | Some _ =>
            Err (Errorf "json: cannot unmarshal value into []memory.Message")
        end in
      match string_of_json "session_id" (lookup_field "session_id" ms),
            string_of_json "user_id" (lookup_field "user_id" ms),
            msgs,
            metadata_of_json (lookup_field "metadata" ms) with
      | Ok sid, Ok uid, Ok l, Ok md => Ok (SessionData.mk sid uid l md)
      | Err e, _, _, _ | _, Err e, _, _ | _, _, Err e, _ | _, _, _, Err e =>
          Err e
      end
  | _ => Err (Errorf "json: cannot unmarshal value into memory.SessionData")
  end.

End SessionJson.

(** ** Package time: the text of an instant

    [Time.MarshalJSON] and [Time.UnmarshalJSON] without their quotes: an
    instant, counted in nanoseconds from the Unix epoch, written in UTC
    in the layout of RFC 3339 with the fraction of the second cut after
    its last digit that is not zero, and read back from that layout with
    any zone offset.  Years outside 0 to 9999 are refused. *)

Module rfc3339.

Definition days_from_civil (y m d : Z) : Z :=
  let y := if m <=? 2 then y - 1 else y in
  let era := y / 400 in
  let yoe := y - era * 400 in
  let doy := (153 * (if 2 <? m then m - 3 else m + 9) + 2) / 5 + d - 1 in
  let doe := yoe * 365 + yoe / 4 - yoe / 100 + doy in
  era * 146097 + doe - 719468.

Definition civil_from_days (z : Z) : Z * Z * Z :=
  let z := z + 719468 in
  let era := z / 146097 in
  let doe := z - era * 146097 in
  let yoe := (doe - doe / 1460 + doe / 36524 - doe / 146096) / 365 in
  let doy := doe - (365 * yoe + yoe / 4 - yoe / 100) in
  let mp := (5 * doy + 2) / 153 in
  let d := doy - (153 * mp + 2) / 5 + 1 in
  let m := if mp <? 10 then mp + 3 else mp - 9 in
  (if m <=? 2 then yoe + era * 400 + 1 else yoe + era * 400, m, d).

Definition digit (n : Z) : ascii := ascii_of_N (48 + Z.to_N n).

(** [n] on [width] digits, for [0 <= n < 10 ^ width]. *)
Fixpoint pad (width : nat) (n : Z) : string :=
  match width with
  | O => EmptyString
  | S w => pad w (n / 10) +:+ String (digit (n mod 10)) EmptyString
  end.

Fixpoint trim_zeros (width : nat) (n : Z) : string :=
  match width with
  | O => EmptyString
  | S w => if n mod 10 =? 0 then trim_zeros w (n / 10) else pad width n
  end.

Definition Format (t : Time) : result string :=
  let secs := t / 1000000000 in
  let nanos := t mod 1000000000 in
  let '(y, m, d) := civil_from_days (secs / 86400) in
  let sod := secs mod 86400 in
  if (y <? 0) || (9999 <? y) then
    Err (Errorf "Time.MarshalJSON: year outside of range [0,9999]")
  else
    Ok (pad 4 y +:+ "-" +:+ pad 2 m +:+ "-" +:+ pad 2 d +:+ "T"
        +:+ pad 2 (sod / 3600) +:+ ":" +:+ pad 2 (sod mod 3600 / 60)
        +:+ ":" +:+ pad 2 (sod mod 60)
        +:+ (if nanos =? 0 then EmptyString
             else "." +:+ trim_zeros 9 nanos)
        +:+ "Z").

(** [width] digits at the head of the text. *)
Fixpoint number (width : nat) (acc : Z) (s : string) : option (Z * string) :=
  match width with
  | O => Some (acc, s)
  | S w =>
      match s with
      | String c r =>
          if strings.is_digit c then
            number w (acc * 10 + Z.of_N (N_of_ascii c) - 48) r
          else None
      | EmptyString => None
      end
  end.

(** The digits of a fraction, as nanoseconds: nine of them count. *)
Fixpoint fraction (left : nat) (acc : Z) (s : string) : Z * string :=
  match s with
  | String c r =>
      if strings.is_digit c then
        match left with
        | O => fraction O acc r
        | S l => fraction l (acc * 10 + Z.of_N (N_of_ascii c) - 48) r
        end
      else (acc * 10 ^ Z.of_nat left, s)
  | EmptyString => (acc * 10 ^ Z.of_nat left, s)
  end.

Definition expect (c : ascii) (s : string) : option string :=
  match s with
  | String a r => if Ascii.eqb a c then Some r else None
  | EmptyString => None
  end.

Definition days_in_month (y m : Z) : Z :=
  if m =? 2 then
    if ((y mod 4 =? 0) && negb (y mod 100 =? 0)) || (y mod 400 =? 0)
    then 29 else 28
  else if (m =? 4) || (m =? 6) || (m =? 9) || (m =? 11) then 30
  else 31.

Definition zone (s : string) : option (Z * string) :=
  match s with
  | String c r =>
      if Ascii.eqb c "Z" then Some (0, r)
      else if Ascii.eqb c "+" || Ascii.eqb c "-" then
        match number 2 0 r with
        | Some (h, r1) =>
            match expect ":" r1 with
            | Some r2 =>
                match number 2 0 r2 with
                | Some (mi, r3) =>
                    if (h <? 24) && (mi <? 60) then
                      Some ((if Ascii.eqb c "+" then 1 else -1)
                            * (h * 3600 + mi * 60), r3)
                    else None
                | None => None
                end
            | None => None
            end
        | None => None
        end
      else None
  | EmptyString => None
  end.

Definition fields (s : string) : option Time :=
  match number 4 0 s with
  | Some (y, s) =>
  match expect "-" s with
  | Some s =>
  match number 2 0 s with
  | Some (m, s) =>
  match expect "-" s with
  | Some s =>
  match number 2 0 s with
  | Some (d, s) =>
  match expect "T" s with
  | Some s =>
  match number 2 0 s with
  | Some (h, s) =>
  match expect ":" s with
  | Some s =>
  match number 2 0 s with
  | Some (mi, s) =>
  match expect ":" s with
  | Some s =>
  match number 2 0 s with
  | Some (sec, s) =>
      let '(nanos, s) :=
        match s with
        | String c (String c1 r1) =>
            if Ascii.eqb c "." && strings.is_digit c1 then
              fraction 9 0 (String c1 r1)
            else (0, s)
        | _ => (0, s)
        end in
      match zone s with
      | Some (offset, EmptyString) =>
          if (1 <=? m) && (m <=? 12) && (1 <=? d)
             && (d <=? days_in_month y m)
             && (h <? 24) && (mi <? 60) && (sec <? 60) then
            Some ((days_from_civil y m d * 86400 + h * 3600 + mi * 60
                   + sec - offset) * 1000000000 + nanos)
          else None
      | _ => None
      end
  | None => None end | None => None end | None => None end
  | None => None end | None => None end | None => None end
  | None => None end | None => None end | None => None end
  | None => None end | None => None end.

Definition Parse (s : string) : result Time :=
  match fields s with
  | Some t => Ok t
  | None =>
      Err (Errorf ("parsing time " +:+ quoted s
                   +:+ " as RFC 3339: cannot parse"))
  end.

(** The calendar year of an instant, and the instants that
    [Time.MarshalJSON] accepts. *)
Definition year (t : Time) : Z :=
  let '(y, _, _) := civil_from_days (t / 1000000000 / 86400) in y.

Definition in_range (t : Time) : Prop := 0 <= year t <= 9999.

End rfc3339.

(** ** Sessions as JSON text

    [json.Marshal(session)] and [json.Unmarshal(data, &session)] for
    [SessionData]: the members in the order of the struct fields under
    the names of their tags, strings as string literals, the message
    count as a number and the instants through [Time.MarshalJSON] and
    [Time.UnmarshalJSON], which are parameters here.  A nil slice of
    messages is not told from an empty one. *)

Module SessionText.

Section Codec.
Variable FormatTime : Time -> result string.
Variable ParseTime : string -> result Time.

Definition time_to_json (t : Time) : result Json.value :=
  match FormatTime t with
  | Ok text => Ok (Json.Str text)
  | Err e =>
      Err (Wrap "json: error calling MarshalJSON for type time.Time: " e)
  end.

Definition time_of_json (v : option Json.value) (old : Time)
    : result Time :=
  match v with
  | None | Some Json.Null => Ok old
  | Some (Json.Str text) => ParseTime text
  | Some _ => Err (Errorf "Time.UnmarshalJSON: input is not a JSON string")
  end.

Definition message_to_json (m : Message.t) : result Json.value :=
  match time_to_json (Message.Timestamp m) with
  | Ok t =>
      Ok (Json.Object
            [("role", Json.Str (Message.Role m));
             ("content", Json.Str (Message.Content m));
             ("timestamp", t)])
  | Err e => Err e
  end.

Fixpoint messages_to_json (l : list Message.t) : result (list Json.value) :=
  match l with
  | [] => Ok []
  | m :: rest =>
      match message_to_json m with
      | Ok v =>
          match messages_to_json rest with
          | Ok vs => Ok (v :: vs)
          | Err e => Err e
          end
      | Err e => Err e
      end
  end.

Definition metadata_to_json (md : Metadata.t) : result Json.value :=
  match time_to_json (Metadata.StartedAt md) with
  | Ok s =>
      match time_to_json (Metadata.LastActivity md) with
      | Ok l =>
          Ok (Json.Object
                [("started_at", s);
                 ("last_activity", l);
                 ("message_count",
                  Json.Number (itoa (Metadata.MessageCount md)))])
      | Err e => Err e
      end
  | Err e => Err e
  end.

Definition to_json (s : SessionData.t) : result Json.value :=
  match messages_to_json (SessionData.Messages s) with
  | Ok msgs =>
      match metadata_to_json (SessionData.Metadata s) with
      | Ok md =>
          Ok (Json.Object
                [("session_id", Json.Str (SessionData.SessionID s));
                 ("user_id", Json.Str (SessionData.UserID s));
                 ("messages", Json.Array msgs);
                 ("metadata", md)])
      | Err e => Err e
      end
  | Err e => Err e
  end.

Definition Marshal (s : SessionData.t) : result string :=
  match to_json s with
  | Ok v => Ok (Json.print v)
  | Err e => Err e
  end.

Definition message_of_json (v : Json.value) : result Message.t :=
  match v with
  | Json.Null => Ok (Message.mk EmptyString EmptyString 0)
  | Json.Object ms =>
      match SessionJson.string_of_json "role"
              (SessionJson.lookup_field "role" ms) with
      | Ok r =>
          match SessionJson.string_of_json "content"
                  (SessionJson.lookup_field "content" ms) with
          | Ok c =>
              match time_of_json (SessionJson.lookup_field "timestamp" ms)
                      0 with
              | Ok t => Ok (Message.mk r c t)
              | Err e => Err e
              end
          | Err e => Err e
          end
      | Err e => Err e
      end
  | _ => Err (Errorf "json: cannot unmarshal value into memory.Message")
  end.

Fixpoint messages_of_json (vs : list Json.value) : result (list Message.t) :=
  match vs with
  | [] => Ok []
  | v :: rest =>
      match message_of_json v with
      | Ok m =>
          match messages_of_json rest with
          | Ok l => Ok (m :: l)
          | Err e => Err e
          end
      | Err e => Err e
      end
  end.

Definition metadata_of_json (v : option Json.value) : result Metadata.t :=
  match v with
  | None | Some Json.Null => Ok (Metadata.mk 0 0 0)
  | Some (Json.Object ms) =>
      match time_of_json (SessionJson.lookup_field "started_at" ms) 0 with
      | Ok s =>
          match time_of_json (SessionJson.lookup_field "last_activity" ms)
                  0 with
          | Ok l =>
              match SessionJson.int_of_json "message_count"
                      (SessionJson.lookup_field "message_count" ms) 0 with
              | Ok c => Ok (Metadata.mk s l c)
              | Err e => Err e
              end
          | Err e => Err e
          end
      | Err e => Err e
      end
  | Some _ => Err (Errorf "json: cannot unmarshal value into memory.Metadata")
  end.

Definition of_json (v : Json.value) : result SessionData.t :=
  match v with
  | Json.Null => Ok (SessionData.mk EmptyString EmptyString []
                       (Metadata.mk 0 0 0))
  | Json.Object ms =>
      match SessionJson.string_of_json "session_id"
              (SessionJson.lookup_field "session_id" ms) with
      | Ok sid =>
          match SessionJson.string_of_json "user_id"
                  (SessionJson.lookup_field "user_id" ms) with
          | Ok uid =>
              match
                match SessionJson.lookup_field "messages" ms with
                | None | Some Json.Null => Ok []
                | Some (Json.Array vs) => messages_of_json vs
                | Some _ =>
                    Err (Errorf
                           "json: cannot unmarshal value into []memory.Message")
                end
              with
              | Ok l =>
                  match metadata_of_json
                          (SessionJson.lookup_field "metadata" ms) with
                  | Ok md => Ok (SessionData.mk sid uid l md)
                  | Err e => Err e
                  end
              | Err e => Err e
              end
          | Err e => Err e
          end
      | Err e => Err e
      end
  | _ => Err (Errorf "json: cannot unmarshal value into memory.SessionData")
  end.

Definition Unmarshal (data : string) : result SessionData.t :=
  match Json.parse data with
  | Some v => of_json v
  | None => Err (Errorf "invalid character in JSON text")
  end.

End Codec.

End SessionText.

(** The values whose compact text reads back: their numbers are decimal
    integers. *)
Fixpoint printable (v : Json.value) : Prop :=
  match v with
  | Json.Number lit => exists n : Z, lit = itoa n
  | Json.Array elems => fold_right (fun e P => printable e /\ P) True elems
  | Json.Object members =>
      fold_right (fun kv P => (let '(_, e) := kv in printable e) /\ P)
                 True members
  | _ => True
  end.

(** The text that may follow a value: nothing, a comma, or a closing
    bracket or brace. *)
Definition closes (rest : string) : Prop :=
  match rest with
  | EmptyString => True
  | String c _ => c = ","%char \/ c = "]"%char \/ c = "}"%char
  end.

(** A session as encoding/json gives it back: its strings coerced to
    valid UTF-8, the rest as it was. *)
Definition coerce_message (m : Message.t) : Message.t :=
  Message.mk (utf8.coerce (Message.Role m)) (utf8.coerce (Message.Content m))
             (Message.Timestamp m).

Definition coerce_session (s : SessionData.t) : SessionData.t :=
  SessionData.mk (utf8.coerce (SessionData.SessionID s))
                 (utf8.coerce (SessionData.UserID s))
                 (map coerce_message (SessionData.Messages s))
                 (SessionData.Metadata s).

(** The strings of a session are valid UTF-8. *)
Definition valid_message (m : Message.t) : Prop :=
  utf8.ValidString (Message.Role m) = true /\
  utf8.ValidString (Message.Content m) = true.

Definition valid_session (s : SessionData.t) : Prop :=
  utf8.ValidString (SessionData.SessionID s) = true /\
  utf8.ValidString (SessionData.UserID s) = true /\
  Forall valid_message (SessionData.Messages s).

(** The instants of a session. *)
Definition instants (s : SessionData.t) : list Time :=
  Metadata.StartedAt (SessionData.Metadata s)
  :: Metadata.LastActivity (SessionData.Metadata s)
  :: map Message.Timestamp (SessionData.Messages s).

(** Text that a string literal holds as it is: no byte of it is escaped. *)
Definition verbatim (s : string) : Prop :=
  forallb Json.html_safe (list_ascii_of_string s) = true.

(** An instant the time format carries: it is written, as text that
    needs no escape, and read back from that text. *)
Definition carried (FormatTime : Time -> result string)
    (ParseTime : string -> result Time) (t : Time) : Prop :=
  exists text,
    FormatTime t = Ok text /\ verbatim text /\ ParseTime text = Ok t.



(** ** Decoding the inbound request

    [json.Unmarshal] into a zero [IntentRequest].  A syntax error leaves
    the struct untouched; a value of the wrong type leaves its field as it
    was, is remembered as the error to return, and decoding goes on with
    the next member. *)

Module RequestJson.

Definition type_error (field : string) : error :=
  Errorf ("json: cannot unmarshal value into Go struct field IntentRequest."
          +:+ field).

Definition decode_strings (field : string) (v : Json.value)
    : result (list string) :=
  match v with
  | Json.Null => Ok []
  | Json.Array vs =>
      fold_right
        (fun v acc =>
           match v, acc with
           | Json.Str s, Ok l => Ok (s :: l)
           | Json.Null, Ok l => Ok (EmptyString :: l)
           | _, Ok _ => Err (type_error field)
           | _, Err e => Err e
           end)
        (Ok []) vs
  | _ => Err (type_error field)
  end.

Definition decode_message (v : Json.value) : result ConversationMessage.t :=
  match v with
  | Json.Null => Ok (ConversationMessage.mk EmptyString EmptyString)
  | Json.Object ms =>
      match SessionJson.string_of_json "role"
              (SessionJson.lookup_field "role" ms),
            SessionJson.string_of_json "message"
              (SessionJson.lookup_field "message" ms) with
      | Ok r, Ok m => Ok (ConversationMessage.mk r m)
      | Err e, _ | _, Err e => Err e
      end
  | _ => Err (type_error "conversation_history")
  end.

Definition decode_action (v : Json.value) : result ActionSchema.t :=
  match v with
  | Json.Null => Ok (ActionSchema.mk EmptyString [])
  | Json.Object ms =>
      match SessionJson.string_of_json "action"
              (SessionJson.lookup_field "action" ms),
            match SessionJson.lookup_field "parameters" ms with
            | None => Ok []
            | Some ps => decode_strings "parameters" ps
            end with
      | Ok a, Ok ps => Ok (ActionSchema.mk a ps)
      | Err e, _ | _, Err e => Err e
      end
  | _ => Err (type_error "available_actions")
  end.

Definition decode_list {A} (field : string)
    (decode : Json.value -> result A) (v : Json.value) : result (list A) :=
  match v with
  | Json.Null => Ok []
  | Json.Array vs =>
      fold_right
        (fun v acc =>
           match decode v, acc with
           | Ok a, Ok l => Ok (a :: l)
           | Err e, _ | _, Err e => Err e
           end)
        (Ok []) vs
  | _ => Err (type_error field)
  end.

Definition first_error (old new : option error) : option error :=
  match old with Some e => Some e | None => new end.

Definition decode_field (acc : IntentRequest.t * option error)
    (kv : string * Json.value) : IntentRequest.t * option error :=
  let '(r, err) := acc in
  let '(k, v) := kv in
  let name := Json.fold_name k in
  let sid := IntentRequest.SessionID r in
  let um := IntentRequest.UserMessage r in
  let h := IntentRequest.ConversationHistory r in
  let a := IntentRequest.AvailableActions r in
  if String.eqb name "session_id" then
    match v with
    | Json.Str s => (IntentRequest.mk s um h a, err)
    | Json.Null => (r, err)
    | _ => (r, first_error err (Some (type_error name)))
    end
  else if String.eqb name "user_message" then
    match v with
    | Json.Str s => (IntentRequest.mk sid s h a, err)
    | Json.Null => (r, err)
    | _ => (r, first_error err (Some (type_error name)))
    end
  else if String.eqb name "conversation_history" then
    match decode_list name decode_message v with
    | Ok l => (IntentRequest.mk sid um l a, err)
    | Err e => (r, first_error err (Some e))
    end
  else if String.eqb name "available_actions" then
    match decode_list name decode_action v with
    | Ok l => (IntentRequest.mk sid um h l, err)
    | Err e => (r, first_error err (Some e))
    end
  else (r, err).

Definition UnmarshalIntentRequest (data : string)
    : IntentRequest.t * option error :=
  match Json.parse data with
  | None =>
      (IntentRequest.zero,
       Some (Errorf "invalid character looking for beginning of value"))
  | Some Json.Null => (IntentRequest.zero, None)
  | Some (Json.Object ms) => fold_left decode_field ms (IntentRequest.zero, None)
  | Some _ =>
      (IntentRequest.zero,
       Some (Errorf "json: cannot unmarshal value into Go value of type models.IntentRequest"))
  end.

End RequestJson.

(** ** Reference instances

    A clock, a fresh world over the JSON codec, and the backends used to
    run the definitions on concrete inputs. *)

Module Ref.

Definition clock (n : nat) : Time := 1700000000000000000 + Z.of_nat n.

Definition fresh : World Json.value := mkWorld ∅ true 0 ∅ [].

(** A completion call that runs into the deadline, as a [callLLM] wired
    to the provider would; the [callLLM] of the source is
    [handlers.callLLM_placeholder]. *)
Definition callLLM_timeout (request : LLMRequest.t)
    : result LLMResponse.t :=
  Err (Wrap "failed to make HTTP request: " DeadlineExceeded).

(** A completion call answering with a fixed text. *)
Definition callLLM_text (text : string) (request : LLMRequest.t)
    : result LLMResponse.t :=
  Ok (LLMResponse.mk text (Usage.mk 100 50)).

Definition Do_timeout (request : AnthropicRequest.t)
    : result (Z * result string) :=
  Err DeadlineExceeded.

(** An HTTP round trip answering 200 with [body]; the envelope decoder
    below takes the body to be the text of the one content block. *)
Definition Do_text (body : string) (request : AnthropicRequest.t)
    : result (Z * result string) :=
  Ok (200, Ok body).
Definition UnmarshalResponse (body : string) : result (list string) :=
  Ok [body].
Definition UnmarshalError (body : string) : result string := Ok body.

(** Requests: a well-formed one, the same with a conversation history,
    one without session id, and the wire form of the first. *)
Definition request : IntentRequest.t :=
  IntentRequest.mk "s1" "set up a CDN called foo" []
    [ActionSchema.mk "CREATE_SERVICE" ["domain_name"]].

Definition request_with_history : IntentRequest.t :=
  IntentRequest.mk "s1" "set up a CDN called foo"
    [ConversationMessage.mk "user" "my domain is bar.example";
     ConversationMessage.mk "assistant" "Noted."]
    [ActionSchema.mk "CREATE_SERVICE" ["domain_name"]].

Definition request_no_session : IntentRequest.t :=
  IntentRequest.mk EmptyString "hello" [] [].

Definition request_data : string :=
  braced (quoted "session_id" +:+ ":" +:+ quoted "s1" +:+ ","
          +:+ quoted "user_message" +:+ ":"
          +:+ quoted "set up a CDN called foo" +:+ ","
          +:+ quoted "conversation_history" +:+ ":[],"
          +:+ quoted "available_actions" +:+ ":[{"
          +:+ quoted "action" +:+ ":" +:+ quoted "CREATE_SERVICE" +:+ ","
          +:+ quoted "parameters" +:+ ":[" +:+ quoted "domain_name"
          +:+ "]}]").

(** Completion texts: a JSON object, the object inside prose without
    braces, the object after prose that has braces of its own, and an
    object with a status outside the enumeration. *)
Definition object_body : string :=
  quoted "status" +:+ ":" +:+ quoted "READY".
Definition object_text : string := braced object_body.
Definition prose_plain : string :=
  "Here you go: " +:+ object_text +:+ " Anything else?".
Definition prose_with_braces : string :=
  "Use {braces}: " +:+ object_text.
Definition unknown_status_text : string :=
  "Sure: " +:+
  braced (quoted "status" +:+ ":" +:+ quoted "DONE" +:+ ","
          +:+ quoted "user_message" +:+ ":" +:+ quoted "ok").
Definition unknown_status_decoded : IntentResponse.t :=
  IntentResponse.mk EmptyString None "DONE" None "ok" None None.

(** The completion of the end-to-end scenario. *)
Definition scenario_completion : string :=
  braced (quoted "action" +:+ ":" +:+ quoted "CREATE_SERVICE" +:+ ","
          +:+ quoted "status" +:+ ":" +:+ quoted "NEEDS_INFO" +:+ ","
          +:+ quoted "parameters" +:+ ":{" +:+ quoted "domain_name" +:+ ":"
          +:+ quoted "foo" +:+ "},"
          +:+ quoted "user_message" +:+ ":"
          +:+ quoted "Got it, setting up foo. Any other requirements?").

(** Stored messages, one of them of a role the manager does not know,
    a record holding them, and a world whose store holds the record. *)
Definition m_user : Message.t := Message.mk "user" "hello" 5.
Definition m_tool : Message.t := Message.mk "tool" "lookup(foo)" 6.
Definition m_assistant : Message.t := Message.mk "assistant" "hi!" 7.

Definition record : SessionData.t :=
  SessionData.mk "s1" "u1" [m_user; m_tool; m_assistant]
    (Metadata.mk 5 9 3).

Definition empty_session : SessionData.t :=
  SessionData.mk "s1" EmptyString [] (Metadata.mk (clock 0) (clock 1) 0).

Definition stored : World Json.value :=
  mkWorld (<[memory.sessionKey "s1" := SessionJson.to_json record]> ∅)
          true 0 ∅ [].

End Ref.

(** ** Vocabulary of the properties *)

(** The three values a result's status may take. *)
Definition valid_status (s : string) : Prop :=
  s = models.StatusNeedsInfo \/ s = models.StatusReady
  \/ s = models.StatusError.

(** A well-formed error result: status [ERROR], the fixed fallback text,
    an empty (non-nil) parameter map and the given error code. *)
Definition error_result (code : string) (r : IntentResponse.t) : Prop :=
  IntentResponse.Status r = models.StatusError /\
  IntentResponse.UserMessage r = prompts.FallbackMessage /\
  IntentResponse.Parameters r = Some ∅ /\
  IntentResponse.ErrorCode r = Some code.

(** [content] has an opening brace somewhere before a closing brace. *)
Definition has_enclosing_braces (content : string) : Prop :=
  exists pre body post, content = pre +:+ braced body +:+ post.

(** The roles the replay loop of [GetOrCreateSession] knows. *)
Definition known_role (m : Message.t) : bool :=
  (String.eqb (Message.Role m) "user"
   || String.eqb (Message.Role m) "assistant"
   || String.eqb (Message.Role m) "system")%bool.

(** What a turn may leave in the Redis keyspace when it persists nothing
    but the user's message [text]: the keyspace as it was, or one record
    written whose last message is that user message. *)
Definition only_user_turn_written {Data : Type}
    (Marshal : SessionData.t -> result Data) (text : string)
    (before after : gmap string Data) : Prop :=
  after = before \/
  exists s d old t,
    Marshal s = Ok d /\
    after = <[memory.sessionKey (SessionData.SessionID s) := d]> before /\
    SessionData.Messages s = old ++ [Message.mk "user" text t].

(** Role and content of a cached chat message, as [GetFormattedHistory]
    and the stored [Message] name them. *)
Definition roleOf (c : ChatMessage) : string :=
  match c with
  | HumanChatMessage _ => "user"
  | AIChatMessage _ => "assistant"
  | SystemChatMessage _ => "system"
  end.

Definition contentOf (c : ChatMessage) : string :=
  match c with
  | HumanChatMessage content
  | AIChatMessage content
  | SystemChatMessage content => content
  end.

(** [c] is the cached form of the stored message [m]. *)
Definition projects (c : ChatMessage) (m : Message.t) : Prop :=
  memory.chatMessageOf m = Some c /\
  roleOf c = Message.Role m /\ contentOf c = Message.Content m.

(** The record [SaveMessage] hands to [saveSession], given the record it
    loaded, the message and the clock reading. *)
Definition appended (s0 : SessionData.t) (userID : string) (msg : Message.t)
    (now : Time) : SessionData.t :=
  let messages := SessionData.Messages s0 ++ [msg] in
  SessionData.mk (SessionData.SessionID s0)
    (if is_empty (SessionData.UserID s0) then userID
     else SessionData.UserID s0)
    messages
    (Metadata.mk
       (if Z.of_nat (length messages) =? 1 then Message.Timestamp msg
        else Metadata.StartedAt (SessionData.Metadata s0))
       now (Z.of_nat (length messages))).

(** The record [UpdateActivity] hands to [saveSession]. *)
Definition touched (s0 : SessionData.t) (now : Time) : SessionData.t :=
  let md := SessionData.Metadata s0 in
  SessionData.mk (SessionData.SessionID s0) (SessionData.UserID s0)
    (SessionData.Messages s0)
    (Metadata.mk (Metadata.StartedAt md) now (Metadata.MessageCount md)).

(** The two writes a session receives: an append and a touch. *)
Inductive Write : Type :=
| Append (msg : Message.t)
| Touch.

Definition written (s0 : SessionData.t) (userID : string) (op : Write)
    (now : Time) : SessionData.t :=
  match op with
  | Append msg => appended s0 userID msg now
  | Touch => touched s0 now
  end.

Section Scenarios.
Context {Data : Type}.
Variable Marshal : SessionData.t -> result Data.
Variable Unmarshal : Data -> result SessionData.t.
Variable clock : nat -> Time.

(** Appending [msgs] one after the other to a session, reading the
    record back after every append. *)
Fixpoint SaveMessages (sessionID userID : string) (msgs : list Message.t)
    : M (list SessionData.t) :=
  match msgs with
  | [] => ret []
  | msg :: rest =>
      let* _ := memory.SaveMessage Marshal Unmarshal clock sessionID userID
                  msg in
      let* record := memory.LoadSession Unmarshal clock sessionID in
      let* records := SaveMessages sessionID userID rest in
      ret (record :: records)
  end.

Definition write (sessionID userID : string) (op : Write) : M unit :=
  match op with
  | Append msg =>
      memory.SaveMessage Marshal Unmarshal clock sessionID userID msg
  | Touch => memory.UpdateActivity Marshal Unmarshal clock sessionID
  end.

(** Any sequence of writes to a session, the record read back after each. *)
Fixpoint Writes (sessionID userID : string) (ops : list Write)
    : M (list SessionData.t) :=
  match ops with
  | [] => ret []
  | op :: rest =>
      let* _ := write sessionID userID op in
      let* record := memory.LoadSession Unmarshal clock sessionID in
      let* records := Writes sessionID userID rest in
      ret (record :: records)
  end.
End Scenarios.

(** ** Package config

    The environment is the map of the variables that are set;
    [os.Getenv] gives the empty string for the others.  Durations are
    counted in nanoseconds, and [time.ParseDuration] is a parameter. *)

Module config.

Definition Getenv (env : gmap string string) (key : string) : string :=
  default EmptyString (env !! key).

Definition getEnv (env : gmap string string) (key defaultValue : string)
    : string :=
  let value := Getenv env key in
  if is_empty value then defaultValue else value.

Definition Second : Z := 1000000000.

Record t : Type := mk {
  ServiceName : string;
  Port : string;
  NatsURL : string;
  NatsRequestSubject : string;
  NatsTimeout : Z;
  AnthropicAPIKey : string;
  AnthropicModel : string;
  AnthropicTimeout : Z;
  RedisURL : string
}.

Section Durations.
Variable ParseDuration : string -> result Z.

Definition getDurationEnv (env : gmap string string) (key : string)
    (defaultValue : Z) : Z :=
  let value := Getenv env key in
  if is_empty value then defaultValue
  else
    match ParseDuration value with
    | Ok duration => duration
    | Err _ => defaultValue
    end.

(** [Load] of internal/config/config.go. *)
Definition Load (env : gmap string string) : result t :=
  let cfg :=
    mk (getEnv env "SERVICE_NAME" "cdnbuddy-intent")
       (getEnv env "PORT" "8083")
       (getEnv env "NATS_URL" "nats://localhost:4222")
       (getEnv env "NATS_REQUEST_SUBJECT" "intent.analyze")
       (getDurationEnv env "NATS_TIMEOUT" (10 * Second))
       (getEnv env "ANTHROPIC_API_KEY" EmptyString)
       (getEnv env "ANTHROPIC_MODEL" "claude-sonnet-4-20250514")
       (getDurationEnv env "ANTHROPIC_TIMEOUT" (30 * Second))
       (getEnv env "REDIS_URL" "redis://localhost:6379/0") in
  if is_empty (AnthropicAPIKey cfg) then
    Err (Errorf "ANTHROPIC_API_KEY is required")
  else Ok cfg.
End Durations.

End config.

(** The earlier configuration, without Redis: its [Load] cannot fail. *)
Module config_standalone.

Record t : Type := mk {
  NatsURL : string;
  NatsRequestSubject : string;
  NatsTimeout : Z;
  AnthropicAPIKey : string;
  AnthropicModel : string;
  AnthropicTimeout : Z;
  ServiceName : string
}.

Section Durations.
Variable ParseDuration : string -> result Z.

Definition Load (env : gmap string string) : t :=
  mk (config.getEnv env "NATS_URL" "nats://localhost:4222")
     (config.getEnv env "NATS_REQUEST_SUBJECT" "intent.analyze")
     (config.getDurationEnv ParseDuration env "NATS_TIMEOUT"
        (30 * config.Second))
     (config.getEnv env "ANTHROPIC_API_KEY" EmptyString)
     (config.getEnv env "ANTHROPIC_MODEL" "claude-3-5-sonnet-20241022")
     (config.getDurationEnv ParseDuration env "ANTHROPIC_TIMEOUT"
        (30 * config.Second))
     (config.getEnv env "SERVICE_NAME" "cdnbuddy-intent").
End Durations.

End config_standalone.

(** ** Package llm: the provider without memory

    The standalone [AnthropicProvider]: its prompt is built from the
    conversation history of the request, and nothing is persisted. *)

Module llm_standalone.

Definition SystemPrompt_0 : string :=
  lines
    ["You are an AI assistant for CDNbuddy, a CDN management platform. Your job is to analyze user conversations and determine what CDN-related actions they want to perform.";
     EmptyString;
     "IMPORTANT RULES:";
     "1. Work on ONE action at a time, even if multiple actions are mentioned";
     "2. If multiple actions are mentioned, pick the first one mentioned";
     "3. Extract parameters from the conversation for the selected action";
     "4. If you need more information, ask specific questions";
     "5. When an action is complete, you can ask " +:+ quoted "Do you have any other requirements?";
     EmptyString;
     "RESPONSE FORMAT:";
     "You must respond with a valid JSON object in this exact format:";
     "{";
     " " +:+ quoted "action" +:+ ": " +:+ quoted "ACTION_NAME or null" +:+ ",";
     " " +:+ quoted "status" +:+ ": " +:+ quoted "NEEDS_INFO or READY" +:+ ",";
     " " +:+ quoted "parameters" +:+ ": {";
     " " +:+ quoted "param_name" +:+ ": " +:+ quoted "extracted_value or null";
     " },";
     " " +:+ quoted "user_message" +:+ ": " +:+ quoted "Your response to the user";
     "}";
     EmptyString;
     "Available Actions:";
     EmptyString].

Definition SystemPrompt_1 : string :=
  lines [EmptyString; EmptyString; "Current Conversation:"; EmptyString].

Definition SystemPrompt_2 : string :=
  lines
    [EmptyString;
     EmptyString;
     "Analyze the conversation and respond with the JSON format above."].

Definition buildActionsSection (actions : list ActionSchema.t) : string :=
  fold_left
    (fun builder action =>
       builder +:+
       ("- " +:+ ActionSchema.Action action +:+ ": requires ["
        +:+ strings.Join (ActionSchema.Parameters action) ", "
        +:+ "]" +:+ nl))
    actions EmptyString.

Definition extractJSON (content : string) : string :=
  let start := strings.IndexByte content "{" in
  if start =? -1 then EmptyString
  else
    let end_ := strings.LastIndexByte content "}" in
    if ((end_ =? -1) || (end_ <=? start))%bool then EmptyString
    else strings.slice content start (end_ + 1).

Section Provider.
Variable Title : string -> string.
Variable model : string.
Variable Do : AnthropicRequest.t -> result (Z * result string).
Variable UnmarshalError : string -> result string.
Variable UnmarshalResponse : string -> result (list string).
Variable UnmarshalIntent : string -> result IntentResponse.t.

Definition buildConversationSection
    (history : list ConversationMessage.t) (currentMessage : string)
    : string :=
  let builder :=
    fold_left
      (fun builder msg =>
         builder +:+
         (Title (ConversationMessage.Role msg) +:+ ": "
          +:+ ConversationMessage.Message msg +:+ nl))
      history EmptyString in
  builder +:+ ("User: " +:+ currentMessage +:+ nl).

Definition buildPrompt (request : IntentRequest.t) : string :=
  let actionsSection :=
    buildActionsSection (IntentRequest.AvailableActions request) in
  let conversationSection :=
    buildConversationSection
      (IntentRequest.ConversationHistory request)
      (IntentRequest.UserMessage request) in
  SystemPrompt_0 +:+ actionsSection +:+ SystemPrompt_1
  +:+ conversationSection +:+ SystemPrompt_2.

Definition parseIntentResponse (content : string)
    : result IntentResponse.t :=
  let jsonContent := extractJSON content in
  if is_empty jsonContent then
    Err (Errorf "no valid JSON found in response")
  else
    match UnmarshalIntent jsonContent with
    | Err err => Err (Wrap "failed to parse JSON: " err)
    | Ok response =>
        let response :=
          if is_empty (IntentResponse.Status response) then
            IntentResponse.set_UserMessage
              "I didn't understand your request clearly. Could you please rephrase what you'd like me to help you with regarding CDN setup or management?"
              (IntentResponse.set_Status models.StatusError response)
          else response in
        let response :=
          match IntentResponse.Parameters response with
          | None => IntentResponse.set_Parameters make_map response
          | Some _ => response
          end in
        Ok response
    end.

(** The request body of the one completion call. *)
Definition anthropicRequestFor (request : IntentRequest.t)
    : AnthropicRequest.t :=
  AnthropicRequest.mk model 1000 "0.1"
    [AnthropicMessage.mk "user" (buildPrompt request)].

Definition AnalyzeIntent (request : IntentRequest.t)
    : result IntentResponse.t :=
  match Do (anthropicRequestFor request) with
  | Err err => Err (Wrap "failed to make HTTP request: " err)
  | Ok (_, Err err) => Err (Wrap "failed to read response body: " err)
  | Ok (status, Ok body) =>
      if negb (status =? 200) then
        match UnmarshalError body with
        | Err _ =>
            Err (Errorf ("API request failed with status "
                         +:+ itoa status +:+ ": " +:+ body))
        | Ok message => Err (Errorf ("anthropic API error: " +:+ message))
        end
      else
        match UnmarshalResponse body with
        | Err err => Err (Wrap "failed to parse response: " err)
        | Ok texts =>
            let content :=
              match texts with
              | text :: _ => text
              | [] => EmptyString
              end in
            match parseIntentResponse content with
            | Err err => Err (Wrap "failed to parse intent response: " err)
            | Ok intentResponse =>
                Ok (IntentResponse.set_SessionID
                      (IntentRequest.SessionID request) intentResponse)
            end
        end
  end.
End Provider.

End llm_standalone.

(** The provider stub that answers without calling the API. *)
Module llm_mock.

Definition AnalyzeIntent (request : IntentRequest.t)
    : result IntentResponse.t :=
  Ok (IntentResponse.mk
        (IntentRequest.SessionID request)
        (Some "CREATE_SERVICE")
        models.StatusNeedsInfo
        (Some ∅)
        "I understand you want to set up a CDN. What would you like to name your service?"
        None None).

End llm_mock.

(** ** Further vocabulary *)

(** A reply the caller can rely on: a status of the enumeration, a
    parameter map that is not nil and a user message that is not empty. *)
Definition well_formed (r : IntentResponse.t) : Prop :=
  valid_status (IntentResponse.Status r) /\
  IntentResponse.Parameters r <> None /\
  IntentResponse.UserMessage r <> EmptyString.

(** The messages of the record stored for a session: none when there is
    no record or when it does not decode. *)
Definition stored_messages {Data : Type}
    (Unmarshal : Data -> result SessionData.t) (w : World Data)
    (sessionID : string) : list Message.t :=
  match kv w !! memory.sessionKey sessionID with
  | Some d =>
      match Unmarshal d with
      | Ok s => SessionData.Messages s
      | Err _ => []
      end
  | None => []
  end.

(** What the store holds under the key of a session, if anything, decodes
    into a record that carries the id of that session. *)
Definition session_ok {Data : Type}
    (Unmarshal : Data -> result SessionData.t) (w : World Data)
    (sessionID : string) : Prop :=
  match kv w !! memory.sessionKey sessionID with
  | Some d =>
      exists s, Unmarshal d = Ok s /\ SessionData.SessionID s = sessionID
  | None => True
  end.

(** The cached buffer of a session, when there is one, is the replay of
    what the store holds for it. *)
Definition cache_consistent {Data : Type}
    (Unmarshal : Data -> result SessionData.t) (w : World Data)
    (sessionID : string) : Prop :=
  forall mem,
    sessions w !! sessionID = Some mem ->
    mem = memory.replay (stored_messages Unmarshal w sessionID).

(** The rendering of a buffer by [GetFormattedHistory]. *)
Definition formatted (messages : ConversationBuffer) : string :=
  fold_left (fun acc msg => acc +:+ memory.formatMessage msg)
            messages EmptyString.

(** The chat messages [LoadHistoryFromRequest] builds from a request
    history: user and assistant turns, the others dropped. *)
Definition chatOfRequestMessage (msg : ConversationMessage.t)
    : option ChatMessage :=
  if String.eqb (ConversationMessage.Role msg) "user" then
    Some (HumanChatMessage (ConversationMessage.Message msg))
  else if String.eqb (ConversationMessage.Role msg) "assistant" then
    Some (AIChatMessage (ConversationMessage.Message msg))
  else None.

(** More reference instances. *)
Module Fix.

Definition ParseDuration (s : string) : result Z :=
  if String.eqb s "5s" then Ok (5 * config.Second)
  else if String.eqb s "250ms" then Ok 250000000
  else Err (Errorf "time: invalid duration").

Definition env_ok : gmap string string :=
  <["ANTHROPIC_API_KEY" := "sk-test"]>
    (<["ANTHROPIC_TIMEOUT" := "5s"]>
       (<["NATS_TIMEOUT" := "soon"]> (<["PORT" := EmptyString]> ∅))).

Definition env_no_key : gmap string string :=
  <["ANTHROPIC_API_KEY" := EmptyString]> (<["PORT" := "9000"]> ∅).

(** A world whose store is down, with and without a cached session. *)
Definition down : World Json.value := mkWorld ∅ false 0 ∅ [].
Definition down_cached : World Json.value :=
  mkWorld ∅ false 0 (<["s1" := [HumanChatMessage "hello"]]> ∅) [].

(** A store of session documents as text, and a record whose one message
    holds the byte 255, which no UTF-8 text contains. *)
Definition text_store : World string := mkWorld ∅ true 0 ∅ [].

Definition invalid_content : string := String (ascii_of_N 255) "!".

Definition invalid_record : SessionData.t :=
  SessionData.mk "s1" "u1" [Message.mk "user" invalid_content 5]
    (Metadata.mk 5 9 1).

(** A world whose store holds something that is not a session. *)
Definition corrupt : World Json.value :=
  mkWorld (<[memory.sessionKey "s1" := Json.Str "garbage"]> ∅) true 0 ∅ [].

(** A world holding two sessions. *)
Definition other_record : SessionData.t :=
  SessionData.mk "s2" "u2" [Message.mk "user" "other" 3] (Metadata.mk 3 3 1).
Definition two_sessions : World Json.value :=
  mkWorld (<[memory.sessionKey "s2" := SessionJson.to_json other_record]>
             (kv Ref.stored))
          true 0 ∅ [].

(** A completion with an empty user message. *)
Definition silent_completion : string :=
  braced (quoted "status" +:+ ":" +:+ quoted "READY" +:+ ","
          +:+ quoted "user_message" +:+ ":" +:+ quoted EmptyString).

End Fix.

(** * Properties *)

(** ** Byte search and slicing *)

Section StringFacts.

Lemma app_nil (b : string) : EmptyString +:+ b = b.
Proof. reflexivity. Qed.

Lemma app_cons (x : ascii) (a b : string) :
  String x a +:+ b = String x (a +:+ b).
Proof. reflexivity. Qed.

Lemma length_app_string (a b : string) :
  String.length (a +:+ b) = (String.length a + String.length b)%nat.
Proof.
  induction a as [|x a IH]; rewrite ?app_nil, ?app_cons; simpl;
    [reflexivity | now f_equal].
Qed.

Lemma app_assoc_string (a b c : string) : (a +:+ b) +:+ c = a +:+ (b +:+ c).
Proof.
  induction a as [|x a IH]; rewrite ?app_nil, ?app_cons;
    [reflexivity | now f_equal].
Qed.

Lemma IndexByte_lower (s : string) (c : ascii) : -1 <= strings.IndexByte s c.
Proof.
  induction s as [|a r IH]; simpl; [lia |].
  destruct (Ascii.eqb a c); [lia |].
  destruct (Z.eqb_spec (strings.IndexByte r c) (-1)); lia.
Qed.

Lemma LastIndexByte_bounds (s : string) (c : ascii) :
  -1 <= strings.LastIndexByte s c < Z.of_nat (String.length s).
Proof.
  induction s as [|a r IH]; simpl String.length; simpl strings.LastIndexByte;
    [lia |].
  destruct (Z.eqb_spec (strings.LastIndexByte r c) (-1));
    [destruct (Ascii.eqb a c) |]; lia.
Qed.

Lemma IndexByte_absent (s : string) (c : ascii) :
  strings.IndexByte s c = -1 <-> strings.ContainsByte s c = false.
Proof.
  induction s as [|a r IH]; simpl; [tauto |].
  destruct (Ascii.eqb a c); simpl; [split; [lia | discriminate] |].
  pose proof (IndexByte_lower r c).
  destruct (Z.eqb_spec (strings.IndexByte r c) (-1)) as [E|E];
    rewrite <- IH; split; intros; try lia; tauto.
Qed.

Lemma LastIndexByte_absent (s : string) (c : ascii) :
  strings.LastIndexByte s c = -1 <-> strings.ContainsByte s c = false.
Proof.
  induction s as [|a r IH]; simpl; [tauto |].
  pose proof (LastIndexByte_bounds r c).
  destruct (Z.eqb_spec (strings.LastIndexByte r c) (-1)) as [E|E].
  - apply IH in E. rewrite E, orb_false_r.
    destruct (Ascii.eqb a c); split; intros; try lia; try discriminate;
      reflexivity.
  - split; [lia |]. intros H0. apply orb_false_elim in H0 as [_ H0].
    apply IH in H0. lia.
Qed.

(** The first occurrence lies right after a prefix free of the byte. *)
Lemma IndexByte_app (pre rest : string) (c : ascii) :
  strings.ContainsByte pre c = false ->
  strings.IndexByte (pre +:+ String c rest) c = Z.of_nat (String.length pre).
Proof.
  induction pre as [|a r IH]; rewrite ?app_nil, ?app_cons; simpl; intros H.
  - now rewrite Ascii.eqb_refl.
  - apply orb_false_elim in H as [Ha Hr]. rewrite Ha, (IH Hr).
    destruct (Z.eqb_spec (Z.of_nat (String.length r)) (-1)); lia.
Qed.

(** The last occurrence lies right before a suffix free of the byte. *)
Lemma LastIndexByte_app (s post : string) (c : ascii) :
  strings.ContainsByte post c = false ->
  strings.LastIndexByte (s +:+ String c post) c
  = Z.of_nat (String.length s).
Proof.
  intros H. induction s as [|a r IH]; rewrite ?app_nil, ?app_cons; simpl.
  - apply LastIndexByte_absent in H. rewrite H. simpl.
    now rewrite Ascii.eqb_refl.
  - rewrite IH.
    destruct (Z.eqb_spec (Z.of_nat (String.length r)) (-1)); lia.
Qed.

Lemma IndexByte_split (s : string) (c : ascii) :
  strings.IndexByte s c <> -1 ->
  exists pre rest,
    s = pre +:+ String c rest /\ strings.ContainsByte pre c = false.
Proof.
  induction s as [|a r IH]; simpl; [congruence |].
  destruct (Ascii.eqb_spec a c) as [->|Hne]; intros H.
  - exists EmptyString, r. split; reflexivity.
  - destruct (Z.eqb_spec (strings.IndexByte r c) (-1)) as [E|E];
      [congruence |].
    destruct (IH E) as (pre & rest & -> & Hpre).
    exists (String a pre), rest. split; [reflexivity |]. simpl.
    apply Ascii.eqb_neq in Hne. now rewrite Hne, Hpre.
Qed.

Lemma LastIndexByte_split (s : string) (c : ascii) :
  strings.LastIndexByte s c <> -1 ->
  exists body post,
    s = body +:+ String c post /\ strings.ContainsByte post c = false.
Proof.
  induction s as [|a r IH]; simpl; [congruence |].
  destruct (Z.eqb_spec (strings.LastIndexByte r c) (-1)) as [E|E]; intros H.
  - destruct (Ascii.eqb_spec a c) as [->|Hne]; [| congruence].
    exists EmptyString, r. split; [reflexivity |].
    now apply LastIndexByte_absent.
  - destruct (IH E) as (body & post & -> & Hpost).
    exists (String a body), post. split; [reflexivity | assumption].
Qed.

Lemma substring_skip (pre s : string) (n : nat) :
  substring (String.length pre) n (pre +:+ s) = substring 0 n s.
Proof.
  induction pre as [|a r IH]; rewrite ?app_nil, ?app_cons; simpl;
    [reflexivity | exact IH].
Qed.

Lemma substring_take (s post : string) :
  substring 0 (String.length s) (s +:+ post) = s.
Proof.
  induction s as [|a r IH]; rewrite ?app_nil, ?app_cons; simpl.
  - destruct post; reflexivity.
  - now rewrite IH.
Qed.

Lemma slice_middle (pre mid post : string) :
  strings.slice (pre +:+ mid +:+ post)
    (Z.of_nat (String.length pre))
    (Z.of_nat (String.length pre) + Z.of_nat (String.length mid))
  = mid.
Proof.
  unfold strings.slice.
  replace (Z.to_nat (Z.of_nat (String.length pre) +
                     Z.of_nat (String.length mid) -
                     Z.of_nat (String.length pre)))
    with (String.length mid) by lia.
  rewrite Nat2Z.id, substring_skip. apply substring_take.
Qed.

End StringFacts.

(** ** JSON extraction *)

Section ExtractFacts.

Lemma extractJSON_span (pre body post : string) :
  strings.ContainsByte pre lbrace = false ->
  strings.ContainsByte post rbrace = false ->
  prompts.extractJSON (pre +:+ braced body +:+ post) = braced body.
Proof.
  intros Hpre Hpost. unfold prompts.extractJSON, braced.
  change "{"%char with lbrace. change "}"%char with rbrace.
  rewrite app_cons, (IndexByte_app pre _ lbrace Hpre).
  assert (Hlast :
    strings.LastIndexByte
      (pre +:+ String lbrace ((body +:+ String rbrace EmptyString) +:+ post))
      rbrace
    = Z.of_nat (String.length pre) + 1 + Z.of_nat (String.length body)).
  { rewrite (app_assoc_string body), app_cons, app_nil.
    replace (pre +:+ String lbrace (body +:+ String rbrace post))
      with ((pre +:+ String lbrace body) +:+ String rbrace post)
      by (now rewrite app_assoc_string, app_cons).
    rewrite (LastIndexByte_app _ post rbrace Hpost).
    rewrite length_app_string. simpl String.length. lia. }
  rewrite Hlast.
  destruct (Z.eqb_spec (Z.of_nat (String.length pre)) (-1)); [lia |].
  destruct (Z.eqb_spec (Z.of_nat (String.length pre) + 1 +
                        Z.of_nat (String.length body)) (-1)); [lia |].
  destruct (Z.leb_spec (Z.of_nat (String.length pre) + 1 +
                        Z.of_nat (String.length body))
                       (Z.of_nat (String.length pre))); [lia |].
  simpl orb. cbv iota.
  rewrite <- (app_cons lbrace (body +:+ String rbrace EmptyString) post).
  pose proof (slice_middle pre
                (String lbrace (body +:+ String rbrace EmptyString)) post)
    as Hs.
  replace (Z.of_nat (String.length pre) + 1 + Z.of_nat (String.length body)
           + 1)
    with (Z.of_nat (String.length pre) +
          Z.of_nat (String.length
                      (String lbrace (body +:+ String rbrace EmptyString)))).
  - exact Hs.
  - simpl String.length. rewrite length_app_string. simpl String.length. lia.
Qed.

Lemma LastIndexByte_append (a b : string) (c : ascii) :
  strings.LastIndexByte (a +:+ b) c =
  if strings.LastIndexByte b c =? -1 then strings.LastIndexByte a c
  else Z.of_nat (String.length a) + strings.LastIndexByte b c.
Proof.
  induction a as [|x a IH]; rewrite ?app_nil, ?app_cons.
  - simpl. destruct (Z.eqb_spec (strings.LastIndexByte b c) (-1)); lia.
  - simpl strings.LastIndexByte. rewrite IH. simpl String.length.
    pose proof (LastIndexByte_bounds b c).
    destruct (Z.eqb_spec (strings.LastIndexByte b c) (-1)) as [E|E];
      [reflexivity |].
    destruct (Z.eqb_spec (Z.of_nat (String.length a) +
                          strings.LastIndexByte b c) (-1)); lia.
Qed.

Lemma extractJSON_found (content : string) :
  prompts.extractJSON content <> EmptyString ->
  exists pre body post,
    content = pre +:+ braced body +:+ post /\
    strings.ContainsByte pre lbrace = false /\
    strings.ContainsByte post rbrace = false.
Proof.
  unfold prompts.extractJSON.
  change "{"%char with lbrace. change "}"%char with rbrace.
  destruct (Z.eqb_spec (strings.IndexByte content lbrace) (-1)) as [E|E];
    [congruence |].
  destruct (IndexByte_split content lbrace E) as (pre & rest & -> & Hpre).
  rewrite (IndexByte_app pre rest lbrace Hpre).
  replace (pre +:+ String lbrace rest)
    with ((pre +:+ String lbrace EmptyString) +:+ rest)
    by (now rewrite app_assoc_string, app_cons, app_nil).
  rewrite LastIndexByte_append.
  pose proof (LastIndexByte_bounds (pre +:+ String lbrace EmptyString)
                rbrace) as Hb.
  rewrite length_app_string in Hb. simpl String.length in Hb.
  destruct (Z.eqb_spec (strings.LastIndexByte rest rbrace) (-1)) as [R|R].
  - destruct (Z.eqb_spec
                (strings.LastIndexByte (pre +:+ String lbrace EmptyString)
                   rbrace) (-1)); simpl orb; cbv iota; [congruence |].
    destruct (Z.leb_spec
                (strings.LastIndexByte (pre +:+ String lbrace EmptyString)
                   rbrace) (Z.of_nat (String.length pre)));
      [congruence | lia].
  - intros _.
    destruct (LastIndexByte_split rest rbrace R) as (body & post & -> & Hpost).
    exists pre, body, post. split; [| split; assumption].
    unfold braced.
    now rewrite !app_assoc_string, !app_cons, !app_nil,
      app_assoc_string, app_cons, app_nil.
Qed.

Lemma extractJSON_braced (body : string) :
  prompts.extractJSON (braced body) = braced body.
Proof.
  pose proof (extractJSON_span EmptyString body EmptyString
                eq_refl eq_refl) as H.
  rewrite app_nil in H.
  replace (braced body +:+ EmptyString) with (braced body) in H;
    [exact H |].
  generalize (braced body). intros s.
  induction s as [|a s IH]; rewrite ?app_nil, ?app_cons;
    [reflexivity | now f_equal].
Qed.

Lemma llm_extractJSON_eq (content : string) :
  llm.extractJSON content = prompts.extractJSON content.
Proof. reflexivity. Qed.

Lemma llm_parseIntentResponse_eq U (content : string) :
  llm.parseIntentResponse U content = prompts.ParseLLMResponse U content.
Proof. reflexivity. Qed.

End ExtractFacts.

(** ** The intent handler *)

Section HandlerFacts.
Variable callLLM : LLMRequest.t -> result LLMResponse.t.
Variable Unmarshal : string -> result IntentResponse.t.
Variable Title : string -> string.

Local Abbreviation ProcessIntent :=
  (handlers.ProcessIntent callLLM Unmarshal Title).
Local Abbreviation llmRequestFor := (handlers.llmRequestFor Title).

Lemma FallbackMessage_nonempty : prompts.FallbackMessage <> EmptyString.
Proof. discriminate. Qed.

Lemma is_empty_true (s : string) : is_empty s = true <-> s = EmptyString.
Proof. destruct s; simpl; split; congruence. Qed.

Lemma is_empty_false (s : string) : is_empty s = false <-> s <> EmptyString.
Proof. destruct s; simpl; split; congruence. Qed.

Lemma validStatuses_spec (s : string) :
  default false (handlers.validStatuses !! s) = true <-> valid_status s.
Proof.
  unfold handlers.validStatuses, valid_status.
  destruct (decide (s = models.StatusNeedsInfo)) as [->|H1];
    [rewrite lookup_insert_eq; simpl; tauto |].
  rewrite lookup_insert_ne by congruence.
  destruct (decide (s = models.StatusReady)) as [->|H2];
    [rewrite lookup_insert_eq; simpl; tauto |].
  rewrite lookup_insert_ne by congruence.
  destruct (decide (s = models.StatusError)) as [->|H3];
    [rewrite lookup_insert_eq; simpl; tauto |].
  rewrite lookup_insert_ne by congruence.
  rewrite lookup_empty. simpl. split; [discriminate | tauto].
Qed.

Lemma classic_valid (s : string) : valid_status s \/ ~ valid_status s.
Proof.
  destruct (default false (handlers.validStatuses !! s)) eqn:E.
  - left. now apply validStatuses_spec.
  - right. intros V. apply validStatuses_spec in V. congruence.
Qed.

Lemma createErrorResponse_error_result request code msg :
  error_result code (handlers.createErrorResponse request code msg).
Proof. repeat split. Qed.

(** What [validateAndCleanResponse] leaves behind, whatever it is given. *)
Lemma validateAndCleanResponse_sound (p : IntentResponse.t) :
  let r := handlers.validateAndCleanResponse p in
  valid_status (IntentResponse.Status r) /\
  IntentResponse.Parameters r <> None /\
  IntentResponse.UserMessage r <> EmptyString /\
  IntentResponse.SessionID r = IntentResponse.SessionID p.
Proof.
  unfold handlers.validateAndCleanResponse.
  destruct (default false (handlers.validStatuses !! IntentResponse.Status p))
    eqn:V; simpl negb; cbv iota.
  - apply validStatuses_spec in V.
    destruct (IntentResponse.Parameters p) eqn:P;
      destruct (is_empty (IntentResponse.UserMessage p)) eqn:U; simpl;
      rewrite ?P, ?U; simpl; rewrite ?P;
      repeat split; try assumption; try discriminate;
      now apply is_empty_false.
  - destruct (IntentResponse.Parameters p) eqn:P; simpl; rewrite ?P; simpl;
      repeat split; try discriminate; try congruence;
      right; right; reflexivity.
Qed.

(** C1. [ProcessIntent] always returns a response and a nil error, with a
    non-nil parameter map and a non-empty user message; and when the
    request is invalid, the completion call fails or the completion
    cannot be parsed, the response is the error result: status ERROR, the
    fixed non-empty fallback message and an empty parameter map. *)
Theorem ProcessIntent_never_raises (request : IntentRequest.t) :
  exists response,
    (ProcessIntent request).1 = Ok response /\
    IntentResponse.Parameters response <> None /\
    IntentResponse.UserMessage response <> EmptyString /\
    prompts.FallbackMessage <> EmptyString /\
    (forall err,
       handlers.validateRequest request = Some err ->
       error_result models.ErrorParseError response) /\
    (forall err,
       handlers.validateRequest request = None ->
       callLLM (llmRequestFor request) = Err err ->
       error_result models.ErrorLLMFailed response) /\
    (forall llmResponse err,
       handlers.validateRequest request = None ->
       callLLM (llmRequestFor request) = Ok llmResponse ->
       prompts.ParseLLMResponse Unmarshal (LLMResponse.Content llmResponse)
       = Err err ->
       error_result models.ErrorParseError response).
Proof.
  unfold handlers.ProcessIntent.
  destruct (handlers.validateRequest request) as [e|] eqn:V.
  - eexists. split; [reflexivity |].
    repeat split; try discriminate.
  - destruct (callLLM (llmRequestFor request)) as [llmResponse|e] eqn:C.
    + destruct (prompts.ParseLLMResponse Unmarshal
                  (LLMResponse.Content llmResponse)) as [p|e] eqn:P.
      * eexists. split; [reflexivity |].
        pose proof (validateAndCleanResponse_sound
                      (IntentResponse.set_SessionID
                         (IntentRequest.SessionID request) p))
          as (_ & Hp & Hu & _).
        split; [exact Hp |]. split; [exact Hu |].
        split; [discriminate |]. split; [intros ? [=] |].
        split; [intros ? _ [=] |].
        intros r e _ [= <-] E. rewrite P in E. discriminate.
      * eexists. split; [reflexivity |].
        repeat split; discriminate.
    + eexists. split; [reflexivity |].
      repeat split; discriminate.
Qed.

(** C7. A request whose session id or user message is empty gets the
    PARSE_ERROR error result at once, and no completion request is
    issued. *)
Theorem empty_field_is_parse_error (request : IntentRequest.t) :
  IntentRequest.SessionID request = EmptyString \/
  IntentRequest.UserMessage request = EmptyString ->
  exists response,
    ProcessIntent request = (Ok response, []) /\
    error_result models.ErrorParseError response /\
    IntentResponse.SessionID response = IntentRequest.SessionID request.
Proof.
  intros H. unfold handlers.ProcessIntent, handlers.validateRequest.
  destruct (is_empty (IntentRequest.SessionID request)) eqn:S.
  - eexists. split; [reflexivity |]. repeat split.
  - destruct H as [H|H].
    + apply is_empty_false in S. contradiction.
    + apply is_empty_true in H. rewrite H.
      eexists. split; [reflexivity |]. repeat split.
Qed.

Lemma validateAndCleanResponse_valid (p : IntentResponse.t) :
  valid_status (IntentResponse.Status p) ->
  let r := handlers.validateAndCleanResponse p in
  IntentResponse.Status r = IntentResponse.Status p /\
  IntentResponse.Parameters r
  = Some (default ∅ (IntentResponse.Parameters p)) /\
  IntentResponse.UserMessage r
  = (if is_empty (IntentResponse.UserMessage p)
     then "How can I help you with your CDN setup?"
     else IntentResponse.UserMessage p).
Proof.
  intros V. apply validStatuses_spec in V.
  unfold handlers.validateAndCleanResponse. rewrite V. simpl negb. cbv iota.
  destruct (IntentResponse.Parameters p) eqn:P;
    destruct (is_empty (IntentResponse.UserMessage p)) eqn:U; simpl;
    rewrite ?P, ?U; simpl; rewrite ?P; repeat split; reflexivity.
Qed.

Lemma validateAndCleanResponse_invalid (p : IntentResponse.t) :
  ~ valid_status (IntentResponse.Status p) ->
  let r := handlers.validateAndCleanResponse p in
  IntentResponse.Status r = models.StatusError /\
  IntentResponse.Parameters r
  = Some (default ∅ (IntentResponse.Parameters p)) /\
  IntentResponse.UserMessage r = prompts.FallbackMessage.
Proof.
  intros V.
  assert (V' : default false
                 (handlers.validStatuses !! IntentResponse.Status p) = false).
  { destruct (default false _) eqn:E; [| reflexivity].
    apply validStatuses_spec in E. contradiction. }
  unfold handlers.validateAndCleanResponse. rewrite V'. simpl negb. cbv iota.
  destruct (IntentResponse.Parameters p) eqn:P; simpl; rewrite ?P; simpl;
    rewrite ?P; repeat split; reflexivity.
Qed.

(** The response [ParseLLMResponse] builds from a decoded struct [d]. *)
Lemma ParseLLMResponse_decoded (content : string) (d : IntentResponse.t) :
  prompts.extractJSON content <> EmptyString ->
  Unmarshal (prompts.extractJSON content) = Ok d ->
  exists parsed,
    prompts.ParseLLMResponse Unmarshal content = Ok parsed /\
    IntentResponse.Status parsed
    = (if is_empty (IntentResponse.Status d) then models.StatusError
       else IntentResponse.Status d) /\
    IntentResponse.UserMessage parsed
    = (if is_empty (IntentResponse.Status d) then prompts.FallbackMessage
       else IntentResponse.UserMessage d) /\
    IntentResponse.Parameters parsed
    = Some (default ∅ (IntentResponse.Parameters d)).
Proof.
  intros NE HU. unfold prompts.ParseLLMResponse.
  apply is_empty_false in NE. rewrite NE, HU.
  eexists. split; [reflexivity |].
  destruct d as [sid act st pa um ec em]; simpl.
  destruct (is_empty st); destruct pa; repeat split; reflexivity.
Qed.

Lemma ProcessIntent_parsed request llmResponse parsed :
  handlers.validateRequest request = None ->
  callLLM (llmRequestFor request) = Ok llmResponse ->
  prompts.ParseLLMResponse Unmarshal (LLMResponse.Content llmResponse)
  = Ok parsed ->
  ProcessIntent request
  = (Ok (handlers.validateAndCleanResponse
           (IntentResponse.set_SessionID (IntentRequest.SessionID request)
              parsed)),
     [llmRequestFor request]).
Proof.
  intros V C P. unfold handlers.ProcessIntent. now rewrite V, C, P.
Qed.

(** C2. When the completion text decodes into a struct [d], the response
    [ProcessIntent] delivers is the repaired one: a status outside the
    three known values (a missing one included) becomes ERROR with the
    fallback message, a known one is kept; an absent parameter map
    becomes the empty map, a present one is kept; and an empty user
    message is replaced, by the generic prompt under a known status and
    by the fallback message of the first rule otherwise, so that the user
    message is never empty.  The provider's [parseIntentResponse] is the
    same function as [ParseLLMResponse]. *)
Theorem repair_pass (request : IntentRequest.t)
    (llmResponse : LLMResponse.t) (d : IntentResponse.t) :
  let content := LLMResponse.Content llmResponse in
  handlers.validateRequest request = None ->
  callLLM (llmRequestFor request) = Ok llmResponse ->
  prompts.extractJSON content <> EmptyString ->
  Unmarshal (prompts.extractJSON content) = Ok d ->
  exists r,
    (ProcessIntent request).1 = Ok r /\
    llm.parseIntentResponse Unmarshal content
    = prompts.ParseLLMResponse Unmarshal content /\
    (~ valid_status (IntentResponse.Status d) ->
     IntentResponse.Status r = models.StatusError /\
     IntentResponse.UserMessage r = prompts.FallbackMessage) /\
    (valid_status (IntentResponse.Status d) ->
     IntentResponse.Status r = IntentResponse.Status d) /\
    (IntentResponse.Parameters d = None ->
     IntentResponse.Parameters r = Some ∅) /\
    (forall m, IntentResponse.Parameters d = Some m ->
               IntentResponse.Parameters r = Some m) /\
    (valid_status (IntentResponse.Status d) ->
     IntentResponse.UserMessage d = EmptyString ->
     IntentResponse.UserMessage r
     = "How can I help you with your CDN setup?") /\
    (valid_status (IntentResponse.Status d) ->
     IntentResponse.UserMessage d <> EmptyString ->
     IntentResponse.UserMessage r = IntentResponse.UserMessage d) /\
    (IntentResponse.UserMessage d = EmptyString ->
     IntentResponse.UserMessage r = "How can I help you with your CDN setup?"
     \/ IntentResponse.UserMessage r = prompts.FallbackMessage) /\
    IntentResponse.UserMessage r <> EmptyString /\
    valid_status (IntentResponse.Status r) /\
    IntentResponse.Parameters r <> None.
Proof.
  intros content V C NE HU.
  destruct (ParseLLMResponse_decoded content d NE HU)
    as (parsed & HP & HS & HM & HPa).
  rewrite (ProcessIntent_parsed request llmResponse parsed V C HP).
  set (p := IntentResponse.set_SessionID (IntentRequest.SessionID request)
              parsed).
  assert (HS' : IntentResponse.Status p = IntentResponse.Status parsed)
    by reflexivity.
  assert (HM' : IntentResponse.UserMessage p
                = IntentResponse.UserMessage parsed) by reflexivity.
  assert (HPa' : IntentResponse.Parameters p
                 = IntentResponse.Parameters parsed) by reflexivity.
  pose proof (validateAndCleanResponse_sound p) as (S1 & S2 & S3 & _).
  eexists. split; [reflexivity |]. split; [reflexivity |].
  assert (Hparams : IntentResponse.Parameters
                      (handlers.validateAndCleanResponse p)
                    = Some (default ∅ (IntentResponse.Parameters d))).
  { destruct (classic_valid (IntentResponse.Status p)) as [Vp|Vp].
    - destruct (validateAndCleanResponse_valid p Vp) as (_ & -> & _).
      now rewrite HPa', HPa.
    - destruct (validateAndCleanResponse_invalid p Vp) as (_ & -> & _).
      now rewrite HPa', HPa. }
  assert (Hbad : ~ valid_status (IntentResponse.Status d) ->
            IntentResponse.Status (handlers.validateAndCleanResponse p)
            = models.StatusError /\
            IntentResponse.UserMessage (handlers.validateAndCleanResponse p)
            = prompts.FallbackMessage).
  { intros Vd.
    destruct (is_empty (IntentResponse.Status d)) eqn:E.
    + assert (Vp : valid_status (IntentResponse.Status p))
        by (rewrite HS', HS; right; right; reflexivity).
      destruct (validateAndCleanResponse_valid p Vp) as (-> & _ & ->).
      rewrite HS', HS, HM', HM. split; reflexivity.
    + assert (Vp : ~ valid_status (IntentResponse.Status p))
        by (now rewrite HS', HS).
      destruct (validateAndCleanResponse_invalid p Vp) as (-> & _ & ->).
      split; reflexivity. }
  assert (Hgeneric : valid_status (IntentResponse.Status d) ->
            IntentResponse.UserMessage d = EmptyString ->
            IntentResponse.UserMessage (handlers.validateAndCleanResponse p)
            = "How can I help you with your CDN setup?").
  { intros Vd Ud.
    assert (E : is_empty (IntentResponse.Status d) = false).
    { apply is_empty_false. intros E. rewrite E in Vd.
      destruct Vd as [?|[?|?]]; discriminate. }
    rewrite E in HS, HM.
    assert (Vp : valid_status (IntentResponse.Status p))
      by (now rewrite HS', HS).
    destruct (validateAndCleanResponse_valid p Vp) as (_ & _ & ->).
    now rewrite HM', HM, Ud. }
  split; [exact Hbad |].
  split; [| split; [| split; [| split; [exact Hgeneric | split; [| split]]]]].
  - intros Vd.
    assert (E : is_empty (IntentResponse.Status d) = false).
    { apply is_empty_false. intros E. rewrite E in Vd.
      destruct Vd as [?|[?|?]]; discriminate. }
    rewrite E in HS.
    assert (Vp : valid_status (IntentResponse.Status p))
      by (now rewrite HS', HS).
    destruct (validateAndCleanResponse_valid p Vp) as (-> & _ & _).
    now rewrite HS', HS.
  - intros Pd. rewrite Hparams, Pd. reflexivity.
  - intros m Pd. rewrite Hparams, Pd. reflexivity.
  - intros Vd Ud.
    assert (E : is_empty (IntentResponse.Status d) = false).
    { apply is_empty_false. intros E. rewrite E in Vd.
      destruct Vd as [?|[?|?]]; discriminate. }
    rewrite E in HS, HM.
    assert (Vp : valid_status (IntentResponse.Status p))
      by (now rewrite HS', HS).
    destruct (validateAndCleanResponse_valid p Vp) as (_ & _ & ->).
    rewrite HM', HM. apply is_empty_false in Ud. now rewrite Ud.
  - intros Ud.
    destruct (classic_valid (IntentResponse.Status d)) as [Vd|Vd].
    + left. now apply Hgeneric.
    + right. now apply Hbad.
  - split; [exact S3 |]. split; [exact S1 | exact S2].
Qed.

(** C3 (amended). [extractJSON] returns the span from the first opening
    brace to the last closing brace: on a text made of a prefix without
    opening brace, a braced body and a suffix without closing brace it
    returns the braced body, and whenever it returns a non-empty span the
    text has that form.  A completion without enclosing braces makes
    [ProcessIntent] answer with the PARSE_ERROR error result.  And where
    the text around a braced body has no opening brace before it and no
    closing brace after it, parsing the whole text gives what parsing
    the braced body alone gives: whenever the braced body decodes to an
    object, the parse of the whole text succeeds and returns that object,
    as it is when it has a status and a parameter map, and otherwise with
    the parser's defaults for the missing ones. *)
Theorem extract_first_to_last_brace :
  (forall pre body post,
     strings.ContainsByte pre lbrace = false ->
     strings.ContainsByte post rbrace = false ->
     prompts.extractJSON (pre +:+ braced body +:+ post) = braced body) /\
  (forall content,
     prompts.extractJSON content <> EmptyString ->
     exists pre body post,
       content = pre +:+ braced body +:+ post /\
       strings.ContainsByte pre lbrace = false /\
       strings.ContainsByte post rbrace = false /\
       prompts.extractJSON content = braced body) /\
  (forall request llmResponse,
     handlers.validateRequest request = None ->
     callLLM (llmRequestFor request) = Ok llmResponse ->
     ~ has_enclosing_braces (LLMResponse.Content llmResponse) ->
     exists r,
       ProcessIntent request = (Ok r, [llmRequestFor request]) /\
       error_result models.ErrorParseError r) /\
  (forall pre body post,
     strings.ContainsByte pre lbrace = false ->
     strings.ContainsByte post rbrace = false ->
     prompts.ParseLLMResponse Unmarshal (pre +:+ braced body +:+ post)
     = prompts.ParseLLMResponse Unmarshal (braced body)) /\
  (forall pre body post d,
     strings.ContainsByte pre lbrace = false ->
     strings.ContainsByte post rbrace = false ->
     Unmarshal (braced body) = Ok d ->
     prompts.ParseLLMResponse Unmarshal (pre +:+ braced body +:+ post)
     = Ok (let d :=
             if is_empty (IntentResponse.Status d) then
               IntentResponse.set_UserMessage prompts.FallbackMessage
                 (IntentResponse.set_Status models.StatusError d)
             else d in
           IntentResponse.set_Parameters
             (Some (default ∅ (IntentResponse.Parameters d))) d) /\
     (IntentResponse.Status d <> EmptyString ->
      IntentResponse.Parameters d <> None ->
      prompts.ParseLLMResponse Unmarshal (pre +:+ braced body +:+ post)
      = Ok d)).
Proof.
  split; [exact extractJSON_span |]. split; [| split; [| split]].
  - intros content NE.
    destruct (extractJSON_found content NE)
      as (pre & body & post & -> & Hpre & Hpost).
    exists pre, body, post. repeat split; try assumption.
    now apply extractJSON_span.
  - intros request llmResponse V C NB.
    assert (E : prompts.extractJSON (LLMResponse.Content llmResponse)
                = EmptyString).
    { destruct (prompts.extractJSON (LLMResponse.Content llmResponse))
        as [|a r] eqn:E; [reflexivity |].
      exfalso. apply NB.
      destruct (extractJSON_found (LLMResponse.Content llmResponse))
        as (pre & body & post & H & _); [rewrite E; discriminate |].
      now exists pre, body, post. }
    unfold handlers.ProcessIntent. rewrite V, C.
    unfold prompts.ParseLLMResponse. rewrite E. simpl.
    eexists. split; [reflexivity |]. repeat split.
  - intros pre body post Hpre Hpost. unfold prompts.ParseLLMResponse.
    now rewrite (extractJSON_span pre body post Hpre Hpost),
      extractJSON_braced.
  - intros pre body post d Hpre Hpost HU.
    unfold prompts.ParseLLMResponse.
    rewrite (extractJSON_span pre body post Hpre Hpost).
    assert (NE : is_empty (braced body) = false) by reflexivity.
    rewrite NE, HU. destruct d as [sid act st pa um ec em]; simpl.
    split.
    + destruct (is_empty st); destruct pa; reflexivity.
    + intros Hst Hpa. apply is_empty_false in Hst. rewrite Hst.
      destruct pa; [reflexivity | congruence].
Qed.

End HandlerFacts.

(** ** The session store *)

Section StoreFacts.
Context {Data : Type}.
Variable Marshal : SessionData.t -> result Data.
Variable Unmarshal : Data -> result SessionData.t.
Variable clock : nat -> Time.

Local Abbreviation LoadSession := (memory.LoadSession Unmarshal clock).
Local Abbreviation saveSession := (memory.saveSession Marshal).
Local Abbreviation SaveMessage :=
  (memory.SaveMessage Marshal Unmarshal clock).
Local Abbreviation GetOrCreateSession :=
  (memory.GetOrCreateSession Unmarshal clock).

Lemma LoadSession_absent (w : World Data) (sessionID : string) :
  reachable w = true ->
  kv w !! memory.sessionKey sessionID = None ->
  LoadSession sessionID w
  = (Ok (SessionData.mk sessionID EmptyString []
           (Metadata.mk (clock (tick w)) (clock (S (tick w))) 0)),
     mkWorld (kv w) (reachable w) (S (S (tick w))) (sessions w) (sent w)).
Proof.
  intros R K.
  unfold memory.LoadSession, bind, try, memory.client_Get, memory.Now, ret.
  rewrite R, K. simpl. now rewrite R.
Qed.

Lemma LoadSession_stored (w : World Data) (sessionID : string) d s :
  reachable w = true ->
  kv w !! memory.sessionKey sessionID = Some d ->
  Unmarshal d = Ok s ->
  LoadSession sessionID w = (Ok s, w).
Proof.
  intros R K U. unfold memory.LoadSession, bind, try, memory.client_Get.
  rewrite R, K, U. reflexivity.
Qed.

(** [LoadSession] reads: it only advances the clock. *)
Lemma LoadSession_frame (w w' : World Data) (sessionID : string) r :
  LoadSession sessionID w = (r, w') ->
  kv w' = kv w /\ reachable w' = reachable w /\
  sessions w' = sessions w /\ sent w' = sent w.
Proof.
  unfold memory.LoadSession, bind, try, memory.client_Get.
  destruct (reachable w) eqn:R.
  - destruct (kv w !! memory.sessionKey sessionID) as [d|].
    + destruct (Unmarshal d); intros [= <- <-]; repeat split; congruence.
    + intros [= <- <-]. repeat split; simpl; congruence.
  - intros [= <- <-]. repeat split; congruence.
Qed.

Lemma saveSession_ok (w : World Data) (s : SessionData.t) d :
  reachable w = true ->
  Marshal s = Ok d ->
  saveSession s w
  = (Ok tt,
     mkWorld (<[memory.sessionKey (SessionData.SessionID s) := d]> (kv w))
             (reachable w) (tick w) (sessions w) (sent w)).
Proof.
  intros R Hm. unfold memory.saveSession, wrap, memory.client_Set, set_kv.
  rewrite Hm, R. reflexivity.
Qed.

(** What [saveSession] can do to the keyspace. *)
Lemma saveSession_kv (w w' : World Data) (s : SessionData.t) r :
  saveSession s w = (r, w') ->
  reachable w' = reachable w /\ sessions w' = sessions w /\
  sent w' = sent w /\ tick w' = tick w /\
  (kv w' = kv w \/
   exists d, Marshal s = Ok d /\
             kv w' = <[memory.sessionKey (SessionData.SessionID s) := d]>
                       (kv w)).
Proof.
  unfold memory.saveSession, wrap, memory.client_Set, set_kv, fail.
  destruct (Marshal s) as [d|e] eqn:Hm.
  - destruct (reachable w) eqn:R; intros [= <- <-]; simpl;
      repeat split; try assumption; eauto.
  - intros [= <- <-]. repeat split. now left.
Qed.

Lemma SaveMessage_loaded (w w0 : World Data) sessionID userID msg s0 :
  LoadSession sessionID w = (Ok s0, w0) ->
  SaveMessage sessionID userID msg w
  = saveSession (appended s0 userID msg (clock (tick w0)))
      (mkWorld (kv w0) (reachable w0) (S (tick w0)) (sessions w0) (sent w0)).
Proof.
  intros L. unfold memory.SaveMessage, bind, wrap at 1. rewrite L.
  reflexivity.
Qed.

Lemma SaveMessage_failed_load (w w0 : World Data) sessionID userID msg e :
  LoadSession sessionID w = (Err e, w0) ->
  SaveMessage sessionID userID msg w
  = (Err (Wrap "failed to load session: " e), w0).
Proof.
  intros L. unfold memory.SaveMessage, bind, wrap at 1. rewrite L.
  reflexivity.
Qed.

(** [SaveMessage] writes nothing, or one record ending with [msg]. *)
Lemma SaveMessage_kv (w w' : World Data) sessionID userID msg r :
  SaveMessage sessionID userID msg w = (r, w') ->
  sessions w' = sessions w /\ sent w' = sent w /\
  (kv w' = kv w \/
   exists s d,
     Marshal s = Ok d /\
     kv w' = <[memory.sessionKey (SessionData.SessionID s) := d]> (kv w) /\
     exists old, SessionData.Messages s = old ++ [msg]).
Proof.
  destruct (LoadSession sessionID w) as [[s0|e] w0] eqn:L.
  - rewrite (SaveMessage_loaded w w0 _ _ _ s0 L).
    destruct (LoadSession_frame _ _ _ _ L) as (K & R & S & T).
    intros H. apply saveSession_kv in H as (_ & S' & T' & _ & H).
    simpl in *. rewrite S', T'. repeat split; try assumption.
    destruct H as [H|(d & Hm & H)]; [left; congruence |].
    right. exists (appended s0 userID msg (clock (tick w0))), d.
    rewrite H, K. repeat split; try assumption.
    now exists (SessionData.Messages s0).
  - rewrite (SaveMessage_failed_load w w0 _ _ _ e L).
    destruct (LoadSession_frame _ _ _ _ L) as (K & R & S & T).
    intros [= <- <-]. repeat split; try assumption. now left.
Qed.

(** [LoadSession] right after [saveSession] finds, under the key of the
    session, what was encoded, and decodes it. *)
Lemma saveSession_LoadSession (w : World Data)
    (session reloaded : SessionData.t) d :
  reachable w = true ->
  Marshal session = Ok d ->
  Unmarshal d = Ok reloaded ->
  exists w1,
    saveSession session w = (Ok tt, w1) /\
    kv w1 !! memory.sessionKey (SessionData.SessionID session) = Some d /\
    LoadSession (SessionData.SessionID session) w1 = (Ok reloaded, w1) /\
    memory.GetMessages Unmarshal clock (SessionData.SessionID session) w1
    = (Ok (SessionData.Messages reloaded), w1).
Proof.
  intros R Hm Hu. eexists.
  split; [exact (saveSession_ok w session d R Hm) |].
  assert (L : LoadSession (SessionData.SessionID session)
                (mkWorld
                   (<[memory.sessionKey (SessionData.SessionID session)
                      := d]> (kv w))
                   (reachable w) (tick w) (sessions w) (sent w))
              = (Ok reloaded,
                 mkWorld
                   (<[memory.sessionKey (SessionData.SessionID session)
                      := d]> (kv w))
                   (reachable w) (tick w) (sessions w) (sent w))).
  { apply LoadSession_stored with (d := d); simpl;
      [assumption | apply lookup_insert_eq | assumption]. }
  split; [apply lookup_insert_eq |].
  split; [exact L |].
  unfold memory.GetMessages, bind. now rewrite L.
Qed.

End StoreFacts.

Section AppendFacts.
Context {Data : Type}.
Variable Marshal : SessionData.t -> result Data.
Variable Unmarshal : Data -> result SessionData.t.
Variable clock : nat -> Time.

(** The codec encodes every record and decodes it back; the wall clock
    never runs backwards. *)
Hypothesis codec_ok :
  forall s, exists d, Marshal s = Ok d /\ Unmarshal d = Ok s.
Hypothesis clock_mono :
  forall i j : nat, (i <= j)%nat -> clock i <= clock j.

Local Abbreviation LoadSession := (memory.LoadSession Unmarshal clock).
Local Abbreviation SaveMessage :=
  (memory.SaveMessage Marshal Unmarshal clock).
Local Abbreviation SaveMessages := (SaveMessages Marshal Unmarshal clock).

Lemma SaveMessage_step (w w0 : World Data) sessionID userID msg s0 :
  reachable w = true ->
  LoadSession sessionID w = (Ok s0, w0) ->
  SessionData.SessionID s0 = sessionID ->
  exists w1,
    SaveMessage sessionID userID msg w = (Ok tt, w1) /\
    LoadSession sessionID w1
    = (Ok (appended s0 userID msg (clock (tick w0))), w1) /\
    reachable w1 = true /\ tick w1 = S (tick w0).
Proof.
  intros R L Hid.
  destruct (LoadSession_frame _ _ _ _ _ _ L) as (K & R0 & _).
  rewrite (SaveMessage_loaded Marshal Unmarshal clock w w0 _ userID msg s0 L).
  destruct (codec_ok (appended s0 userID msg (clock (tick w0))))
    as (d & Hm & Hu).
  eexists. split; [apply saveSession_ok; simpl; [congruence | exact Hm] |].
  simpl. split; [| split; [congruence | reflexivity]].
  apply LoadSession_stored with (d := d); simpl;
    [congruence | rewrite Hid; apply lookup_insert_eq | exact Hu].
Qed.

Lemma write_step (w w0 : World Data) sessionID userID op s0 :
  reachable w = true ->
  LoadSession sessionID w = (Ok s0, w0) ->
  SessionData.SessionID s0 = sessionID ->
  exists w1,
    write Marshal Unmarshal clock sessionID userID op w = (Ok tt, w1) /\
    LoadSession sessionID w1
    = (Ok (written s0 userID op (clock (tick w0))), w1) /\
    reachable w1 = true /\ tick w1 = S (tick w0).
Proof.
  intros R L Hid. destruct op as [msg|].
  - exact (SaveMessage_step w w0 sessionID userID msg s0 R L Hid).
  - destruct (LoadSession_frame _ _ _ _ _ _ L) as (K & R0 & _).
    unfold write, memory.UpdateActivity, bind at 1. rewrite L.
    unfold bind, memory.Now.
    destruct (codec_ok (touched s0 (clock (tick w0)))) as (d & Hm & Hu).
    eexists. split.
    { apply (saveSession_ok Marshal _ (touched s0 (clock (tick w0))) d);
        simpl; [congruence | exact Hm]. }
    simpl. split; [| split; [congruence | reflexivity]].
    apply LoadSession_stored with (d := d); simpl;
      [congruence | rewrite Hid; apply lookup_insert_eq | exact Hu].
Qed.

Lemma Writes_records sessionID userID (ops : list Write) :
  forall (w w0 : World Data) s0,
    reachable w = true ->
    LoadSession sessionID w = (Ok s0, w0) ->
    SessionData.SessionID s0 = sessionID ->
    exists records w',
      Writes Marshal Unmarshal clock sessionID userID ops w
      = (Ok records, w') /\
      length records = length ops /\
      forall k record,
        records !! k = Some record ->
        Metadata.LastActivity (SessionData.Metadata record)
        = clock (tick w0 + k).
Proof.
  induction ops as [|op rest IH]; intros w w0 s0 R L Hid.
  - exists [], w. split; [reflexivity |]. split; [reflexivity |].
    intros k record H. discriminate.
  - destruct (write_step w w0 sessionID userID op s0 R L Hid)
      as (w1 & HS & HL & R1 & T1).
    set (s1 := written s0 userID op (clock (tick w0))) in *.
    assert (Hid1 : SessionData.SessionID s1 = sessionID)
      by (destruct op; exact Hid).
    destruct (IH w1 w1 s1 R1 HL Hid1) as (records & w' & HR & Hlen & Hrec).
    exists (s1 :: records), w'. split.
    { simpl. unfold bind at 1. rewrite HS. unfold bind at 1. rewrite HL.
      unfold bind at 1. rewrite HR. reflexivity. }
    split; [simpl; congruence |].
    intros [|k] record H.
    + injection H as <-. rewrite Nat.add_0_r. destruct op; reflexivity.
    + rewrite (Hrec k record H), T1. f_equal. lia.
Qed.

Lemma SaveMessages_records sessionID userID (msgs : list Message.t) :
  forall (w w0 : World Data) s0,
    reachable w = true ->
    LoadSession sessionID w = (Ok s0, w0) ->
    SessionData.SessionID s0 = sessionID ->
    exists records w',
      SaveMessages sessionID userID msgs w = (Ok records, w') /\
      length records = length msgs /\
      forall k record,
        records !! k = Some record ->
        SessionData.Messages record
        = SessionData.Messages s0 ++ take (S k) msgs /\
        Metadata.MessageCount (SessionData.Metadata record)
        = Z.of_nat (length (SessionData.Messages record)) /\
        (SessionData.Messages s0 = [] ->
         forall m, head msgs = Some m ->
           Metadata.StartedAt (SessionData.Metadata record)
           = Message.Timestamp m) /\
        (SessionData.Messages s0 <> [] ->
         Metadata.StartedAt (SessionData.Metadata record)
         = Metadata.StartedAt (SessionData.Metadata s0)) /\
        Metadata.LastActivity (SessionData.Metadata record)
        = clock (tick w0 + k).
Proof.
  induction msgs as [|msg rest IH]; intros w w0 s0 R L Hid.
  - exists [], w. split; [reflexivity |]. split; [reflexivity |].
    intros k record H. discriminate.
  - destruct (SaveMessage_step w w0 sessionID userID msg s0 R L Hid)
      as (w1 & HS & HL & R1 & T1).
    set (s1 := appended s0 userID msg (clock (tick w0))) in *.
    destruct (IH w1 w1 s1 R1 HL Hid) as (records & w' & HR & Hlen & Hrec).
    exists (s1 :: records), w'. split.
    { simpl. unfold bind at 1. rewrite HS. unfold bind at 1. rewrite HL.
      unfold bind at 1. rewrite HR. reflexivity. }
    split; [simpl; congruence |].
    assert (Hstart0 :
      SessionData.Messages s0 = [] ->
      Metadata.StartedAt (SessionData.Metadata s1) = Message.Timestamp msg).
    { intros E. unfold s1, appended. simpl. now rewrite E. }
    assert (Hstart1 :
      SessionData.Messages s0 <> [] ->
      Metadata.StartedAt (SessionData.Metadata s1)
      = Metadata.StartedAt (SessionData.Metadata s0)).
    { intros E. unfold s1, appended. simpl.
      destruct (SessionData.Messages s0) as [|x l]; [congruence |].
      simpl length. rewrite length_app. simpl length.
      destruct (Z.eqb_spec (Z.of_nat (S (length l + 1))) 1); [lia |].
      reflexivity. }
    assert (Hne : SessionData.Messages s1 <> []).
    { unfold s1, appended. simpl.
      destruct (SessionData.Messages s0); discriminate. }
    intros [|k] record H.
    + injection H as <-. simpl take.
      split; [reflexivity |]. split; [reflexivity |].
      split; [intros E m [= <-]; now apply Hstart0 |].
      split; [exact Hstart1 |].
      simpl. now rewrite Nat.add_0_r.
    + destruct (Hrec k record H) as (HM & HC & _ & HSt & HLa).
      split.
      { rewrite HM. unfold s1, appended. simpl.
        now rewrite <- app_assoc. }
      split; [exact HC |].
      split; [intros E m [= <-]; rewrite (HSt Hne); now apply Hstart0 |].
      split; [intros E; rewrite (HSt Hne); now apply Hstart1 |].
      rewrite HLa, T1. f_equal. lia.
Qed.


End AppendFacts.

(** ** The memory manager *)

Section ManagerFacts.
Context {Data : Type}.
Variable Marshal : SessionData.t -> result Data.
Variable Unmarshal : Data -> result SessionData.t.
Variable clock : nat -> Time.

Local Abbreviation LoadSession := (memory.LoadSession Unmarshal clock).
Local Abbreviation GetOrCreateSession :=
  (memory.GetOrCreateSession Unmarshal clock).

Lemma replay_from (msgs : list Message.t) (mem : ConversationBuffer) :
  fold_left
    (fun mem msg =>
       match memory.chatMessageOf msg with
       | Some chatMsg => mem ++ [chatMsg]
       | None => mem
       end) msgs mem
  = mem ++ omap memory.chatMessageOf msgs.
Proof.
  revert mem. induction msgs as [|m rest IH]; intros mem; simpl.
  - now rewrite app_nil_r.
  - rewrite IH. destruct (memory.chatMessageOf m); [| reflexivity].
    now rewrite <- app_assoc.
Qed.

Lemma replay_omap (msgs : list Message.t) :
  memory.replay msgs = omap memory.chatMessageOf msgs.
Proof. unfold memory.replay. now rewrite replay_from. Qed.

Lemma known_role_spec (m : Message.t) :
  known_role m = true <->
  Message.Role m = "user" \/ Message.Role m = "assistant"
  \/ Message.Role m = "system".
Proof.
  unfold known_role. rewrite !orb_true_iff, !String.eqb_eq. tauto.
Qed.

Lemma chatMessageOf_known (m : Message.t) :
  known_role m = true -> exists c, projects c m.
Proof.
  unfold known_role, projects, memory.chatMessageOf.
  destruct (String.eqb_spec (Message.Role m) "user") as [E|_];
    [eexists; repeat split; now rewrite E |].
  destruct (String.eqb_spec (Message.Role m) "assistant") as [E|_];
    [eexists; repeat split; now rewrite E |].
  destruct (String.eqb_spec (Message.Role m) "system") as [E|_];
    [eexists; repeat split; now rewrite E |].
  discriminate.
Qed.

Lemma chatMessageOf_unknown (m : Message.t) :
  known_role m = false -> memory.chatMessageOf m = None.
Proof.
  unfold known_role, memory.chatMessageOf.
  destruct (String.eqb (Message.Role m) "user"); [discriminate |].
  destruct (String.eqb (Message.Role m) "assistant"); [discriminate |].
  destruct (String.eqb (Message.Role m) "system"); [discriminate |].
  reflexivity.
Qed.

(** The projection pairs up, in order, with the stored messages of a
    known role. *)
Lemma replay_filter (msgs : list Message.t) :
  Forall2 projects (memory.replay msgs) (List.filter known_role msgs).
Proof.
  rewrite replay_omap. induction msgs as [|m rest IH]; simpl; [constructor |].
  destruct (known_role m) eqn:K.
  - destruct (chatMessageOf_known m K) as (c & Hc).
    destruct Hc as (Hc & Hr & Ht). rewrite Hc. simpl.
    constructor; [repeat split; assumption | exact IH].
  - now rewrite (chatMessageOf_unknown m K).
Qed.

Lemma replay_length (msgs : list Message.t) :
  length (memory.replay msgs) = length (List.filter known_role msgs).
Proof. exact (Forall2_length _ _ _ (replay_filter msgs)). Qed.

Lemma filter_length_lt (msgs : list Message.t) :
  Exists (fun m => known_role m = false) msgs ->
  (length (List.filter known_role msgs) < length msgs)%nat.
Proof.
  induction 1 as [m rest H|m rest H IH]; simpl.
  - rewrite H. pose proof (List.filter_length_le known_role rest). lia.
  - destruct (known_role m); simpl; lia.
Qed.

Lemma GetOrCreateSession_hit (w : World Data) sessionID mem :
  sessions w !! sessionID = Some mem ->
  GetOrCreateSession sessionID w = (Ok mem, w).
Proof. intros H. unfold memory.GetOrCreateSession. now rewrite H. Qed.

Lemma GetOrCreateSession_miss (w w0 : World Data) sessionID s :
  sessions w !! sessionID = None ->
  LoadSession sessionID w = (Ok s, w0) ->
  GetOrCreateSession sessionID w
  = (Ok (memory.replay (SessionData.Messages s)),
     mkWorld (kv w0) (reachable w0) (tick w0)
       (<[sessionID := memory.replay (SessionData.Messages s)]> (sessions w))
       (sent w0)).
Proof.
  intros H L. unfold memory.GetOrCreateSession. rewrite H.
  unfold bind, wrap. rewrite L. unfold set_sessions, ret.
  destruct (LoadSession_frame _ _ _ _ _ _ L) as (_ & _ & -> & _).
  reflexivity.
Qed.

Lemma GetOrCreateSession_frame (w w' : World Data) sessionID r :
  GetOrCreateSession sessionID w = (r, w') ->
  kv w' = kv w /\ sent w' = sent w /\ reachable w' = reachable w.
Proof.
  unfold memory.GetOrCreateSession.
  destruct (sessions w !! sessionID) as [mem|].
  - intros [= <- <-]. repeat split.
  - unfold bind, wrap.
    destruct (LoadSession sessionID w) as [[s|e] w0] eqn:L;
      destruct (LoadSession_frame _ _ _ _ _ _ L) as (K & R & _ & T);
      intros [= <- <-]; simpl; repeat split; assumption.
Qed.

(** A write to a session whose record carries its id leaves the keys of
    the other sessions alone. *)
Lemma SaveMessage_other_key (w w' : World Data) (other sessionID : string)
    userID msg r :
  other <> sessionID ->
  session_ok Unmarshal w other ->
  memory.SaveMessage Marshal Unmarshal clock other userID msg w = (r, w') ->
  kv w' !! ("session:" +:+ sessionID) = kv w !! ("session:" +:+ sessionID).
Proof.
  intros Hne Hok HS.
  destruct (LoadSession other w) as [[s0|e] w0] eqn:L.
  - assert (Hid : SessionData.SessionID s0 = other).
    { revert L. unfold session_ok in Hok.
      unfold memory.LoadSession, bind, try, memory.client_Get.
      destruct (reachable w); [| discriminate].
      destruct (kv w !! memory.sessionKey other) as [d|].
      - destruct Hok as (s & Hu & Hs). rewrite Hu. now intros [= <- _].
      - unfold memory.Now, ret. simpl. now intros [= <- _]. }
    destruct (LoadSession_frame _ _ _ _ _ _ L) as (K0 & _).
    rewrite (SaveMessage_loaded Marshal Unmarshal clock w w0 _ _ _ s0 L)
      in HS.
    apply saveSession_kv in HS as (_ & _ & _ & _ & HK). simpl in HK.
    destruct HK as [HK|(d & _ & HK)]; rewrite HK, ?K0; [reflexivity |].
    apply lookup_insert_ne. rewrite Hid. unfold memory.sessionKey.
    rewrite !app_cons, !app_nil. intros E. apply Hne. now inversion E.
  - rewrite (SaveMessage_failed_load Marshal Unmarshal clock w w0 _ _ _ e L)
      in HS.
    destruct (LoadSession_frame _ _ _ _ _ _ L) as (K0 & _).
    injection HS as _ <-. now rewrite K0.
Qed.

(** C6 (amended). [GetOrCreateSession] returns the cached buffer of a
    cached session and changes nothing.  For a session that is not
    cached, while the store answers: when the store holds nothing under
    the key "session:" followed by the id, the empty buffer is returned
    without error and cached, the store being left as it is; when it
    holds a record there, the replay of the record's messages is returned
    and cached, in their order (message by message when every role is
    known).  A write to another session does not make the session seen.
    When the store does not answer, a session that is not cached gets the
    error of the store, wrapped, and nothing is cached. *)
Theorem load_or_create (w : World Data) (sessionID : string) :
  (sessions w !! sessionID = None ->
   reachable w = true ->
   kv w !! ("session:" +:+ sessionID) = None ->
   exists w',
     GetOrCreateSession sessionID w = (Ok [], w') /\
     sessions w' = <[sessionID := []]> (sessions w) /\
     kv w' = kv w) /\
  (forall mem,
     sessions w !! sessionID = Some mem ->
     GetOrCreateSession sessionID w = (Ok mem, w)) /\
  (forall d s,
     sessions w !! sessionID = None ->
     reachable w = true ->
     kv w !! ("session:" +:+ sessionID) = Some d ->
     Unmarshal d = Ok s ->
     let mem := memory.replay (SessionData.Messages s) in
     GetOrCreateSession sessionID w
     = (Ok mem,
        mkWorld (kv w) (reachable w) (tick w)
                (<[sessionID := mem]> (sessions w)) (sent w)) /\
     mem = omap memory.chatMessageOf (SessionData.Messages s) /\
     (Forall (fun m => known_role m = true) (SessionData.Messages s) ->
      Forall2 projects mem (SessionData.Messages s))) /\
  (forall other userID msg r w',
     other <> sessionID ->
     session_ok Unmarshal w other ->
     sessions w !! sessionID = None ->
     reachable w = true ->
     kv w !! ("session:" +:+ sessionID) = None ->
     memory.SaveMessage Marshal Unmarshal clock other userID msg w
     = (r, w') ->
     exists w'',
       GetOrCreateSession sessionID w' = (Ok [], w'') /\
       kv w'' = kv w') /\
  (sessions w !! sessionID = None ->
   reachable w = false ->
   GetOrCreateSession sessionID w
   = (Err (Wrap "failed to load session: "
             (Wrap "failed to load session from Redis: "
                memory.unreachable)), w)).
Proof.
  split; [| split; [| split; [| split]]].
  - intros C R K.
    pose proof (LoadSession_absent Unmarshal clock w sessionID R K) as L.
    rewrite (GetOrCreateSession_miss _ _ _ _ C L). simpl.
    eexists. split; [reflexivity |]. split; reflexivity.
  - apply GetOrCreateSession_hit.
  - intros d s C R K U mem.
    pose proof (LoadSession_stored Unmarshal clock w sessionID d s R K U)
      as L.
    split; [exact (GetOrCreateSession_miss _ _ _ _ C L) |].
    split; [apply replay_omap |].
    intros Hall. pose proof (replay_filter (SessionData.Messages s)) as F.
    replace (List.filter known_role (SessionData.Messages s))
      with (SessionData.Messages s) in F; [exact F |].
    clear F. induction Hall as [|m rest Hm _ IH]; simpl;
      [reflexivity |]. now rewrite Hm, <- IH.
  - intros other userID msg r w' Hne Hok C R K HS.
    pose proof (SaveMessage_other_key w w' other sessionID userID msg r
                  Hne Hok HS) as K'.
    rewrite K in K'.
    destruct (SaveMessage_kv Marshal Unmarshal clock w w' _ _ _ _ HS)
      as (S' & _).
    assert (R' : reachable w' = true).
    { destruct (LoadSession other w) as [[s0|e] w0] eqn:L;
        destruct (LoadSession_frame _ _ _ _ _ _ L) as (_ & R0 & _).
      - rewrite (SaveMessage_loaded Marshal Unmarshal clock w w0 _ _ _ s0 L)
          in HS.
        apply saveSession_kv in HS as (R1 & _). simpl in R1. congruence.
      - rewrite (SaveMessage_failed_load Marshal Unmarshal clock w w0 _ _ _
                   e L) in HS.
        injection HS as _ <-. congruence. }
    assert (C' : sessions w' !! sessionID = None) by now rewrite S'.
    pose proof (LoadSession_absent Unmarshal clock w' sessionID R' K') as L.
    rewrite (GetOrCreateSession_miss _ _ _ _ C' L). simpl.
    eexists. split; reflexivity.
  - intros C R. unfold memory.GetOrCreateSession. rewrite C.
    unfold bind, wrap, memory.LoadSession, bind, try, memory.client_Get.
    now rewrite R.
Qed.

(** C9. The replay of stored messages keeps exactly those whose role is
    user, assistant or system, in their order and with their content,
    and drops the others; so the buffer is never longer than the stored
    list and is shorter as soon as one role is unknown, and loading a
    stored session succeeds whatever roles it holds and whatever its
    [message_count] says. *)
Theorem replay_known_roles (msgs : list Message.t) :
  Forall2 projects (memory.replay msgs) (List.filter known_role msgs) /\
  (forall m,
     known_role m = true <->
     Message.Role m = "user" \/ Message.Role m = "assistant"
     \/ Message.Role m = "system") /\
  (length (memory.replay msgs) <= length msgs)%nat /\
  (Exists (fun m => known_role m = false) msgs ->
   (length (memory.replay msgs) < length msgs)%nat) /\
  (forall (w : World Data) sessionID d s,
     sessions w !! sessionID = None ->
     reachable w = true ->
     kv w !! memory.sessionKey sessionID = Some d ->
     Unmarshal d = Ok s ->
     SessionData.Messages s = msgs ->
     exists w',
       GetOrCreateSession sessionID w = (Ok (memory.replay msgs), w')).
Proof.
  split; [apply replay_filter |]. split; [apply known_role_spec |].
  split; [| split].
  - rewrite replay_length. apply List.filter_length_le.
  - intros H. rewrite replay_length. now apply filter_length_lt.
  - intros w sessionID d s C R K U <-.
    pose proof (LoadSession_stored Unmarshal clock w sessionID d s R K U)
      as L.
    eexists. exact (GetOrCreateSession_miss _ _ _ _ C L).
Qed.

End ManagerFacts.

(** ** The memory-integrated provider and the dispatcher *)

Section ProviderFacts.
Context {Data : Type}.
Variable Marshal : SessionData.t -> result Data.
Variable Unmarshal : Data -> result SessionData.t.
Variable clock : nat -> Time.
Variable model : string.
Variable Do : AnthropicRequest.t -> result (Z * result string).
Variable UnmarshalError : string -> result string.
Variable UnmarshalResponse : string -> result (list string).
Variable UnmarshalIntent : string -> result IntentResponse.t.

Variable callLLM : LLMRequest.t -> result LLMResponse.t.
Variable Title : string -> string.
Variable UnmarshalRequest : string -> IntentRequest.t * option error.

Local Abbreviation AnalyzeIntent :=
  (llm.AnalyzeIntent Marshal Unmarshal clock model Do UnmarshalError
     UnmarshalResponse UnmarshalIntent).
Local Abbreviation SaveUserMessage :=
  (memory.SaveUserMessage Marshal Unmarshal clock).
Local Abbreviation GetFormattedHistory :=
  (memory.GetFormattedHistory Unmarshal clock).

Lemma SaveUserMessage_kv (w w' : World Data) sessionID userID text r :
  SaveUserMessage sessionID userID text w = (r, w') ->
  sent w' = sent w /\
  only_user_turn_written Marshal text (kv w) (kv w').
Proof.
  unfold memory.SaveUserMessage, bind at 1.
  destruct (memory.GetOrCreateSession Unmarshal clock sessionID w)
    as [[mem|e] w1] eqn:G;
    destruct (GetOrCreateSession_frame _ _ _ _ _ _ G) as (K1 & T1 & _).
  - unfold bind, memory.AddMessage, set_sessions, memory.Now, wrap.
    match goal with
    | |- context [memory.SaveMessage _ _ _ _ _ ?m ?w0] =>
        destruct (memory.SaveMessage Marshal Unmarshal clock sessionID
                    userID m w0) as [[u|e] w4] eqn:S
    end;
      apply SaveMessage_kv in S as (_ & T4 & S); simpl in T4, S;
      intros [= <- <-]; (split; [congruence |]);
      (destruct S as [S|(s & d & Hm & S & old & Ho)];
       [left; congruence |
        right; exists s, d, old, (clock (tick w1));
        repeat split; try assumption; congruence]).
  - intros [= <- <-]. split; [assumption | left; assumption].
Qed.

Lemma GetFormattedHistory_frame (w w' : World Data) sessionID r :
  GetFormattedHistory sessionID w = (r, w') ->
  kv w' = kv w /\ sent w' = sent w.
Proof.
  unfold memory.GetFormattedHistory, bind.
  destruct (memory.GetOrCreateSession Unmarshal clock sessionID w)
    as [[mem|e] w1] eqn:G;
    destruct (GetOrCreateSession_frame _ _ _ _ _ _ G) as (K1 & T1 & _).
  - destruct mem; intros [= <- <-]; split; assumption.
  - intros [= <- <-]. split; assumption.
Qed.

Lemma SaveAssistantMessage_sent (w w' : World Data) sessionID userID text r :
  memory.SaveAssistantMessage Marshal Unmarshal clock sessionID userID text w
  = (r, w') ->
  sent w' = sent w.
Proof.
  unfold memory.SaveAssistantMessage, bind at 1.
  destruct (memory.GetOrCreateSession Unmarshal clock sessionID w)
    as [[mem|e] w1] eqn:G;
    destruct (GetOrCreateSession_frame _ _ _ _ _ _ G) as (K1 & T1 & _).
  - unfold bind, memory.AddMessage, set_sessions, memory.Now, wrap.
    match goal with
    | |- context [memory.SaveMessage _ _ _ _ _ ?m ?w0] =>
        destruct (memory.SaveMessage Marshal Unmarshal clock sessionID
                    userID m w0) as [[u|e] w4] eqn:S
    end;
      apply SaveMessage_kv in S as (_ & T4 & _); simpl in T4;
      intros [= <- <-]; congruence.
  - intros [= <- <-]. assumption.
Qed.

(** The one completion call of a turn carries the prompt built from the
    history the manager formats after the user turn has been saved. *)
Lemma AnalyzeIntent_prompt (request : IntentRequest.t) (w : World Data) :
  let sid := IntentRequest.SessionID request in
  exists r1 w1 loaded w2,
    SaveUserMessage sid ("user_" +:+ sid)
      (IntentRequest.UserMessage request) w = (r1, w1) /\
    GetFormattedHistory sid w1 = (loaded, w2) /\
    sent (AnalyzeIntent request w).2
    = sent w ++
      [AnthropicRequest.mk model 1000 "0.1"
         [AnthropicMessage.mk "user"
            (llm.buildPromptWithHistory request
               (match loaded with
                | Ok formatted => formatted
                | Err _ => "No previous conversation."
                end))]].
Proof.
  intros sid. unfold llm.AnalyzeIntent. fold sid.
  unfold bind at 1, try at 1.
  destruct (SaveUserMessage sid ("user_" +:+ sid)
              (IntentRequest.UserMessage request) w) as [r1 w1] eqn:E1.
  unfold bind at 1, try at 1.
  destruct (GetFormattedHistory sid w1) as [loaded w2] eqn:E2.
  exists r1, w1, loaded, w2.
  split; [first [reflexivity | exact E1] |].
  split; [first [reflexivity | exact E2] |].
  apply SaveUserMessage_kv in E1 as (T1 & _).
  apply GetFormattedHistory_frame in E2 as (_ & T2).
  unfold bind at 1, log_sent at 1.
  match goal with
  | |- context [Do ?q] => destruct (Do q) as [[status [body|e]]|e]
  end; unfold fail; simpl; try (rewrite T2, T1; reflexivity).
  destruct (negb (status =? 200)).
  - destruct (UnmarshalError body); simpl; rewrite T2, T1; reflexivity.
  - destruct (UnmarshalResponse body) as [texts|e]; simpl;
      [| rewrite T2, T1; reflexivity].
    match goal with
    | |- context [llm.parseIntentResponse _ ?c] =>
        destruct (llm.parseIntentResponse UnmarshalIntent c) as [p|e]
    end; simpl; [| rewrite T2, T1; reflexivity].
    unfold bind, ret.
    destruct (is_empty _); simpl; [rewrite T2, T1; reflexivity |].
    unfold try.
    match goal with
    | |- context [memory.SaveAssistantMessage _ _ _ ?a ?b ?c ?w0] =>
        destruct (memory.SaveAssistantMessage Marshal Unmarshal clock
                    a b c w0) as [r3 w3] eqn:E3
    end.
    apply SaveAssistantMessage_sent in E3. simpl in *.
    rewrite E3, T2, T1. reflexivity.
Qed.

(** C10. [AnalyzeIntent] does not read the request's conversation
    history: two requests with the same session id, user message and
    available actions give, from the same world, the same result and the
    same final world, hence the same store, the same cache and the same
    logged completion call; and the prompt of that call is built from
    the history the manager formats out of its cached buffer once the
    user turn is saved. *)
Theorem conversation_history_ignored (r1 r2 : IntentRequest.t)
    (w : World Data) :
  IntentRequest.SessionID r1 = IntentRequest.SessionID r2 ->
  IntentRequest.UserMessage r1 = IntentRequest.UserMessage r2 ->
  IntentRequest.AvailableActions r1 = IntentRequest.AvailableActions r2 ->
  AnalyzeIntent r1 w = AnalyzeIntent r2 w /\
  (forall history,
     llm.buildPromptWithHistory r1 history
     = llm.buildPromptWithHistory r2 history) /\
  exists saved w1 loaded w2,
    SaveUserMessage (IntentRequest.SessionID r1)
      ("user_" +:+ IntentRequest.SessionID r1)
      (IntentRequest.UserMessage r1) w = (saved, w1) /\
    GetFormattedHistory (IntentRequest.SessionID r1) w1 = (loaded, w2) /\
    sent (AnalyzeIntent r1 w).2
    = sent w ++
      [AnthropicRequest.mk model 1000 "0.1"
         [AnthropicMessage.mk "user"
            (llm.buildPromptWithHistory r2
               (match loaded with
                | Ok formatted => formatted
                | Err _ => "No previous conversation."
                end))]].
Proof.
  intros Hs Hu Ha.
  assert (Hprompt : forall history,
            llm.buildPromptWithHistory r1 history
            = llm.buildPromptWithHistory r2 history).
  { intros history. unfold llm.buildPromptWithHistory.
    now rewrite Hu, Ha. }
  split; [| split; [exact Hprompt |]].
  - destruct r1 as [sid1 um1 h1 a1], r2 as [sid2 um2 h2 a2].
    simpl in Hs, Hu, Ha. subst. reflexivity.
  - destruct (AnalyzeIntent_prompt r1 w)
      as (saved & w1 & loaded & w2 & E1 & E2 & E3).
    exists saved, w1, loaded, w2. rewrite <- Hprompt. auto.
Qed.

(** The completion the [callLLM] of the source answers with, and what
    the parser makes of it. *)
Lemma callLLM_placeholder_parsed (q : LLMRequest.t) :
  exists llmResponse,
    handlers.callLLM_placeholder q = Ok llmResponse /\
    prompts.ParseLLMResponse Json.UnmarshalIntentResponse
      (LLMResponse.Content llmResponse)
    = Ok (IntentResponse.mk EmptyString (Some "CREATE_SERVICE") "NEEDS_INFO"
            (Some (<["domain_name" := None]> ∅))
            "I can help you setup a CDN! What would you like to name your service?"
            None None).
Proof.
  eexists. split; [reflexivity |]. vm_compute. reflexivity.
Qed.

(** C4. No path reports a deadline as LLM_API_TIMEOUT.  When the HTTP
    round trip of the provider runs into the deadline, [AnalyzeIntent]
    returns a bare error, after the user turn alone has been written: no
    result, no error code, and no assistant turn in the store.  The
    dispatcher does not get there: with the [callLLM] of the source, which
    answers a canned completion without calling the provider, each message
    gets one reply, whose error code is absent or PARSE_ERROR.  And the
    branch of [ProcessIntent] that turns a failed call into a result, for
    any [callLLM], writes LLM_API_FAILED whatever the failure. *)
Theorem deadline_is_never_reported_as_timeout :
  (forall request (w : World Data),
     (forall q, Do q = Err DeadlineExceeded) ->
     exists w',
       AnalyzeIntent request w
       = (Err (Wrap "failed to make HTTP request: " DeadlineExceeded), w') /\
       only_user_turn_written Marshal (IntentRequest.UserMessage request)
         (kv w) (kv w')) /\
  (forall data,
     exists r calls,
       transport.handleIntentRequest handlers.callLLM_placeholder
         Json.UnmarshalIntentResponse Title UnmarshalRequest data
       = ([r], calls) /\
       (IntentResponse.ErrorCode r = None \/
        IntentResponse.ErrorCode r = Some models.ErrorParseError) /\
       IntentResponse.ErrorCode r <> Some models.ErrorLLMTimeout) /\
  (forall request err,
     handlers.validateRequest request = None ->
     callLLM (handlers.llmRequestFor Title request) = Err err ->
     (handlers.ProcessIntent callLLM UnmarshalIntent Title request).1
     = Ok (handlers.createErrorResponse request models.ErrorLLMFailed
             (Error err)) /\
     models.ErrorLLMFailed <> models.ErrorLLMTimeout).
Proof.
  split; [| split].
  - intros request w HDo.
    unfold llm.AnalyzeIntent, bind at 1, try at 1.
    destruct (SaveUserMessage (IntentRequest.SessionID request)
                ("user_" +:+ IntentRequest.SessionID request)
                (IntentRequest.UserMessage request) w) as [r1 w1] eqn:E1.
    apply SaveUserMessage_kv in E1 as (_ & W1).
    unfold bind at 1, try at 1.
    destruct (GetFormattedHistory (IntentRequest.SessionID request) w1)
      as [r2 w2] eqn:E2.
    apply GetFormattedHistory_frame in E2 as (K2 & _).
    unfold bind, log_sent. rewrite HDo. unfold fail.
    eexists. split; [reflexivity |]. simpl. now rewrite K2.
  - intros data. unfold transport.handleIntentRequest.
    destruct (UnmarshalRequest data) as [request [e|]].
    + do 2 eexists. split; [reflexivity |]. simpl.
      split; [now right | discriminate].
    + unfold handlers.ProcessIntent.
      destruct (handlers.validateRequest request) as [e|].
      * do 2 eexists. split; [reflexivity |]. simpl.
        split; [now right | discriminate].
      * cbv zeta.
        destruct (callLLM_placeholder_parsed
                    (handlers.llmRequestFor Title request))
          as (llmResponse & -> & ->).
        do 2 eexists. split; [reflexivity |]. simpl.
        split; [now left | discriminate].
  - intros request err V C. unfold handlers.ProcessIntent.
    rewrite V, C. split; [reflexivity | discriminate].
Qed.

End ProviderFacts.

(** ** The tree codec of sessions gives back what it was given *)

Section CodecFacts.

Lemma atoi_itoa (n : Z) : atoi (itoa n) = Some n.
Proof.
  unfold atoi, itoa. rewrite NilEmpty.isi. simpl. now rewrite DecimalZ.of_to.
Qed.

Lemma message_roundtrip (m : Message.t) :
  SessionJson.message_of_json (SessionJson.message_to_json m) = Ok m.
Proof.
  destruct m as [r c t].
  unfold SessionJson.message_of_json, SessionJson.message_to_json.
  change (SessionJson.lookup_field "role" _) with (Some (Json.Str r)).
  change (SessionJson.lookup_field "content" _) with (Some (Json.Str c)).
  change (SessionJson.lookup_field "timestamp" _)
    with (Some (SessionJson.int_to_json t)).
  simpl. now rewrite atoi_itoa.
Qed.

Lemma messages_roundtrip (l : list Message.t) :
  SessionJson.messages_of_json (map SessionJson.message_to_json l) = Ok l.
Proof.
  induction l as [|m l IH]; [reflexivity |].
  cbn [map SessionJson.messages_of_json].
  now rewrite message_roundtrip, IH.
Qed.

Lemma SessionJson_roundtrip (s : SessionData.t) :
  exists d, SessionJson.Marshal s = Ok d /\ SessionJson.Unmarshal d = Ok s.
Proof.
  eexists. split; [reflexivity |].
  destruct s as [sid uid msgs [st la mc]].
  unfold SessionJson.Unmarshal, SessionJson.to_json.
  change (SessionJson.lookup_field "session_id" _) with (Some (Json.Str sid)).
  change (SessionJson.lookup_field "user_id" _) with (Some (Json.Str uid)).
  change (SessionJson.lookup_field "messages" _)
    with (Some (Json.Array (map SessionJson.message_to_json msgs))).
  change (SessionJson.lookup_field "metadata" _)
    with (Some (SessionJson.metadata_to_json (Metadata.mk st la mc))).
  cbv beta iota zeta. rewrite messages_roundtrip.
  unfold SessionJson.metadata_of_json, SessionJson.metadata_to_json.
  change (SessionJson.lookup_field "started_at" _)
    with (Some (SessionJson.int_to_json st)).
  change (SessionJson.lookup_field "last_activity" _)
    with (Some (SessionJson.int_to_json la)).
  change (SessionJson.lookup_field "message_count" _)
    with (Some (SessionJson.int_to_json mc)).
  simpl. now rewrite !atoi_itoa.
Qed.

Lemma Ref_clock_mono (i j : nat) : (i <= j)%nat -> Ref.clock i <= Ref.clock j.
Proof. unfold Ref.clock. lia. Qed.

End CodecFacts.

(** ** Concrete runs *)

Section Runs.

Local Abbreviation decode := Json.UnmarshalIntentResponse.
Local Abbreviation Title := strings.TitleASCII.

(** The handler run against a completion call that times out. *)
Lemma ProcessIntent_never_raises_witness :
  exists response,
    (handlers.ProcessIntent Ref.callLLM_timeout decode Title Ref.request).1
    = Ok response /\
    error_result models.ErrorLLMFailed response.
Proof.
  destruct (ProcessIntent_never_raises Ref.callLLM_timeout decode Title
              Ref.request) as (r & H & _ & _ & _ & _ & Hfail & _).
  exists r. split; [exact H |].
  apply (Hfail (Wrap "failed to make HTTP request: " DeadlineExceeded));
    reflexivity.
Defined.

Lemma empty_field_is_parse_error_witness :
  exists response,
    handlers.ProcessIntent handlers.callLLM_placeholder decode Title
      Ref.request_no_session = (Ok response, []) /\
    error_result models.ErrorParseError response /\
    IntentResponse.SessionID response = EmptyString.
Proof.
  apply (empty_field_is_parse_error handlers.callLLM_placeholder decode
           Title Ref.request_no_session).
  left. reflexivity.
Defined.

Lemma unknown_status_invalid : ~ valid_status "DONE".
Proof. intros [H|[H|H]]; discriminate. Qed.

(** A completion whose status is outside the enumeration. *)
Lemma repair_pass_witness :
  exists r,
    (handlers.ProcessIntent (Ref.callLLM_text Ref.unknown_status_text)
       decode Title Ref.request).1 = Ok r /\
    IntentResponse.Status r = models.StatusError /\
    IntentResponse.UserMessage r = prompts.FallbackMessage /\
    IntentResponse.Parameters r = Some ∅.
Proof.
  destruct (repair_pass (Ref.callLLM_text Ref.unknown_status_text) decode
              Title Ref.request
              (LLMResponse.mk Ref.unknown_status_text (Usage.mk 100 50))
              Ref.unknown_status_decoded)
    as (r & H & _ & Hbad & _ & Hnil & _).
  - reflexivity.
  - reflexivity.
  - vm_compute. discriminate.
  - vm_compute. reflexivity.
  - exists r. split; [exact H |].
    destruct (Hbad unknown_status_invalid) as [Hs Hm].
    split; [exact Hs |]. split; [exact Hm |]. apply Hnil. reflexivity.
Defined.

(** A JSON object inside prose that has no braces of its own. *)
Lemma extract_first_to_last_brace_witness :
  prompts.extractJSON Ref.prose_plain = Ref.object_text /\
  prompts.ParseLLMResponse decode Ref.prose_plain
  = prompts.ParseLLMResponse decode Ref.object_text /\
  prompts.ParseLLMResponse decode Ref.prose_plain
  = Ok (IntentResponse.mk EmptyString None "READY" (Some ∅) EmptyString
          None None).
Proof.
  destruct (extract_first_to_last_brace handlers.callLLM_placeholder decode
              Title) as (Hspan & _ & _ & Hparse & Hobject).
  split; [| split].
  - apply (Hspan "Here you go: " Ref.object_body " Anything else?");
      reflexivity.
  - apply (Hparse "Here you go: " Ref.object_body " Anything else?");
      reflexivity.
  - destruct (Hobject "Here you go: " Ref.object_body " Anything else?"
                (IntentResponse.mk EmptyString None "READY" None
                   EmptyString None None)) as (H & _).
    + reflexivity.
    + reflexivity.
    + vm_compute. reflexivity.
    + exact H.
Defined.

(** C3, as stated, fails: with braces in the leading prose the span runs
    from the prose's opening brace, is not the object, and does not
    parse, although the object alone does. *)
Lemma braces_in_prose_break_extraction :
  Json.parse Ref.object_text
  = Some (Json.Object [("status", Json.Str "READY")]) /\
  prompts.extractJSON Ref.prose_with_braces
  = "{braces}: " +:+ Ref.object_text /\
  prompts.extractJSON Ref.prose_with_braces <> Ref.object_text /\
  is_Ok (prompts.ParseLLMResponse decode Ref.object_text) = true /\
  is_Ok (prompts.ParseLLMResponse decode Ref.prose_with_braces) = false /\
  (forall fuel,
     Json.parse_value fuel (prompts.extractJSON Ref.prose_with_braces)
     = None) /\
  (handlers.ProcessIntent (Ref.callLLM_text Ref.prose_with_braces) decode
     Title Ref.request).1
  = Ok (handlers.createErrorResponse Ref.request models.ErrorParseError
          "Failed to understand response").
Proof.
  split; [vm_compute; reflexivity |]. split; [vm_compute; reflexivity |].
  split; [vm_compute; discriminate |]. split; [vm_compute; reflexivity |].
  split; [vm_compute; reflexivity |]. split; [| vm_compute; reflexivity].
  intros [|[|fuel]]; reflexivity.
Qed.

(** A deadline on the reference instances: the provider returns its
    error after writing the user turn, and the dispatcher, run as the
    source has it, answers the canned completion. *)
Lemma deadline_is_never_reported_as_timeout_witness :
  (exists w',
     llm.AnalyzeIntent SessionJson.Marshal SessionJson.Unmarshal Ref.clock
       "claude" Ref.Do_timeout Ref.UnmarshalError Ref.UnmarshalResponse
       decode Ref.request Ref.fresh
     = (Err (Wrap "failed to make HTTP request: " DeadlineExceeded), w') /\
     only_user_turn_written SessionJson.Marshal "set up a CDN called foo"
       ∅ (kv w')) /\
  exists r calls,
    transport.handleIntentRequest handlers.callLLM_placeholder decode Title
      RequestJson.UnmarshalIntentRequest Ref.request_data = ([r], calls) /\
    IntentResponse.Status r = models.StatusNeedsInfo /\
    IntentResponse.ErrorCode r <> Some models.ErrorLLMTimeout.
Proof.
  destruct (deadline_is_never_reported_as_timeout SessionJson.Marshal
              SessionJson.Unmarshal Ref.clock "claude" Ref.Do_timeout
              Ref.UnmarshalError Ref.UnmarshalResponse decode
              handlers.callLLM_placeholder Title
              RequestJson.UnmarshalIntentRequest) as (Hprovider & Hreply & _).
  split.
  - apply (Hprovider Ref.request Ref.fresh). intros q. reflexivity.
  - destruct (Hreply Ref.request_data) as (r & calls & H & _ & Hcode).
    exists r, calls. split; [exact H |]. split; [| exact Hcode].
    vm_compute in H. injection H as <- _. reflexivity.
Defined.


Lemma load_or_create_witness :
  (exists w',
     memory.GetOrCreateSession SessionJson.Unmarshal Ref.clock "s1"
       Ref.fresh = (Ok [], w') /\
     sessions w' = <["s1" := []]> ∅ /\ kv w' = ∅) /\
  memory.GetOrCreateSession SessionJson.Unmarshal Ref.clock "s1" Ref.stored
  = (Ok (memory.replay [Ref.m_user; Ref.m_tool; Ref.m_assistant]),
     mkWorld (kv Ref.stored) true 0
       (<["s1" := memory.replay [Ref.m_user; Ref.m_tool; Ref.m_assistant]]>
          ∅) []) /\
  (exists w'',
     memory.GetOrCreateSession SessionJson.Unmarshal Ref.clock "s3"
       (memory.SaveMessage SessionJson.Marshal SessionJson.Unmarshal
          Ref.clock "s1" "u1" Ref.m_user Ref.stored).2
     = (Ok [], w'')).
Proof.
  split; [| split].
  - destruct (load_or_create SessionJson.Marshal SessionJson.Unmarshal
                Ref.clock Ref.fresh "s1") as (Hnew & _).
    apply Hnew; reflexivity.
  - destruct (load_or_create SessionJson.Marshal SessionJson.Unmarshal
                Ref.clock Ref.stored "s1") as (_ & _ & Hload & _).
    destruct (Hload (SessionJson.to_json Ref.record) Ref.record)
      as (Hrun & _).
    + reflexivity.
    + reflexivity.
    + vm_compute. reflexivity.
    + vm_compute. reflexivity.
    + exact Hrun.
  - destruct (load_or_create SessionJson.Marshal SessionJson.Unmarshal
                Ref.clock Ref.stored "s3") as (_ & _ & _ & Hother & _).
    destruct (Hother "s1" "u1" Ref.m_user
                (memory.SaveMessage SessionJson.Marshal SessionJson.Unmarshal
                   Ref.clock "s1" "u1" Ref.m_user Ref.stored).1
                (memory.SaveMessage SessionJson.Marshal SessionJson.Unmarshal
                   Ref.clock "s1" "u1" Ref.m_user Ref.stored).2)
      as (w'' & H & _).
    + discriminate.
    + exists Ref.record. split; [vm_compute; reflexivity | reflexivity].
    + reflexivity.
    + reflexivity.
    + vm_compute. reflexivity.
    + apply surjective_pairing.
    + exists w''. exact H.
Defined.

(** C6, as stated, fails: a session id seen by neither the cache nor the
    store gets an error, not the empty buffer, when the store does not
    answer. *)
Lemma unseen_session_store_down :
  sessions Fix.down !! "s1" = None /\
  kv Fix.down = ∅ /\
  memory.GetOrCreateSession SessionJson.Unmarshal Ref.clock "s1" Fix.down
  = (Err (Wrap "failed to load session: "
            (Wrap "failed to load session from Redis: "
               memory.unreachable)), Fix.down) /\
  Error (Wrap "failed to load session: "
           (Wrap "failed to load session from Redis: " memory.unreachable))
  = "failed to load session: failed to load session from Redis: dial tcp: connection refused".
Proof. repeat split. Qed.

Lemma replay_known_roles_witness :
  (length (memory.replay [Ref.m_user; Ref.m_tool; Ref.m_assistant]) < 3)%nat
  /\
  exists w',
    memory.GetOrCreateSession SessionJson.Unmarshal Ref.clock "s1"
      Ref.stored
    = (Ok (memory.replay [Ref.m_user; Ref.m_tool; Ref.m_assistant]), w').
Proof.
  destruct (replay_known_roles SessionJson.Unmarshal Ref.clock
              [Ref.m_user; Ref.m_tool; Ref.m_assistant])
    as (_ & _ & _ & Hlt & Hload).
  split.
  - apply Hlt. apply Exists_cons_tl. apply Exists_cons_hd. reflexivity.
  - apply (Hload Ref.stored "s1" (SessionJson.to_json Ref.record)
             Ref.record).
    + reflexivity.
    + reflexivity.
    + vm_compute. reflexivity.
    + vm_compute. reflexivity.
    + reflexivity.
Defined.

Lemma conversation_history_ignored_witness :
  llm.AnalyzeIntent SessionJson.Marshal SessionJson.Unmarshal Ref.clock
    "claude" (Ref.Do_text Ref.object_text) Ref.UnmarshalError
    Ref.UnmarshalResponse decode Ref.request Ref.fresh
  = llm.AnalyzeIntent SessionJson.Marshal SessionJson.Unmarshal Ref.clock
      "claude" (Ref.Do_text Ref.object_text) Ref.UnmarshalError
      Ref.UnmarshalResponse decode Ref.request_with_history Ref.fresh.
Proof.
  apply (conversation_history_ignored SessionJson.Marshal
           SessionJson.Unmarshal Ref.clock "claude"
           (Ref.Do_text Ref.object_text) Ref.UnmarshalError
           Ref.UnmarshalResponse decode Ref.request
           Ref.request_with_history Ref.fresh);
    reflexivity.
Defined.

(** The end-to-end scenario: one turn through the memory-integrated
    provider on a fresh world leaves two stored messages, the user's and
    the assistant's, in that order. *)
Example end_to_end_turn :
  let run :=
    llm.AnalyzeIntent SessionJson.Marshal SessionJson.Unmarshal Ref.clock
      "claude" (Ref.Do_text Ref.scenario_completion) Ref.UnmarshalError
      Ref.UnmarshalResponse decode Ref.request Ref.fresh in
  run.1
  = Ok (IntentResponse.mk "s1" (Some "CREATE_SERVICE") "NEEDS_INFO"
          (Some (<["domain_name" := Some "foo"]> ∅))
          "Got it, setting up foo. Any other requirements?" None None) /\
  sessions run.2 !! "s1"
  = Some [HumanChatMessage "set up a CDN called foo";
          AIChatMessage "Got it, setting up foo. Any other requirements?"] /\
  (memory.GetMessages SessionJson.Unmarshal Ref.clock "s1" run.2).1
  = Ok [Message.mk "user" "set up a CDN called foo" (Ref.clock 2);
        Message.mk "assistant"
          "Got it, setting up foo. Any other requirements?" (Ref.clock 6)].
Proof. vm_compute. repeat split. Qed.

(** The canned completion of [callLLM] goes through the handler
    unchanged but for the session id. *)
Example placeholder_turn :
  handlers.ProcessIntent handlers.callLLM_placeholder decode Title Ref.request
  = (Ok (IntentResponse.mk "s1" (Some "CREATE_SERVICE") "NEEDS_INFO"
           (Some (<["domain_name" := None]> ∅))
           "I can help you setup a CDN! What would you like to name your service?"
           None None),
     [handlers.llmRequestFor Title Ref.request]).
Proof. vm_compute. reflexivity. Qed.

(** A body that is not JSON is answered once, with PARSE_ERROR, and no
    completion call. *)
Example malformed_request_reply :
  transport.handleIntentRequest handlers.callLLM_placeholder decode Title
    RequestJson.UnmarshalIntentRequest "not json"
  = ([transport.sendErrorResponse IntentRequest.zero models.ErrorParseError
        "Invalid request format"], []).
Proof. vm_compute. reflexivity. Qed.

End Runs.

(** * Further properties *)

(** ** Replies of the handler and of the dispatcher *)

Section ReplyFacts.
Variable callLLM : LLMRequest.t -> result LLMResponse.t.
Variable Unmarshal : string -> result IntentResponse.t.
Variable Title : string -> string.
Variable UnmarshalRequest : string -> IntentRequest.t * option error.

Local Abbreviation ProcessIntent :=
  (handlers.ProcessIntent callLLM Unmarshal Title).
Local Abbreviation llmRequestFor := (handlers.llmRequestFor Title).
Local Abbreviation handleIntentRequest :=
  (transport.handleIntentRequest callLLM Unmarshal Title UnmarshalRequest).

Lemma createErrorResponse_well_formed request code msg :
  well_formed (handlers.createErrorResponse request code msg).
Proof.
  split; [right; right; reflexivity | split; discriminate].
Qed.

Lemma sendErrorResponse_well_formed request code msg :
  well_formed (transport.sendErrorResponse request code msg).
Proof.
  split; [right; right; reflexivity | split; discriminate].
Qed.

(** Every outcome of [ProcessIntent] at once. *)
Lemma ProcessIntent_outcome (request : IntentRequest.t) :
  exists r calls,
    ProcessIntent request = (Ok r, calls) /\
    well_formed r /\
    IntentResponse.SessionID r = IntentRequest.SessionID request /\
    (handlers.validateRequest request = None ->
     calls = [llmRequestFor request]) /\
    (handlers.validateRequest request <> None -> calls = []).
Proof.
  unfold handlers.ProcessIntent.
  destruct (handlers.validateRequest request) as [e|] eqn:V.
  - do 2 eexists. split; [reflexivity |].
    split; [apply createErrorResponse_well_formed |].
    split; [reflexivity |]. split; [discriminate | reflexivity].
  - destruct (callLLM (llmRequestFor request)) as [llmResponse|e].
    + destruct (prompts.ParseLLMResponse Unmarshal
                  (LLMResponse.Content llmResponse)) as [p|e].
      * do 2 eexists. split; [reflexivity |].
        destruct (validateAndCleanResponse_sound Unmarshal Title
                    (IntentResponse.set_SessionID
                       (IntentRequest.SessionID request) p))
          as (S1 & S2 & S3 & S4).
        split; [repeat split; assumption |].
        split; [exact S4 |]. split; [reflexivity | congruence].
      * do 2 eexists. split; [reflexivity |].
        split; [apply createErrorResponse_well_formed |].
        split; [reflexivity |]. split; [reflexivity | congruence].
    + do 2 eexists. split; [reflexivity |].
      split; [apply createErrorResponse_well_formed |].
      split; [reflexivity |]. split; [reflexivity | congruence].
Qed.

(** X1. Whatever the message body, the decoder and the completion
    backend do, the dispatcher hands exactly one reply to [sendResponse];
    the reply has a status of the enumeration, a non-nil parameter map
    and a non-empty user message, carries the session id found in the
    request, and at most one completion request was issued for it. *)
Theorem handleIntentRequest_replies_once (data : string) :
  exists r calls,
    handleIntentRequest data = ([r], calls) /\
    well_formed r /\
    IntentResponse.SessionID r
    = IntentRequest.SessionID (UnmarshalRequest data).1 /\
    (length calls <= 1)%nat.
Proof.
  unfold transport.handleIntentRequest.
  destruct (UnmarshalRequest data) as [request [e|]]; simpl.
  - do 2 eexists. split; [reflexivity |].
    split; [apply sendErrorResponse_well_formed |].
    split; [reflexivity | simpl; lia].
  - destruct (ProcessIntent_outcome request)
      as (r & calls & -> & W & S & Hv & Hn).
    exists r, calls. split; [reflexivity |]. split; [exact W |].
    split; [exact S |].
    destruct (handlers.validateRequest request) as [e|].
    + rewrite Hn by discriminate. simpl. lia.
    + rewrite Hv by reflexivity. simpl. lia.
Qed.

(** X2. A body that does not decode into a request is answered with the
    dispatcher's own error reply: status ERROR, code PARSE_ERROR, the
    message "Invalid request format" and the dispatcher's apology, which
    is not the handler's fallback text; the reply carries whatever
    session id the decoder had filled in, and the handler is not run. *)
Theorem undecodable_request_reply (data : string)
    (request : IntentRequest.t) (err : error) :
  UnmarshalRequest data = (request, Some err) ->
  handleIntentRequest data
  = ([transport.sendErrorResponse request models.ErrorParseError
        "Invalid request format"], []) /\
  let r := transport.sendErrorResponse request models.ErrorParseError
             "Invalid request format" in
  IntentResponse.SessionID r = IntentRequest.SessionID request /\
  IntentResponse.Status r = models.StatusError /\
  IntentResponse.ErrorCode r = Some models.ErrorParseError /\
  IntentResponse.Parameters r = Some ∅ /\
  IntentResponse.UserMessage r <> prompts.FallbackMessage.
Proof.
  intros H. unfold transport.handleIntentRequest. rewrite H.
  split; [reflexivity |]. simpl. repeat split. discriminate.
Qed.

(** X3. The response of [ProcessIntent] always carries the session id of
    the request, whatever session id the completion text holds; a valid
    request costs exactly one completion request, built from the prompt
    of the request with a budget of 1000 tokens, and an invalid one
    costs none. *)
Theorem ProcessIntent_stamps_session (request : IntentRequest.t) :
  exists r calls,
    ProcessIntent request = (Ok r, calls) /\
    IntentResponse.SessionID r = IntentRequest.SessionID request /\
    (handlers.validateRequest request = None ->
     calls = [llmRequestFor request] /\
     LLMRequest.Prompt (llmRequestFor request)
     = prompts.BuildIntentPrompt Title request /\
     LLMRequest.MaxTokens (llmRequestFor request) = 1000) /\
    (handlers.validateRequest request <> None -> calls = []).
Proof.
  destruct (ProcessIntent_outcome request)
    as (r & calls & H & _ & S & Hv & Hn).
  exists r, calls. split; [exact H |]. split; [exact S |].
  split; [| exact Hn].
  intros V. split; [now apply Hv | split; reflexivity].
Qed.

(** [validateRequest] accepts exactly the requests whose session id and
    user message are both non-empty, and names the session id first. *)
Lemma validateRequest_spec (request : IntentRequest.t) :
  (handlers.validateRequest request = None <->
   IntentRequest.SessionID request <> EmptyString /\
   IntentRequest.UserMessage request <> EmptyString) /\
  (IntentRequest.SessionID request = EmptyString ->
   handlers.validateRequest request
   = Some (Errorf "session_id is required")).
Proof.
  unfold handlers.validateRequest.
  destruct (IntentRequest.SessionID request) as [|a s];
    destruct (IntentRequest.UserMessage request) as [|b u]; simpl;
    repeat split; try discriminate; try congruence;
    intros [? ?]; congruence.
Qed.

(** A well-formed response goes through [validateAndCleanResponse]
    untouched. *)
Lemma validateAndCleanResponse_fixed (p : IntentResponse.t) :
  well_formed p -> handlers.validateAndCleanResponse p = p.
Proof.
  intros (V & P & U). apply (validStatuses_spec Unmarshal Title) in V.
  apply is_empty_false in U.
  unfold handlers.validateAndCleanResponse. rewrite V. simpl negb. cbv iota.
  destruct (IntentResponse.Parameters p) eqn:E; [| congruence].
  now rewrite U.
Qed.

(** X4. [validateAndCleanResponse] leaves a well-formed response as it
    is, and its result is always well-formed: cleaning twice is the same
    as cleaning once.  It never touches the action, the session id or
    the error fields. *)
Theorem validateAndCleanResponse_idempotent (p : IntentResponse.t) :
  let r := handlers.validateAndCleanResponse p in
  handlers.validateAndCleanResponse r = r /\
  well_formed r /\
  (well_formed p -> r = p) /\
  IntentResponse.Action r = IntentResponse.Action p /\
  IntentResponse.SessionID r = IntentResponse.SessionID p /\
  IntentResponse.ErrorCode r = IntentResponse.ErrorCode p /\
  IntentResponse.ErrorMessage r = IntentResponse.ErrorMessage p.
Proof.
  intros r.
  assert (W : well_formed r).
  { destruct (validateAndCleanResponse_sound Unmarshal Title p)
      as (S1 & S2 & S3 & _).
    repeat split; assumption. }
  split; [now apply validateAndCleanResponse_fixed |].
  split; [exact W |].
  split; [apply validateAndCleanResponse_fixed |].
  unfold r, handlers.validateAndCleanResponse.
  destruct p as [sid act st pa um ec em]; simpl.
  destruct (negb (default false (handlers.validStatuses !! st)));
    destruct pa; simpl; try destruct (is_empty um); repeat split.
Qed.

(** X5. [extractJSON] is idempotent: its result is empty or a braced
    text, which it returns unchanged; the result is never longer than
    the input; and the copies of the function in the two providers are
    the same function. *)
Theorem extractJSON_idempotent (content : string) :
  prompts.extractJSON (prompts.extractJSON content)
  = prompts.extractJSON content /\
  (prompts.extractJSON content = EmptyString \/
   exists body, prompts.extractJSON content = braced body) /\
  (String.length (prompts.extractJSON content) <= String.length content)%nat
  /\
  llm.extractJSON content = prompts.extractJSON content /\
  llm_standalone.extractJSON content = prompts.extractJSON content.
Proof.
  assert (H : prompts.extractJSON content = EmptyString \/
              exists pre body post,
                content = pre +:+ braced body +:+ post /\
                prompts.extractJSON content = braced body).
  { destruct (prompts.extractJSON content) as [|a s] eqn:E; [now left |].
    right. destruct (extractJSON_found content)
      as (pre & body & post & Hc & Hpre & Hpost); [rewrite E; discriminate |].
    exists pre, body, post. split; [exact Hc |].
    rewrite <- E, Hc. now apply extractJSON_span. }
  assert (Hcopies : llm.extractJSON content = prompts.extractJSON content /\
                    llm_standalone.extractJSON content
                    = prompts.extractJSON content)
    by (split; reflexivity).
  destruct H as [H|(pre & body & post & Hc & H)].
  - rewrite H in *. split; [reflexivity |]. split; [now left |].
    split; [simpl; lia | exact Hcopies].
  - rewrite H in *. split; [apply extractJSON_braced |].
    split; [right; now exists body |]. split; [| exact Hcopies].
    rewrite Hc, !length_app_string. lia.
Qed.

(** X6. [ParseLLMResponse] fails with "no valid JSON found in response"
    on a text without enclosing braces and passes a decoding error on,
    wrapped; when it succeeds the parameter map is not nil and the
    status not empty.  It repairs nothing else: a decoded struct with a
    non-empty status, be it outside the enumeration, is returned as it
    is but for a nil parameter map, an empty user message included. *)
Theorem ParseLLMResponse_outcomes (content : string) :
  (~ has_enclosing_braces content ->
   prompts.ParseLLMResponse Unmarshal content
   = Err (Errorf "no valid JSON found in response")) /\
  (forall err,
     prompts.extractJSON content <> EmptyString ->
     Unmarshal (prompts.extractJSON content) = Err err ->
     prompts.ParseLLMResponse Unmarshal content
     = Err (Wrap "failed to parse JSON: " err)) /\
  (forall p,
     prompts.ParseLLMResponse Unmarshal content = Ok p ->
     IntentResponse.Parameters p <> None /\
     IntentResponse.Status p <> EmptyString) /\
  (forall d,
     prompts.extractJSON content <> EmptyString ->
     Unmarshal (prompts.extractJSON content) = Ok d ->
     IntentResponse.Status d <> EmptyString ->
     prompts.ParseLLMResponse Unmarshal content
     = Ok (IntentResponse.set_Parameters
             (Some (default ∅ (IntentResponse.Parameters d))) d)).
Proof.
  split; [| split; [| split]].
  - intros NB.
    assert (E : prompts.extractJSON content = EmptyString).
    { destruct (prompts.extractJSON content) as [|a r] eqn:E;
        [reflexivity |].
      exfalso. apply NB.
      destruct (extractJSON_found content)
        as (pre & body & post & H & _); [rewrite E; discriminate |].
      now exists pre, body, post. }
    unfold prompts.ParseLLMResponse. now rewrite E.
  - intros err NE HU. unfold prompts.ParseLLMResponse.
    apply is_empty_false in NE. now rewrite NE, HU.
  - intros p. unfold prompts.ParseLLMResponse.
    destruct (is_empty (prompts.extractJSON content)); [discriminate |].
    destruct (Unmarshal (prompts.extractJSON content)) as [d|e];
      [| discriminate].
    intros [= <-]. destruct d as [sid act st pa um ec em]; simpl.
    destruct st; destruct pa; simpl; split; discriminate.
  - intros d NE HU HS. unfold prompts.ParseLLMResponse.
    apply is_empty_false in NE. apply is_empty_false in HS.
    rewrite NE, HU, HS.
    destruct d as [sid act st pa um ec em]; simpl.
    destruct pa; reflexivity.
Qed.

End ReplyFacts.

(** A request whose user message has the wrong type keeps its session
    id in the error reply. *)
Lemma undecodable_request_reply_witness :
  let data :=
    braced (quoted "session_id" +:+ ":" +:+ quoted "s1" +:+ ","
            +:+ quoted "user_message" +:+ ":5") in
  (transport.handleIntentRequest handlers.callLLM_placeholder
     Json.UnmarshalIntentResponse strings.TitleASCII
     RequestJson.UnmarshalIntentRequest data).1
  = [transport.sendErrorResponse
       (IntentRequest.mk "s1" EmptyString [] [])
       models.ErrorParseError "Invalid request format"].
Proof.
  intros data.
  destruct (undecodable_request_reply handlers.callLLM_placeholder
              Json.UnmarshalIntentResponse strings.TitleASCII
              RequestJson.UnmarshalIntentRequest data
              (IntentRequest.mk "s1" EmptyString [] [])
              (RequestJson.type_error "user_message")) as [H _].
  - vm_compute. reflexivity.
  - rewrite H. reflexivity.
Defined.

(** ** Clearing, probing and touching sessions *)

Section StoreOps.
Context {Data : Type}.
Variable Marshal : SessionData.t -> result Data.
Variable Unmarshal : Data -> result SessionData.t.
Variable clock : nat -> Time.

Local Abbreviation LoadSession := (memory.LoadSession Unmarshal clock).
Local Abbreviation SaveMessage :=
  (memory.SaveMessage Marshal Unmarshal clock).
Local Abbreviation GetOrCreateSession :=
  (memory.GetOrCreateSession Unmarshal clock).
Local Abbreviation ManagerClearSession :=
  (memory.ManagerClearSession (Data:=Data)).
Local Abbreviation SessionExists := (memory.SessionExists (Data:=Data)).

Lemma sessionKey_inj (a b : string) :
  memory.sessionKey a = memory.sessionKey b -> a = b.
Proof.
  unfold memory.sessionKey. rewrite !app_cons, !app_nil.
  intros H. now inversion H.
Qed.

Lemma sessionKey_ne (a b : string) :
  a <> b -> memory.sessionKey a <> memory.sessionKey b.
Proof. intros H E. apply H. now apply sessionKey_inj. Qed.

Lemma SessionExists_reachable (w : World Data) sessionID :
  reachable w = true ->
  SessionExists sessionID w
  = (Ok (if kv w !! memory.sessionKey sessionID is Some _ then true
         else false), w).
Proof.
  intros R. unfold memory.SessionExists, bind, wrap, memory.client_Exists.
  rewrite R. unfold ret.
  destruct (kv w !! memory.sessionKey sessionID); reflexivity.
Qed.

Lemma ManagerClearSession_reachable (w : World Data) sessionID :
  reachable w = true ->
  ManagerClearSession sessionID w
  = (Ok tt,
     mkWorld (delete (memory.sessionKey sessionID) (kv w)) (reachable w)
             (tick w) (delete sessionID (sessions w)) (sent w)).
Proof.
  intros R.
  unfold memory.ManagerClearSession, memory.ClearSession, bind, wrap,
    set_sessions, memory.client_Del, set_kv.
  simpl. now rewrite R.
Qed.

(** X7. With the store answering, clearing a session succeeds whether
    or not the session exists: afterwards it is in neither the cache nor
    the store, [SessionExists] says so, the next [GetOrCreateSession]
    starts from the empty buffer, every other session is as it was, and
    clearing once more changes nothing. *)
Theorem ClearSession_clears (w : World Data) (sessionID : string) :
  reachable w = true ->
  exists w',
    ManagerClearSession sessionID w = (Ok tt, w') /\
    sessions w' !! sessionID = None /\
    kv w' !! memory.sessionKey sessionID = None /\
    SessionExists sessionID w' = (Ok false, w') /\
    (exists w'', GetOrCreateSession sessionID w' = (Ok [], w'')) /\
    (forall other,
       other <> sessionID ->
       sessions w' !! other = sessions w !! other /\
       kv w' !! memory.sessionKey other = kv w !! memory.sessionKey other) /\
    ManagerClearSession sessionID w' = (Ok tt, w').
Proof.
  intros R.
  pose (w' := mkWorld (delete (memory.sessionKey sessionID) (kv w))
                (reachable w) (tick w) (delete sessionID (sessions w))
                (sent w)).
  assert (R' : reachable w' = true) by exact R.
  assert (K' : kv w' !! memory.sessionKey sessionID = None)
    by apply lookup_delete_eq.
  assert (C' : sessions w' !! sessionID = None) by apply lookup_delete_eq.
  exists w'.
  split; [exact (ManagerClearSession_reachable w sessionID R) |].
  split; [exact C' |]. split; [exact K' |].
  split.
  { rewrite (SessionExists_reachable w' sessionID R'). now rewrite K'. }
  split.
  { eexists.
    exact (GetOrCreateSession_miss Unmarshal clock w' _ sessionID _ C'
             (LoadSession_absent Unmarshal clock w' sessionID R' K')). }
  split.
  { intros other Hne. split.
    - apply lookup_delete_ne. congruence.
    - apply lookup_delete_ne. apply sessionKey_ne. congruence. }
  rewrite (ManagerClearSession_reachable w' sessionID R'). subst w'. simpl.
  now rewrite !delete_delete_eq.
Qed.

(** X8. With the store down, clearing a session fails, and yet the cache
    entry is gone: the eviction comes first.  The stored record stays,
    so the history comes back on the next load once the store answers. *)
Theorem ClearSession_store_down (w : World Data) (sessionID : string) :
  reachable w = false ->
  exists err w',
    ManagerClearSession sessionID w = (Err err, w') /\
    Error err
    = "failed to clear session from Redis: failed to clear session: "
      +:+ Error memory.unreachable /\
    sessions w' = delete sessionID (sessions w) /\
    kv w' = kv w.
Proof.
  intros R.
  unfold memory.ManagerClearSession, memory.ClearSession, bind, wrap,
    set_sessions, memory.client_Del.
  simpl. rewrite R. do 2 eexists. split; [reflexivity |].
  repeat split.
Qed.

Lemma saveSession_written (w w' : World Data) (s : SessionData.t) :
  memory.saveSession Marshal s w = (Ok tt, w') ->
  exists d,
    Marshal s = Ok d /\
    kv w' = <[memory.sessionKey (SessionData.SessionID s) := d]> (kv w).
Proof.
  unfold memory.saveSession, wrap, memory.client_Set, set_kv, fail.
  destruct (Marshal s) as [d|e]; [| discriminate].
  destruct (reachable w); [| discriminate].
  intros [= <-]. now exists d.
Qed.

(** [LoadSession] under [session_ok]: the record carries the id. *)
Lemma LoadSession_session_ok (w w0 : World Data) sessionID s0 :
  session_ok Unmarshal w sessionID ->
  LoadSession sessionID w = (Ok s0, w0) ->
  SessionData.SessionID s0 = sessionID /\
  SessionData.Messages s0 = stored_messages Unmarshal w sessionID.
Proof.
  unfold session_ok, stored_messages, memory.LoadSession, bind, try,
    memory.client_Get.
  destruct (reachable w); [| discriminate].
  destruct (kv w !! memory.sessionKey sessionID) as [d|].
  - intros (s & Hu & Hid). rewrite Hu. intros [= <- <-]. now split.
  - intros _. unfold memory.Now, ret. simpl. intros [= <- <-]. now split.
Qed.

(** With the store answering and [session_ok], [LoadSession] succeeds. *)
Lemma LoadSession_total (w : World Data) sessionID :
  reachable w = true ->
  session_ok Unmarshal w sessionID ->
  exists s0 w0, LoadSession sessionID w = (Ok s0, w0).
Proof.
  intros R. unfold session_ok.
  destruct (kv w !! memory.sessionKey sessionID) as [d|] eqn:K.
  - intros (s & Hu & _). exists s, w.
    now apply LoadSession_stored with (d := d).
  - intros _. do 2 eexists. now apply LoadSession_absent.
Qed.

(** X9. [SessionExists] reads the store and nothing else: with the
    store answering it tells whether a record is stored under the key of
    the session and leaves the world as it is; with the store down it
    fails; and right after a successful [SaveMessage] it answers true. *)
Theorem SessionExists_spec (w : World Data) (sessionID : string) :
  (reachable w = true ->
   exists b,
     SessionExists sessionID w = (Ok b, w) /\
     (b = true <-> is_Some (kv w !! memory.sessionKey sessionID))) /\
  (reachable w = false ->
   exists err, SessionExists sessionID w = (Err err, w)) /\
  (forall userID msg w',
     session_ok Unmarshal w sessionID ->
     SaveMessage sessionID userID msg w = (Ok tt, w') ->
     SessionExists sessionID w' = (Ok true, w')).
Proof.
  split; [| split].
  - intros R. rewrite SessionExists_reachable by exact R.
    eexists. split; [reflexivity |].
    destruct (kv w !! memory.sessionKey sessionID) as [d|].
    + split; [intros _; now exists d | reflexivity].
    + split; [discriminate | intros [x H]; discriminate].
  - intros R. unfold memory.SessionExists, bind, wrap, memory.client_Exists.
    rewrite R. eexists. reflexivity.
  - intros userID msg w' Hok HS.
    destruct (LoadSession sessionID w) as [[s0|e] w0] eqn:L.
    + destruct (LoadSession_session_ok w w0 sessionID s0 Hok L) as [Hid _].
      rewrite (SaveMessage_loaded Marshal Unmarshal clock w w0 _ _ _ s0 L)
        in HS.
      pose proof HS as HS'.
      apply saveSession_kv in HS' as (R' & _).
      apply saveSession_written in HS as (d & _ & K). simpl in K, R'.
      assert (R : reachable w' = true).
      { rewrite R'.
        destruct (LoadSession_frame _ _ _ _ _ _ L) as (_ & -> & _).
        unfold memory.LoadSession, bind, try, memory.client_Get in L.
        destruct (reachable w); [reflexivity | discriminate]. }
      rewrite SessionExists_reachable by exact R.
      rewrite K, Hid, lookup_insert_eq. reflexivity.
    + rewrite (SaveMessage_failed_load Marshal Unmarshal clock w w0 _ _ _ e L)
        in HS. discriminate.
Qed.

(** X10. [SaveMessage] writes under the key of the session id found in
    the record it loaded, not under the id it was called with: at most
    that one key changes, the cache is not touched, and when the record
    carries the id of its session no other session is affected. *)
Theorem SaveMessage_writes_one_key (w w0 w' : World Data)
    (sessionID userID : string) (msg : Message.t) (s0 : SessionData.t) r :
  LoadSession sessionID w = (Ok s0, w0) ->
  SaveMessage sessionID userID msg w = (r, w') ->
  sessions w' = sessions w /\
  (forall other,
     other <> SessionData.SessionID s0 ->
     kv w' !! memory.sessionKey other = kv w !! memory.sessionKey other) /\
  (r = Ok tt ->
   exists d,
     Marshal (appended s0 userID msg (clock (tick w0))) = Ok d /\
     kv w' = <[memory.sessionKey (SessionData.SessionID s0) := d]> (kv w)) /\
  (r <> Ok tt -> kv w' = kv w).
Proof.
  intros L HS.
  destruct (LoadSession_frame _ _ _ _ _ _ L) as (K0 & R0 & S0 & T0).
  rewrite (SaveMessage_loaded Marshal Unmarshal clock w w0 _ _ _ s0 L) in HS.
  pose proof HS as HS'.
  apply saveSession_kv in HS' as (_ & S' & _ & _ & HK). simpl in *.
  split; [congruence |].
  assert (Hcases : (r = Ok tt /\
                    exists d,
                      Marshal (appended s0 userID msg (clock (tick w0)))
                      = Ok d /\
                      kv w' = <[memory.sessionKey (SessionData.SessionID s0)
                                := d]> (kv w)) \/
                   (r <> Ok tt /\ kv w' = kv w)).
  { destruct r as [[]|e].
    - left. split; [reflexivity |].
      apply saveSession_written in HS as (d & Hm & K). simpl in K.
      exists d. split; [exact Hm | congruence].
    - right. split; [discriminate |].
      unfold memory.saveSession, wrap, memory.client_Set, set_kv, fail in HS.
      destruct (Marshal _); [destruct (reachable w0) |];
        try discriminate; injection HS as _ <-; simpl; congruence. }
  split; [| split].
  - intros other Hne.
    destruct Hcases as [(_ & d & _ & ->)|(_ & ->)]; [| reflexivity].
    apply lookup_insert_ne. intros E. apply Hne.
    symmetry. now apply sessionKey_inj.
  - intros ->. destruct Hcases as [(_ & H)|(H & _)]; [exact H | congruence].
  - intros Hr. destruct Hcases as [(H & _)|(_ & H)]; [congruence | exact H].
Qed.

(** X11. With the store down nothing is read or written: [LoadSession]
    and [SaveMessage] fail and leave the world as it is, a session that
    is not cached cannot be opened and is not cached empty, while a
    cached session is still served, along with its formatted history. *)
Theorem store_unreachable (w : World Data) (sessionID : string) :
  reachable w = false ->
  (exists err, LoadSession sessionID w = (Err err, w)) /\
  (forall userID msg,
     exists err, SaveMessage sessionID userID msg w = (Err err, w)) /\
  (sessions w !! sessionID = None ->
   exists err, GetOrCreateSession sessionID w = (Err err, w)) /\
  (forall mem,
     sessions w !! sessionID = Some mem ->
     GetOrCreateSession sessionID w = (Ok mem, w) /\
     memory.GetFormattedHistory Unmarshal clock sessionID w
     = (Ok (match mem with
            | [] => "No previous conversation."
            | _ => formatted mem
            end), w)).
Proof.
  intros R.
  assert (L : LoadSession sessionID w
              = (Err (Wrap "failed to load session from Redis: "
                        memory.unreachable), w)).
  { unfold memory.LoadSession, bind, try, memory.client_Get.
    now rewrite R. }
  split; [eexists; exact L |]. split; [| split].
  - intros userID msg. eexists.
    exact (SaveMessage_failed_load Marshal Unmarshal clock w w _ _ _ _ L).
  - intros C. unfold memory.GetOrCreateSession. rewrite C.
    unfold bind, wrap. rewrite L. eexists. reflexivity.
  - intros mem C.
    pose proof (GetOrCreateSession_hit Unmarshal clock w sessionID mem C)
      as G.
    split; [exact G |].
    unfold memory.GetFormattedHistory, bind. rewrite G.
    destruct mem; reflexivity.
Qed.

(** X12. A stored value that does not decode blocks its session: loading
    it fails with "failed to parse session data", the session is not
    cached, and [SaveMessage] gives up before writing, so the value is
    never replaced by appends; clearing the session is what frees it. *)
Theorem corrupt_record (w : World Data) (sessionID : string) d e :
  reachable w = true ->
  kv w !! memory.sessionKey sessionID = Some d ->
  Unmarshal d = Err e ->
  LoadSession sessionID w
  = (Err (Wrap "failed to parse session data: " e), w) /\
  (forall userID msg,
     exists err, SaveMessage sessionID userID msg w = (Err err, w)) /\
  (sessions w !! sessionID = None ->
   exists err, GetOrCreateSession sessionID w = (Err err, w)) /\
  exists w' w'',
    ManagerClearSession sessionID w = (Ok tt, w') /\
    GetOrCreateSession sessionID w' = (Ok [], w'').
Proof.
  intros R K U.
  assert (L : LoadSession sessionID w
              = (Err (Wrap "failed to parse session data: " e), w)).
  { unfold memory.LoadSession, bind, try, memory.client_Get.
    now rewrite R, K, U. }
  split; [exact L |]. split; [| split].
  - intros userID msg. eexists.
    exact (SaveMessage_failed_load Marshal Unmarshal clock w w _ _ _ _ L).
  - intros C. unfold memory.GetOrCreateSession. rewrite C.
    unfold bind, wrap. rewrite L. eexists. reflexivity.
  - pose (w' := mkWorld (delete (memory.sessionKey sessionID) (kv w))
                  (reachable w) (tick w) (delete sessionID (sessions w))
                  (sent w)).
    assert (R' : reachable w' = true) by exact R.
    assert (K' : kv w' !! memory.sessionKey sessionID = None)
      by apply lookup_delete_eq.
    assert (C' : sessions w' !! sessionID = None) by apply lookup_delete_eq.
    exists w'. eexists.
    split; [exact (ManagerClearSession_reachable w sessionID R) |].
    exact (GetOrCreateSession_miss Unmarshal clock w' _ sessionID _ C'
             (LoadSession_absent Unmarshal clock w' sessionID R' K')).
Qed.

End StoreOps.

(** ** Touching a session, and the user id of a record *)

Section TouchFacts.
Context {Data : Type}.
Variable Marshal : SessionData.t -> result Data.
Variable Unmarshal : Data -> result SessionData.t.
Variable clock : nat -> Time.

Hypothesis codec_ok :
  forall s, exists d, Marshal s = Ok d /\ Unmarshal d = Ok s.

Local Abbreviation LoadSession := (memory.LoadSession Unmarshal clock).
Local Abbreviation SaveMessage :=
  (memory.SaveMessage Marshal Unmarshal clock).
Local Abbreviation UpdateActivity :=
  (memory.UpdateActivity Marshal Unmarshal clock).
Local Abbreviation GetMessages := (memory.GetMessages Unmarshal clock).
Local Abbreviation SessionExists := (memory.SessionExists (Data:=Data)).

Lemma GetMessages_loaded (w w0 : World Data) sessionID s0 :
  LoadSession sessionID w = (Ok s0, w0) ->
  GetMessages sessionID w = (Ok (SessionData.Messages s0), w0).
Proof. intros L. unfold memory.GetMessages, bind. now rewrite L. Qed.

Lemma stored_record (w : World Data) sessionID s :
  LoadSession sessionID w = (Ok s, w) ->
  reachable w = true ->
  is_Some (kv w !! memory.sessionKey sessionID).
Proof.
  intros L R.
  destruct (kv w !! memory.sessionKey sessionID) as [d|] eqn:K;
    [now exists d |].
  rewrite (LoadSession_absent Unmarshal clock w sessionID R K) in L.
  injection L as _ L. apply (f_equal tick) in L. simpl in L. lia.
Qed.



End TouchFacts.

(** ** The manager: cache and store together *)

Section ManagerOps.
Context {Data : Type}.
Variable Marshal : SessionData.t -> result Data.
Variable Unmarshal : Data -> result SessionData.t.
Variable clock : nat -> Time.

Hypothesis codec_ok :
  forall s, exists d, Marshal s = Ok d /\ Unmarshal d = Ok s.

Local Abbreviation LoadSession := (memory.LoadSession Unmarshal clock).
Local Abbreviation SaveMessage :=
  (memory.SaveMessage Marshal Unmarshal clock).
Local Abbreviation GetOrCreateSession :=
  (memory.GetOrCreateSession Unmarshal clock).
Local Abbreviation SaveUserMessage :=
  (memory.SaveUserMessage Marshal Unmarshal clock).
Local Abbreviation SaveAssistantMessage :=
  (memory.SaveAssistantMessage Marshal Unmarshal clock).

(** The record [LoadSession] returned without moving the clock is the
    stored one. *)
Lemma LoadSession_fixed (w : World Data) sessionID s :
  LoadSession sessionID w = (Ok s, w) ->
  exists d,
    kv w !! memory.sessionKey sessionID = Some d /\ Unmarshal d = Ok s.
Proof.
  unfold memory.LoadSession, bind, try, memory.client_Get.
  destruct (reachable w); [| discriminate].
  destruct (kv w !! memory.sessionKey sessionID) as [d|].
  - destruct (Unmarshal d) as [s'|e] eqn:U; [| discriminate].
    intros [= ->]. now exists d.
  - unfold memory.Now, ret. simpl. intros [= _ H].
    apply (f_equal tick) in H. simpl in H. lia.
Qed.

Lemma session_ok_frame (w w' : World Data) sessionID :
  kv w' = kv w -> session_ok Unmarshal w sessionID -> session_ok Unmarshal w' sessionID.
Proof. unfold session_ok. now intros ->. Qed.

Lemma stored_messages_frame (w w' : World Data) sessionID :
  kv w' = kv w -> stored_messages Unmarshal w' sessionID = stored_messages Unmarshal w sessionID.
Proof. unfold stored_messages. now intros ->. Qed.

(** Under the two invariants [GetOrCreateSession] returns the replay of
    the stored messages, cached or not. *)
Lemma GetOrCreateSession_consistent (w : World Data) sessionID :
  reachable w = true ->
  session_ok Unmarshal w sessionID ->
  cache_consistent Unmarshal w sessionID ->
  exists w1,
    GetOrCreateSession sessionID w
    = (Ok (memory.replay (stored_messages Unmarshal w sessionID)), w1) /\
    kv w1 = kv w /\ reachable w1 = true /\ sent w1 = sent w /\
    sessions w1
    = <[sessionID := memory.replay (stored_messages Unmarshal w sessionID)]>
        (sessions w).
Proof.
  intros R Hok Hc.
  destruct (sessions w !! sessionID) as [mem|] eqn:C.
  - exists w. rewrite (GetOrCreateSession_hit Unmarshal clock w _ mem C).
    rewrite <- (Hc mem C). repeat split; try assumption.
    symmetry. now apply insert_id.
  - destruct (LoadSession_total Unmarshal clock w sessionID R Hok)
      as (s0 & w0 & L).
    destruct (LoadSession_session_ok Unmarshal clock w w0 sessionID s0 Hok L)
      as (_ & HM).
    destruct (LoadSession_frame _ _ _ _ _ _ L) as (K0 & R0 & _ & T0).
    eexists.
    rewrite (GetOrCreateSession_miss Unmarshal clock w w0 sessionID s0 C L).
    rewrite HM. split; [reflexivity |]. simpl.
    repeat split; congruence.
Qed.

(** The store write of a turn, under the invariants. *)
Lemma SaveMessage_consistent (w : World Data) sessionID userID msg :
  reachable w = true ->
  session_ok Unmarshal w sessionID ->
  exists w',
    SaveMessage sessionID userID msg w = (Ok tt, w') /\
    stored_messages Unmarshal w' sessionID = stored_messages Unmarshal w sessionID ++ [msg] /\
    session_ok Unmarshal w' sessionID /\ reachable w' = true /\
    sessions w' = sessions w /\ sent w' = sent w.
Proof.
  intros R Hok.
  destruct (LoadSession_total Unmarshal clock w sessionID R Hok)
    as (s0 & w0 & L).
  destruct (LoadSession_session_ok Unmarshal clock w w0 sessionID s0 Hok L)
    as (Hid & HM).
  destruct (SaveMessage_step Marshal Unmarshal clock codec_ok w w0 sessionID
              userID msg s0 R L Hid) as (w' & HS & HL & R' & _).
  exists w'. split; [exact HS |].
  destruct (LoadSession_fixed w' sessionID _ HL) as (d & K & U).
  destruct (SaveMessage_kv Marshal Unmarshal clock w w' _ _ _ _ HS)
    as (S' & T' & _).
  split.
  { unfold stored_messages at 1. rewrite K, U. simpl.
    now rewrite HM. }
  split.
  { unfold session_ok. rewrite K. eexists. split; [exact U |].
    exact Hid. }
  repeat split; assumption.
Qed.

Lemma replay_snoc (msgs : list Message.t) (msg : Message.t) c :
  memory.chatMessageOf msg = Some c ->
  memory.replay (msgs ++ [msg]) = memory.replay msgs ++ [c].
Proof.
  intros H. rewrite !replay_omap, omap_app. simpl. now rewrite H.
Qed.

(** The steps of a save once the buffer is at hand. *)
Lemma SaveUserMessage_steps (w w1 : World Data) sessionID userID text mem :
  GetOrCreateSession sessionID w = (Ok mem, w1) ->
  SaveUserMessage sessionID userID text w
  = match SaveMessage sessionID userID
            (Message.mk "user" text (clock (tick w1)))
            (mkWorld (kv w1) (reachable w1) (S (tick w1))
               (<[sessionID := mem ++ [HumanChatMessage text]]>
                  (sessions w1)) (sent w1)) with
    | (Ok _, w') => (Ok tt, w')
    | (Err e, w') => (Err (Wrap "failed to save message to Redis: " e), w')
    end.
Proof.
  intros G. unfold memory.SaveUserMessage, bind at 1. rewrite G.
  unfold bind, memory.AddMessage, set_sessions, memory.Now, wrap, ret.
  cbv beta iota zeta. simpl.
  destruct (memory.SaveMessage _ _ _ _ _ _ _) as [[[]|e] w']; reflexivity.
Qed.

Lemma SaveAssistantMessage_steps (w w1 : World Data) sessionID userID text
    mem :
  GetOrCreateSession sessionID w = (Ok mem, w1) ->
  SaveAssistantMessage sessionID userID text w
  = match SaveMessage sessionID userID
            (Message.mk "assistant" text (clock (tick w1)))
            (mkWorld (kv w1) (reachable w1) (S (tick w1))
               (<[sessionID := mem ++ [AIChatMessage text]]>
                  (sessions w1)) (sent w1)) with
    | (Ok _, w') => (Ok tt, w')
    | (Err e, w') => (Err (Wrap "failed to save message to Redis: " e), w')
    end.
Proof.
  intros G. unfold memory.SaveAssistantMessage, bind at 1. rewrite G.
  unfold bind, memory.AddMessage, set_sessions, memory.Now, wrap, ret.
  cbv beta iota zeta. simpl.
  destruct (memory.SaveMessage _ _ _ _ _ _ _) as [[[]|e] w']; reflexivity.
Qed.

(** One save under the invariants, the chat message [c] being the one
    that [chatMessageOf] gives for the stored message. *)
Lemma save_consistent (w w1 : World Data) sessionID userID msg c :
  reachable w = true ->
  session_ok Unmarshal w sessionID ->
  kv w1 = kv w -> reachable w1 = true -> sent w1 = sent w ->
  sessions w1
  = <[sessionID := memory.replay (stored_messages Unmarshal w sessionID)]>
      (sessions w) ->
  memory.chatMessageOf msg = Some c ->
  forall t,
  exists w',
    SaveMessage sessionID userID msg
      (mkWorld (kv w1) (reachable w1) t
         (<[sessionID := memory.replay (stored_messages Unmarshal w sessionID)
                         ++ [c]]> (sessions w1)) (sent w1))
    = (Ok tt, w') /\
    stored_messages Unmarshal w' sessionID
    = stored_messages Unmarshal w sessionID ++ [msg] /\
    sessions w'
    = <[sessionID := memory.replay (stored_messages Unmarshal w sessionID)
                     ++ [c]]> (sessions w) /\
    reachable w' = true /\ session_ok Unmarshal w' sessionID /\
    cache_consistent Unmarshal w' sessionID /\ sent w' = sent w.
Proof.
  intros R Hok K1 R1 T1 S1 Hc t.
  match goal with
  | |- exists w', memory.SaveMessage _ _ _ _ _ _ ?w3 = _ /\ _ =>
      destruct (SaveMessage_consistent w3 sessionID userID msg R1)
        as (w' & HS & HM & Hok' & R' & S' & T');
        [now apply (session_ok_frame w) |];
        rewrite (stored_messages_frame w w3 sessionID K1) in HM
  end.
  simpl in S', T'.
  exists w'. split; [exact HS |]. split; [exact HM |].
  assert (HS' : sessions w'
                = <[sessionID := memory.replay
                                   (stored_messages Unmarshal w sessionID)
                                 ++ [c]]> (sessions w)).
  { rewrite S', S1. apply insert_insert_eq. }
  split; [exact HS' |]. split; [exact R' |]. split; [exact Hok' |].
  split; [| congruence].
  intros mem. rewrite HS', lookup_insert_eq. intros [= <-]. rewrite HM.
  symmetry. now apply replay_snoc.
Qed.

Lemma SaveUserMessage_consistent (w : World Data) sessionID userID text :
  reachable w = true ->
  session_ok Unmarshal w sessionID ->
  cache_consistent Unmarshal w sessionID ->
  exists w' t,
    SaveUserMessage sessionID userID text w = (Ok tt, w') /\
    stored_messages Unmarshal w' sessionID
    = stored_messages Unmarshal w sessionID ++ [Message.mk "user" text t] /\
    sessions w'
    = <[sessionID := memory.replay (stored_messages Unmarshal w sessionID)
                     ++ [HumanChatMessage text]]> (sessions w) /\
    reachable w' = true /\ session_ok Unmarshal w' sessionID /\
    cache_consistent Unmarshal w' sessionID /\ sent w' = sent w.
Proof.
  intros R Hok Hc.
  destruct (GetOrCreateSession_consistent w sessionID R Hok Hc)
    as (w1 & G & K1 & R1 & T1 & S1).
  rewrite (SaveUserMessage_steps w w1 sessionID userID text _ G).
  destruct (save_consistent w w1 sessionID userID
              (Message.mk "user" text (clock (tick w1)))
              (HumanChatMessage text) R Hok K1 R1 T1 S1 eq_refl
              (S (tick w1))) as (w' & HS & H).
  exists w', (clock (tick w1)). rewrite HS. split; [reflexivity | exact H].
Qed.

Lemma SaveAssistantMessage_consistent (w : World Data) sessionID userID
    text :
  reachable w = true ->
  session_ok Unmarshal w sessionID ->
  cache_consistent Unmarshal w sessionID ->
  exists w' t,
    SaveAssistantMessage sessionID userID text w = (Ok tt, w') /\
    stored_messages Unmarshal w' sessionID
    = stored_messages Unmarshal w sessionID
      ++ [Message.mk "assistant" text t] /\
    sessions w'
    = <[sessionID := memory.replay (stored_messages Unmarshal w sessionID)
                     ++ [AIChatMessage text]]> (sessions w) /\
    reachable w' = true /\ session_ok Unmarshal w' sessionID /\
    cache_consistent Unmarshal w' sessionID /\ sent w' = sent w.
Proof.
  intros R Hok Hc.
  destruct (GetOrCreateSession_consistent w sessionID R Hok Hc)
    as (w1 & G & K1 & R1 & T1 & S1).
  rewrite (SaveAssistantMessage_steps w w1 sessionID userID text _ G).
  destruct (save_consistent w w1 sessionID userID
              (Message.mk "assistant" text (clock (tick w1)))
              (AIChatMessage text) R Hok K1 R1 T1 S1 eq_refl
              (S (tick w1))) as (w' & HS & H).
  exists w', (clock (tick w1)). rewrite HS. split; [reflexivity | exact H].
Qed.


(** X16. The cache is written before the store and is not rolled back:
    for a cached session [SaveUserMessage] leaves the buffer one user
    message longer whatever the store write does, and with the store
    down it reports the failure while the store is as it was. *)
Theorem SaveUserMessage_cache_first (w w' : World Data)
    (sessionID userID text : string) (mem : ConversationBuffer) r :
  sessions w !! sessionID = Some mem ->
  SaveUserMessage sessionID userID text w = (r, w') ->
  sessions w' !! sessionID = Some (mem ++ [HumanChatMessage text]) /\
  (reachable w = false ->
   kv w' = kv w /\
   r = Err (Wrap "failed to save message to Redis: "
              (Wrap "failed to load session: "
                 (Wrap "failed to load session from Redis: "
                    memory.unreachable)))).
Proof.
  intros C.
  rewrite (SaveUserMessage_steps w w sessionID userID text mem
             (GetOrCreateSession_hit Unmarshal clock w sessionID mem C)).
  match goal with
  | |- context [memory.SaveMessage _ _ _ _ _ ?m ?w0] =>
      destruct (memory.SaveMessage Marshal Unmarshal clock sessionID
                  userID m w0) as [[[]|e] w4] eqn:S
  end; intros [= <- <-]; pose proof S as S0;
    apply SaveMessage_kv in S as (S' & _); simpl in S';
    (split; [rewrite S'; apply lookup_insert_eq |]); intros R;
    unfold memory.SaveMessage, bind, wrap, memory.LoadSession, try,
      memory.client_Get in S0; simpl in S0; rewrite R in S0.
  - discriminate.
  - injection S0 as <- <-. now split.
Qed.

End ManagerOps.

(** ** Rendering the history, and loading it from a request *)

Section HistoryFacts.
Context {Data : Type}.
Variable Unmarshal : Data -> result SessionData.t.
Variable clock : nat -> Time.

Local Abbreviation GetOrCreateSession :=
  (memory.GetOrCreateSession Unmarshal clock).
Local Abbreviation GetFormattedHistory :=
  (memory.GetFormattedHistory Unmarshal clock).
Local Abbreviation LoadHistoryFromRequest :=
  (memory.LoadHistoryFromRequest Unmarshal clock).

Lemma formatted_from (messages : ConversationBuffer) (acc : string) :
  fold_left (fun acc msg => acc +:+ memory.formatMessage msg) messages acc
  = acc +:+ String.concat EmptyString (map memory.formatMessage messages).
Proof.
  revert acc. induction messages as [|c rest IH]; intros acc.
  - simpl. induction acc as [|x a IHa]; rewrite ?app_nil, ?app_cons;
      [reflexivity | now f_equal].
  - cbn [fold_left map]. rewrite IH, app_assoc_string. f_equal.
    destruct rest as [|c' rest']; [| reflexivity].
    simpl. generalize (memory.formatMessage c) as s.
    induction s as [|x a IHa]; rewrite ?app_nil, ?app_cons;
      [reflexivity | now f_equal].
Qed.

Lemma formatted_concat (messages : ConversationBuffer) :
  formatted messages
  = String.concat EmptyString (map memory.formatMessage messages).
Proof. unfold formatted. now rewrite formatted_from, app_nil. Qed.

Lemma formatted_app (a b : ConversationBuffer) :
  formatted (a ++ b) = formatted a +:+ formatted b.
Proof.
  unfold formatted at 1. rewrite fold_left_app.
  fold (formatted a). now rewrite formatted_from, <- formatted_concat.
Qed.

Lemma formatted_cons (c : ChatMessage) (rest : ConversationBuffer) :
  formatted (c :: rest) = memory.formatMessage c +:+ formatted rest.
Proof. exact (formatted_app [c] rest). Qed.

Lemma formatMessage_line (c : ChatMessage) :
  memory.formatMessage c
  = (match c with
     | HumanChatMessage _ => "User"
     | AIChatMessage _ => "Assistant"
     | SystemChatMessage _ => "System"
     end) +:+ ": " +:+ contentOf c +:+ nl.
Proof. destruct c; reflexivity. Qed.

Lemma GetFormattedHistory_steps (w w1 : World Data) sessionID mem :
  GetOrCreateSession sessionID w = (Ok mem, w1) ->
  GetFormattedHistory sessionID w
  = (Ok (match mem with
         | [] => "No previous conversation."
         | _ => formatted mem
         end), w1).
Proof.
  intros G. unfold memory.GetFormattedHistory, bind. rewrite G.
  destruct mem; reflexivity.
Qed.

(** What [GetOrCreateSession] leaves in the cache when it succeeds. *)
Lemma GetOrCreateSession_cached (w w1 : World Data) sessionID mem :
  GetOrCreateSession sessionID w = (Ok mem, w1) ->
  sessions w1 !! sessionID = Some mem /\
  (forall other,
     other <> sessionID -> sessions w1 !! other = sessions w !! other).
Proof.
  unfold memory.GetOrCreateSession.
  destruct (sessions w !! sessionID) as [mem0|] eqn:C.
  - intros [= <- <-]. now split.
  - unfold bind, wrap.
    destruct (memory.LoadSession Unmarshal clock sessionID w)
      as [[s|e] w0] eqn:L; [| discriminate].
    destruct (LoadSession_frame _ _ _ _ _ _ L) as (_ & _ & S0 & _).
    unfold set_sessions, ret. intros [= <- <-]. simpl. rewrite S0. split.
    + apply lookup_insert_eq.
    + intros other Hne. apply lookup_insert_ne. congruence.
Qed.

Lemma GetOrCreateSession_failed (w w1 : World Data) sessionID e :
  GetOrCreateSession sessionID w = (Err e, w1) ->
  sessions w1 = sessions w.
Proof.
  unfold memory.GetOrCreateSession.
  destruct (sessions w !! sessionID) as [mem0|] eqn:C; [discriminate |].
  unfold bind, wrap.
  destruct (memory.LoadSession Unmarshal clock sessionID w)
    as [[s|e'] w0] eqn:L; [discriminate |].
  destruct (LoadSession_frame _ _ _ _ _ _ L) as (_ & _ & S0 & _).
  now intros [= _ <-].
Qed.

(** X17. The text [GetFormattedHistory] returns is never empty: it is
    the sentence "No previous conversation." when the buffer of the
    session is empty, and otherwise one line per message of the buffer,
    in order, each made of the speaker (User, Assistant or System), a
    colon and the content.  The session is cached afterwards and the
    store is not written. *)
Theorem GetFormattedHistory_text (w w' : World Data) (sessionID : string)
    (text : string) :
  GetFormattedHistory sessionID w = (Ok text, w') ->
  text <> EmptyString /\
  kv w' = kv w /\
  exists mem,
    sessions w' !! sessionID = Some mem /\
    (mem = [] -> text = "No previous conversation.") /\
    (mem <> [] ->
     text = String.concat EmptyString
              (map (fun c =>
                      (match c with
                       | HumanChatMessage _ => "User"
                       | AIChatMessage _ => "Assistant"
                       | SystemChatMessage _ => "System"
                       end) +:+ ": " +:+ contentOf c +:+ nl) mem)).
Proof.
  intros H.
  destruct (GetOrCreateSession sessionID w) as [[mem|e] w1] eqn:G.
  - rewrite (GetFormattedHistory_steps w w1 sessionID mem G) in H.
    injection H as <- <-.
    destruct (GetOrCreateSession_frame _ _ _ _ _ _ G) as (K & _).
    destruct (GetOrCreateSession_cached w w1 sessionID mem G) as (C & _).
    split.
    { destruct mem as [|c rest]; [discriminate |].
      rewrite formatted_cons. destruct c; discriminate. }
    split; [exact K |]. exists mem. split; [exact C |]. split.
    + now intros ->.
    + intros Hne. destruct mem as [|c rest]; [congruence |].
      rewrite formatted_concat. f_equal. apply map_ext.
      exact formatMessage_line.
  - unfold memory.GetFormattedHistory, bind in H. rewrite G in H.
    discriminate.
Qed.

Lemma history_from (history : list ConversationMessage.t)
    (mem : ConversationBuffer) :
  fold_left
    (fun mem msg =>
       if String.eqb (ConversationMessage.Role msg) "user" then
         mem ++ [HumanChatMessage (ConversationMessage.Message msg)]
       else if String.eqb (ConversationMessage.Role msg) "assistant" then
         mem ++ [AIChatMessage (ConversationMessage.Message msg)]
       else mem)
    history mem
  = mem ++ omap chatOfRequestMessage history.
Proof.
  revert mem. induction history as [|m rest IH]; intros mem.
  - simpl. now rewrite app_nil_r.
  - cbn [fold_left omap list_omap]. rewrite IH. unfold chatOfRequestMessage.
    destruct (String.eqb (ConversationMessage.Role m) "user");
      [now rewrite <- app_assoc |].
    destruct (String.eqb (ConversationMessage.Role m) "assistant");
      [now rewrite <- app_assoc | reflexivity].
Qed.

(** X18. [LoadHistoryFromRequest] replaces the cached buffer of the
    session, whatever it held, by the user and assistant turns of the
    given history in their order; turns of any other role, system
    included, are dropped.  The store and the other cached sessions are
    as they were, and when the session cannot be opened the call fails
    and the cache is unchanged. *)
Theorem LoadHistoryFromRequest_replaces (w w' : World Data)
    (sessionID : string) (history : list ConversationMessage.t) r :
  LoadHistoryFromRequest sessionID history w = (r, w') ->
  kv w' = kv w /\
  (forall other,
     other <> sessionID -> sessions w' !! other = sessions w !! other) /\
  (r = Ok tt ->
   exists mem,
     sessions w' !! sessionID = Some mem /\
     mem = omap chatOfRequestMessage history /\
     Forall2 (fun c m =>
                contentOf c = ConversationMessage.Message m /\
                roleOf c = ConversationMessage.Role m)
       mem
       (List.filter
          (fun m => String.eqb (ConversationMessage.Role m) "user"
                    || String.eqb (ConversationMessage.Role m) "assistant")
          history)) /\
  (r <> Ok tt ->
   sessions w' = sessions w /\
   exists e, GetOrCreateSession sessionID w = (Err e, w') /\ r = Err e).
Proof.
  unfold memory.LoadHistoryFromRequest, bind.
  destruct (GetOrCreateSession sessionID w) as [[mem0|e] w1] eqn:G;
    destruct (GetOrCreateSession_frame _ _ _ _ _ _ G) as (K & _).
  - destruct (GetOrCreateSession_cached w w1 sessionID mem0 G) as (_ & Ho).
    unfold set_sessions. intros [= <- <-]. simpl.
    split; [exact K |]. split.
    { intros other Hne. rewrite lookup_insert_ne by congruence.
      now apply Ho. }
    split; [| congruence].
    intros _. eexists. split; [apply lookup_insert_eq |].
    rewrite history_from, app_nil_l. split; [reflexivity |].
    clear. induction history as [|m rest IH]; [constructor |].
    cbn [omap list_omap List.filter]. unfold chatOfRequestMessage at 1.
    destruct (String.eqb_spec (ConversationMessage.Role m) "user") as [E|_].
    + simpl. constructor; [now rewrite E | exact IH].
    + destruct (String.eqb_spec (ConversationMessage.Role m) "assistant")
        as [E|_].
      * simpl. constructor; [now rewrite E | exact IH].
      * exact IH.
  - intros [= <- <-]. split; [exact K |].
    pose proof (GetOrCreateSession_failed w w1 sessionID e G) as S.
    split; [intros other _; now rewrite S |].
    split; [discriminate |].
    intros _. split; [exact S |]. now exists e.
Qed.

(** X19. [GetActiveSessionCount] counts the sessions of the cache, not
    those of the store: it is zero exactly when nothing is cached,
    opening a session that is not cached raises it by one whether or not
    the store holds a record for it, and opening a cached one leaves
    it. *)
Theorem GetActiveSessionCount_counts_cache (w w1 : World Data)
    (sessionID : string) (mem : ConversationBuffer) :
  GetOrCreateSession sessionID w = (Ok mem, w1) ->
  exists n n1,
    memory.GetActiveSessionCount w = (Ok n, w) /\
    memory.GetActiveSessionCount w1 = (Ok n1, w1) /\
    0 <= n /\
    (sessions w = ∅ <-> n = 0) /\
    (sessions w !! sessionID = None -> n1 = n + 1) /\
    (is_Some (sessions w !! sessionID) -> n1 = n).
Proof.
  intros G. unfold memory.GetActiveSessionCount.
  do 2 eexists. split; [reflexivity |]. split; [reflexivity |].
  split; [lia |]. split.
  { rewrite <- map_size_empty_iff. lia. }
  split.
  - intros C. unfold memory.GetOrCreateSession in G. rewrite C in G.
    unfold bind, wrap in G.
    destruct (memory.LoadSession Unmarshal clock sessionID w)
      as [[s|e] w0] eqn:L; [| discriminate].
    destruct (LoadSession_frame _ _ _ _ _ _ L) as (_ & _ & S0 & _).
    unfold set_sessions, ret in G. injection G as _ <-. simpl.
    rewrite S0, map_size_insert_None by exact C. lia.
  - intros [mem0 C].
    rewrite (GetOrCreateSession_hit Unmarshal clock w sessionID mem0 C) in G.
    now injection G as _ <-.
Qed.

End HistoryFacts.

(** ** A turn of the memory-integrated provider *)

Section TurnFacts.
Context {Data : Type}.
Variable Marshal : SessionData.t -> result Data.
Variable Unmarshal : Data -> result SessionData.t.
Variable clock : nat -> Time.
Variable model : string.
Variable Do : AnthropicRequest.t -> result (Z * result string).
Variable UnmarshalError : string -> result string.
Variable UnmarshalResponse : string -> result (list string).
Variable UnmarshalIntent : string -> result IntentResponse.t.

Hypothesis codec_ok :
  forall s, exists d, Marshal s = Ok d /\ Unmarshal d = Ok s.

Local Abbreviation AnalyzeIntent :=
  (llm.AnalyzeIntent Marshal Unmarshal clock model Do UnmarshalError
     UnmarshalResponse UnmarshalIntent).
Local Abbreviation SaveUserMessage :=
  (memory.SaveUserMessage Marshal Unmarshal clock).
Local Abbreviation SaveAssistantMessage :=
  (memory.SaveAssistantMessage Marshal Unmarshal clock).
Local Abbreviation GetFormattedHistory :=
  (memory.GetFormattedHistory Unmarshal clock).
Local Abbreviation GetOrCreateSession :=
  (memory.GetOrCreateSession Unmarshal clock).
Local Abbreviation parseIntentResponse :=
  (llm.parseIntentResponse UnmarshalIntent).

(** The request [AnalyzeIntent] sends for a prompt history. *)
Local Abbreviation requestFor request history :=
  (AnthropicRequest.mk model 1000 "0.1"
     [AnthropicMessage.mk "user"
        (llm.buildPromptWithHistory request history)]).

(** The outcome of the round trip and of the parse, steps 6 to 9. *)
Lemma AnalyzeIntent_steps (request : IntentRequest.t) (w w1 w2 : World Data)
    r1 loaded :
  let sid := IntentRequest.SessionID request in
  let history :=
    match loaded with
    | Ok formatted => formatted
    | Err _ => "No previous conversation."
    end in
  let w3 := mkWorld (kv w2) (reachable w2) (tick w2) (sessions w2)
              (sent w2 ++ [requestFor request history]) in
  SaveUserMessage sid ("user_" +:+ sid) (IntentRequest.UserMessage request) w
  = (r1, w1) ->
  GetFormattedHistory sid w1 = (loaded, w2) ->
  AnalyzeIntent request w
  = match Do (requestFor request history) with
    | Err err => (Err (Wrap "failed to make HTTP request: " err), w3)
    | Ok (_, Err err) =>
        (Err (Wrap "failed to read response body: " err), w3)
    | Ok (status, Ok body) =>
        if negb (status =? 200) then
          match UnmarshalError body with
          | Err _ =>
              (Err (Errorf ("API request failed with status "
                            +:+ itoa status +:+ ": " +:+ body)), w3)
          | Ok message =>
              (Err (Errorf ("anthropic API error: " +:+ message)), w3)
          end
        else
          match UnmarshalResponse body with
          | Err err => (Err (Wrap "failed to parse response: " err), w3)
          | Ok texts =>
              match parseIntentResponse
                      (match texts with
                       | text :: _ => text
                       | [] => EmptyString
                       end) with
              | Err err =>
                  (Err (Wrap "failed to parse intent response: " err), w3)
              | Ok resp =>
                  (Ok (IntentResponse.set_SessionID sid resp),
                   if is_empty (IntentResponse.UserMessage resp) then w3
                   else
                     (SaveAssistantMessage sid ("user_" +:+ sid)
                        (IntentResponse.UserMessage resp) w3).2)
              end
          end
    end.
Proof.
  intros sid history w3 E1 E2.
  unfold llm.AnalyzeIntent, bind at 1, try at 1. fold sid. rewrite E1.
  unfold bind at 1, try at 1. rewrite E2.
  unfold bind at 1, log_sent. fold history. fold w3.
  destruct (Do _) as [[status [body|err]]|err]; try reflexivity.
  destruct (negb (status =? 200)).
  { destruct (UnmarshalError body); reflexivity. }
  destruct (UnmarshalResponse body) as [texts|err]; [| reflexivity].
  destruct (llm.parseIntentResponse _ _) as [resp|err]; [| reflexivity].
  unfold bind, try, ret.
  destruct resp as [s a st p um ec em]. simpl.
  destruct (is_empty um); [reflexivity |].
  destruct (memory.SaveAssistantMessage _ _ _ _ _ _ _); reflexivity.
Qed.

Lemma parseIntentResponse_shape (content : string) (resp : IntentResponse.t) :
  parseIntentResponse content = Ok resp ->
  IntentResponse.Status resp <> EmptyString /\
  IntentResponse.Parameters resp <> None.
Proof.
  unfold llm.parseIntentResponse.
  destruct (is_empty (llm.extractJSON content)); [discriminate |].
  destruct (UnmarshalIntent _) as [d|e]; [| discriminate].
  destruct d as [s a st p um ec em]. simpl.
  destruct (is_empty st) eqn:E; destruct p; simpl; intros [= <-]; simpl;
    split; try discriminate; intros ->; discriminate.
Qed.

Lemma invariants_frame (w w' : World Data) sessionID :
  kv w' = kv w -> sessions w' = sessions w ->
  (session_ok Unmarshal w sessionID -> session_ok Unmarshal w' sessionID) /\
  (cache_consistent Unmarshal w sessionID ->
   cache_consistent Unmarshal w' sessionID) /\
  stored_messages Unmarshal w' sessionID
  = stored_messages Unmarshal w sessionID.
Proof.
  unfold session_ok, cache_consistent, stored_messages.
  intros -> ->. auto.
Qed.

Lemma formatted_snoc_history (mem : ConversationBuffer) (c : ChatMessage) :
  match mem ++ [c] with
  | [] => "No previous conversation."
  | _ => formatted (mem ++ [c])
  end = formatted (mem ++ [c]).
Proof. destruct mem; reflexivity. Qed.


Lemma GetOrCreateSession_down (w : World Data) sessionID :
  reachable w = false ->
  sessions w !! sessionID = None ->
  exists e, GetOrCreateSession sessionID w = (Err e, w).
Proof.
  intros R C. unfold memory.GetOrCreateSession. rewrite C.
  unfold bind, wrap, memory.LoadSession, bind, try, memory.client_Get.
  rewrite R. eexists. reflexivity.
Qed.

(** X21. Storage failures never fail a turn.  With the store down and
    the session not cached, nothing can be read or written, and the
    provider still sends its request, with "No previous conversation."
    for history, and returns the parsed response; store and cache are as
    they were. *)
Theorem turn_without_store (request : IntentRequest.t) (w : World Data)
    (body : string) (texts : list string) (resp : IntentResponse.t) :
  let sid := IntentRequest.SessionID request in
  reachable w = false ->
  sessions w !! sid = None ->
  Do (requestFor request "No previous conversation.") = Ok (200, Ok body) ->
  UnmarshalResponse body = Ok texts ->
  parseIntentResponse (match texts with
                       | text :: _ => text
                       | [] => EmptyString
                       end) = Ok resp ->
  exists w',
    AnalyzeIntent request w
    = (Ok (IntentResponse.set_SessionID sid resp), w') /\
    sent w' = sent w ++ [requestFor request "No previous conversation."] /\
    kv w' = kv w /\ sessions w' = sessions w.
Proof.
  intros sid R C HDo HU HP.
  destruct (GetOrCreateSession_down w sid R C) as (e & G).
  assert (H1 : SaveUserMessage sid ("user_" +:+ sid)
                 (IntentRequest.UserMessage request) w = (Err e, w)).
  { unfold memory.SaveUserMessage, bind. now rewrite G. }
  assert (E2 : GetFormattedHistory sid w = (Err e, w)).
  { unfold memory.GetFormattedHistory, bind. now rewrite G. }
  rewrite (AnalyzeIntent_steps request w w w _ _ H1 E2).
  cbv zeta. rewrite HDo. simpl negb. cbv iota. rewrite HU, HP.
  set (w3 := mkWorld (kv w) (reachable w) (tick w) (sessions w)
               (sent w ++ [requestFor request "No previous conversation."])).
  fold sid.
  destruct (is_empty (IntentResponse.UserMessage resp)).
  - exists w3. repeat split.
  - destruct (GetOrCreateSession_down w3 sid R C) as (e3 & G3).
    unfold memory.SaveAssistantMessage, bind. rewrite G3.
    exists w3. repeat split.
Qed.

(** X22. When [AnalyzeIntent] returns an error, the error comes from the
    HTTP round trip or from decoding its answer, never from the store;
    one request has been sent; and the store has gained at most the user
    message of the turn. *)
Theorem AnalyzeIntent_errors (request : IntentRequest.t) (w w' : World Data)
    (e : error) :
  AnalyzeIntent request w = (Err e, w') ->
  (exists cause,
     e = Wrap "failed to make HTTP request: " cause \/
     e = Wrap "failed to read response body: " cause \/
     e = Wrap "failed to parse response: " cause \/
     e = Wrap "failed to parse intent response: " cause \/
     exists status text,
       status <> 200 /\
       (e = Errorf ("anthropic API error: " +:+ text) \/
        e = Errorf ("API request failed with status " +:+ itoa status
                    +:+ ": " +:+ text))) /\
  (exists history, sent w' = sent w ++ [requestFor request history]) /\
  only_user_turn_written Marshal (IntentRequest.UserMessage request)
    (kv w) (kv w').
Proof.
  destruct (SaveUserMessage (IntentRequest.SessionID request)
              ("user_" +:+ IntentRequest.SessionID request)
              (IntentRequest.UserMessage request) w) as [r1 w1] eqn:E1.
  destruct (GetFormattedHistory (IntentRequest.SessionID request) w1)
    as [loaded w2] eqn:E2.
  rewrite (AnalyzeIntent_steps request w w1 w2 _ _ E1 E2). cbv zeta.
  apply SaveUserMessage_kv in E1 as (T1 & W1).
  apply GetFormattedHistory_frame in E2 as (K2 & T2).
  assert (Hrest :
            (exists history,
               sent w2 ++ [requestFor request
                             match loaded with
                             | Ok formatted => formatted
                             | Err _ => "No previous conversation."
                             end]
               = sent w ++ [requestFor request history]) /\
            only_user_turn_written Marshal
              (IntentRequest.UserMessage request) (kv w) (kv w2)).
  { split; [eexists; now rewrite T2, T1 | now rewrite K2]. }
  destruct (Do _) as [[status [body|err]]|err].
  - destruct (negb (status =? 200)) eqn:N.
    + assert (status <> 200).
      { intros ->. discriminate. }
      destruct (UnmarshalError body) as [message|err];
        intros [= <- <-]; (split; [| exact Hrest]);
        exists DeadlineExceeded; do 4 right; eauto.
    + destruct (UnmarshalResponse body) as [texts|err].
      * destruct (llm.parseIntentResponse _ _) as [resp|err];
          [discriminate |].
        intros [= <- <-]. split; [| exact Hrest]. exists err. auto.
      * intros [= <- <-]. split; [| exact Hrest]. exists err. auto.
  - intros [= <- <-]. split; [| exact Hrest]. exists err. auto.
  - intros [= <- <-]. split; [| exact Hrest]. exists err. auto.
Qed.

(** X23. The response [AnalyzeIntent] returns carries the session id of
    the request, a status that is not empty and a parameter map that is
    not nil; one request has been sent, for the provider's model, with
    1000 tokens at most, temperature 0.1 and the prompt as its only
    message; and an empty user message in the response leaves the store
    with at most the user message of the turn. *)
Theorem AnalyzeIntent_result (request : IntentRequest.t) (w w' : World Data)
    (resp : IntentResponse.t) :
  AnalyzeIntent request w = (Ok resp, w') ->
  IntentResponse.SessionID resp = IntentRequest.SessionID request /\
  IntentResponse.Status resp <> EmptyString /\
  IntentResponse.Parameters resp <> None /\
  (exists history,
     sent w'
     = sent w ++
       [AnthropicRequest.mk model 1000 "0.1"
          [AnthropicMessage.mk "user"
             (llm.buildPromptWithHistory request history)]]) /\
  (IntentResponse.UserMessage resp = EmptyString ->
   only_user_turn_written Marshal (IntentRequest.UserMessage request)
     (kv w) (kv w')).
Proof.
  destruct (SaveUserMessage (IntentRequest.SessionID request)
              ("user_" +:+ IntentRequest.SessionID request)
              (IntentRequest.UserMessage request) w) as [r1 w1] eqn:E1.
  destruct (GetFormattedHistory (IntentRequest.SessionID request) w1)
    as [loaded w2] eqn:E2.
  rewrite (AnalyzeIntent_steps request w w1 w2 _ _ E1 E2). cbv zeta.
  apply SaveUserMessage_kv in E1 as (T1 & W1).
  apply GetFormattedHistory_frame in E2 as (K2 & T2).
  destruct (Do _) as [[status [body|err]]|err]; try discriminate.
  destruct (negb (status =? 200));
    [destruct (UnmarshalError body); discriminate |].
  destruct (UnmarshalResponse body) as [texts|err]; [| discriminate].
  destruct (llm.parseIntentResponse _ _) as [parsed|err] eqn:P;
    [| discriminate].
  apply parseIntentResponse_shape in P as (Hs & Hp).
  intros [= <- <-].
  destruct parsed as [s a st p um ec em]. simpl in *.
  split; [reflexivity |]. split; [exact Hs |]. split; [exact Hp |].
  destruct (is_empty um) eqn:E.
  - split; [eexists; simpl; now rewrite T2, T1 |].
    intros _. simpl. now rewrite K2.
  - split.
    + match goal with
      | |- context [memory.SaveAssistantMessage _ _ _ ?a ?b ?c ?d] =>
          destruct (memory.SaveAssistantMessage Marshal Unmarshal clock
                      a b c d) as [r4 w4] eqn:E4
      end.
      apply SaveAssistantMessage_sent in E4. simpl in E4 |- *.
      eexists. now rewrite E4, T2, T1.
    + intros ->. discriminate.
Qed.

End TurnFacts.

(** ** Configuration *)

Section ConfigFacts.
Variable ParseDuration : string -> result Z.

Local Abbreviation Load := (config.Load ParseDuration).

Lemma getEnv_nonempty (env : gmap string string) (key defaultValue : string) :
  defaultValue <> EmptyString ->
  config.getEnv env key defaultValue <> EmptyString.
Proof.
  intros Hd. unfold config.getEnv.
  destruct (config.Getenv env key) as [|a s]; [exact Hd | discriminate].
Qed.

Lemma getEnv_no_default (env : gmap string string) (key : string) :
  config.getEnv env key EmptyString = default EmptyString (env !! key).
Proof.
  unfold config.getEnv, config.Getenv.
  now destruct (default EmptyString (env !! key)).
Qed.

(** [getDurationEnv] takes the value of the variable when it is not
    empty and parses, and the default otherwise. *)
Lemma getDurationEnv_spec (env : gmap string string) (key : string)
    (defaultValue : Z) :
  (forall value duration,
     env !! key = Some value -> value <> EmptyString ->
     ParseDuration value = Ok duration ->
     config.getDurationEnv ParseDuration env key defaultValue = duration) /\
  (env !! key = None \/ env !! key = Some EmptyString \/
   (exists value err,
      env !! key = Some value /\ ParseDuration value = Err err) ->
   config.getDurationEnv ParseDuration env key defaultValue = defaultValue).
Proof.
  unfold config.getDurationEnv, config.Getenv. split.
  - intros value duration -> NE P. simpl.
    apply is_empty_false in NE. now rewrite NE, P.
  - intros [->|[->|(value & err & -> & P)]]; simpl; try reflexivity.
    destruct (is_empty value); [reflexivity | now rewrite P].
Qed.

Lemma Getenv_empty_value (env : gmap string string) (key k : string) :
  config.Getenv (<[key := EmptyString]> env) k
  = config.Getenv (delete key env) k.
Proof.
  unfold config.Getenv. destruct (decide (k = key)) as [->|Hne].
  - now rewrite lookup_insert_eq, lookup_delete_eq.
  - now rewrite lookup_insert_ne, lookup_delete_ne by congruence.
Qed.

(** X24. [Load] fails, with "ANTHROPIC_API_KEY is required", exactly
    when that variable is unset or empty.  When it succeeds the key is
    the value of the variable, no string setting is empty, and each of
    the two timeouts is the duration its variable parses to when the
    variable is set, not empty and parses, and its default (10 and 30
    seconds) when the variable is unset, empty or does not parse. *)
Theorem Load_requires_api_key (env : gmap string string) :
  (Load env = Err (Errorf "ANTHROPIC_API_KEY is required") <->
   env !! "ANTHROPIC_API_KEY" = None \/
   env !! "ANTHROPIC_API_KEY" = Some EmptyString) /\
  (forall e, Load env = Err e -> e = Errorf "ANTHROPIC_API_KEY is required")
  /\
  (forall cfg,
     Load env = Ok cfg ->
     env !! "ANTHROPIC_API_KEY" = Some (config.AnthropicAPIKey cfg) /\
     config.AnthropicAPIKey cfg <> EmptyString /\
     config.ServiceName cfg <> EmptyString /\
     config.Port cfg <> EmptyString /\
     config.NatsURL cfg <> EmptyString /\
     config.NatsRequestSubject cfg <> EmptyString /\
     config.AnthropicModel cfg <> EmptyString /\
     config.RedisURL cfg <> EmptyString /\
     (forall value duration,
        env !! "NATS_TIMEOUT" = Some value -> value <> EmptyString ->
        ParseDuration value = Ok duration ->
        config.NatsTimeout cfg = duration) /\
     (env !! "NATS_TIMEOUT" = None \/
      env !! "NATS_TIMEOUT" = Some EmptyString \/
      (exists value err,
         env !! "NATS_TIMEOUT" = Some value /\
         ParseDuration value = Err err) ->
      config.NatsTimeout cfg = 10 * config.Second) /\
     (forall value duration,
        env !! "ANTHROPIC_TIMEOUT" = Some value -> value <> EmptyString ->
        ParseDuration value = Ok duration ->
        config.AnthropicTimeout cfg = duration) /\
     (env !! "ANTHROPIC_TIMEOUT" = None \/
      env !! "ANTHROPIC_TIMEOUT" = Some EmptyString \/
      (exists value err,
         env !! "ANTHROPIC_TIMEOUT" = Some value /\
         ParseDuration value = Err err) ->
      config.AnthropicTimeout cfg = 30 * config.Second)).
Proof.
  unfold config.Load. cbn [config.AnthropicAPIKey].
  rewrite (getEnv_no_default env "ANTHROPIC_API_KEY").
  destruct (env !! "ANTHROPIC_API_KEY") as [[|a key]|] eqn:K; simpl.
  - split; [split; auto |]. split; [now intros e [= <-] | discriminate].
  - split.
    { split; [discriminate | intros [H|H]; discriminate]. }
    split; [discriminate |].
    intros cfg [= <-]. cbn.
    split; [reflexivity |]. split; [discriminate |].
    do 6 (split; [apply getEnv_nonempty; discriminate |]).
    destruct (getDurationEnv_spec env "NATS_TIMEOUT" (10 * config.Second))
      as (N1 & N2).
    destruct (getDurationEnv_spec env "ANTHROPIC_TIMEOUT"
                (30 * config.Second)) as (A1 & A2).
    split; [exact N1 |]. split; [exact N2 |]. split; [exact A1 | exact A2].
  - split; [split; auto |]. split; [now intros e [= <-] | discriminate].
Qed.

(** X25. A variable set to the empty string counts as unset: both
    versions of [Load] give the same result as if it had been removed
    from the environment. *)
Theorem empty_value_is_unset (env : gmap string string) (key : string) :
  Load (<[key := EmptyString]> env) = Load (delete key env) /\
  config_standalone.Load ParseDuration (<[key := EmptyString]> env)
  = config_standalone.Load ParseDuration (delete key env).
Proof.
  unfold config.Load, config_standalone.Load, config.getEnv,
    config.getDurationEnv.
  now rewrite !Getenv_empty_value.
Qed.

End ConfigFacts.

(** ** The provider without memory, and the prompt builders *)

Section StandaloneFacts.
Variable Title : string -> string.
Variable model : string.
Variable Do : AnthropicRequest.t -> result (Z * result string).
Variable UnmarshalError : string -> result string.
Variable UnmarshalResponse : string -> result (list string).
Variable UnmarshalIntent : string -> result IntentResponse.t.

Local Abbreviation AnalyzeIntent :=
  (llm_standalone.AnalyzeIntent Title model Do UnmarshalError
     UnmarshalResponse UnmarshalIntent).

Lemma standalone_parse_shape (content : string) (resp : IntentResponse.t) :
  llm_standalone.parseIntentResponse UnmarshalIntent content = Ok resp ->
  IntentResponse.Status resp <> EmptyString /\
  IntentResponse.Parameters resp <> None.
Proof.
  unfold llm_standalone.parseIntentResponse.
  destruct (is_empty (llm_standalone.extractJSON content)); [discriminate |].
  destruct (UnmarshalIntent _) as [d|e]; [| discriminate].
  destruct d as [s a st p um ec em]. simpl.
  destruct (is_empty st) eqn:E; destruct p; simpl; intros [= <-]; simpl;
    split; try discriminate; intros ->; discriminate.
Qed.

(** X26. The provider without memory: a response it returns carries the
    session id of the request, a status that is not empty and a
    parameter map that is not nil; an error it returns comes from the
    HTTP round trip or from decoding its answer. *)
Theorem standalone_AnalyzeIntent_outcome (request : IntentRequest.t) :
  (forall resp,
     AnalyzeIntent request = Ok resp ->
     IntentResponse.SessionID resp = IntentRequest.SessionID request /\
     IntentResponse.Status resp <> EmptyString /\
     IntentResponse.Parameters resp <> None) /\
  (forall e,
     AnalyzeIntent request = Err e ->
     exists cause,
       e = Wrap "failed to make HTTP request: " cause \/
       e = Wrap "failed to read response body: " cause \/
       e = Wrap "failed to parse response: " cause \/
       e = Wrap "failed to parse intent response: " cause \/
       exists status text,
         status <> 200 /\
         (e = Errorf ("anthropic API error: " +:+ text) \/
          e = Errorf ("API request failed with status " +:+ itoa status
                      +:+ ": " +:+ text))).
Proof.
  unfold llm_standalone.AnalyzeIntent.
  destruct (Do _) as [[status [body|err]]|err].
  - destruct (negb (status =? 200)) eqn:N.
    + assert (status <> 200) by (intros ->; discriminate).
      split; [destruct (UnmarshalError body); discriminate |].
      destruct (UnmarshalError body) as [message|err]; intros e [= <-];
        exists DeadlineExceeded; do 4 right; eauto.
    + destruct (UnmarshalResponse body) as [texts|err].
      * destruct (llm_standalone.parseIntentResponse _ _) as [parsed|err]
          eqn:P.
        -- apply standalone_parse_shape in P as (Hs & Hp).
           split; [| discriminate].
           intros resp [= <-]. destruct parsed; simpl in *. auto.
        -- split; [discriminate |]. intros e [= <-]. exists err. auto.
      * split; [discriminate |]. intros e [= <-]. exists err. auto.
  - split; [discriminate |]. intros e [= <-]. exists err. auto.
  - split; [discriminate |]. intros e [= <-]. exists err. auto.
Qed.

End StandaloneFacts.

(** ** The sections of the prompt *)

Section PromptFacts.
Variable Title : string -> string.

(** The line of an action and the line of a turn of the history. *)
Local Abbreviation actionLine action :=
  ("- " +:+ ActionSchema.Action action +:+ ": requires ["
   +:+ strings.Join (ActionSchema.Parameters action) ", " +:+ "]" +:+ nl).
Local Abbreviation turnLine msg :=
  (Title (ConversationMessage.Role msg) +:+ ": "
   +:+ ConversationMessage.Message msg +:+ nl).

Lemma app_nil_r_string (a : string) : a +:+ EmptyString = a.
Proof.
  induction a as [|x a IH]; rewrite ?app_nil, ?app_cons;
    [reflexivity | now f_equal].
Qed.

Lemma concat_lines {A : Type} (line : A -> string) (items : list A)
    (acc : string) :
  fold_left (fun builder item => builder +:+ line item) items acc
  = acc +:+ String.concat EmptyString (map line items).
Proof.
  revert acc. induction items as [|x rest IH]; intros acc.
  - simpl. now rewrite app_nil_r_string.
  - cbn [fold_left map]. rewrite IH, app_assoc_string. f_equal.
    destruct rest as [|y rest']; [| reflexivity].
    simpl. now rewrite app_nil_r_string.
Qed.

Lemma concat_app_lines (a b : list string) :
  String.concat EmptyString (a ++ b)
  = String.concat EmptyString a +:+ String.concat EmptyString b.
Proof.
  induction a as [|x a IH]; [reflexivity |].
  change ((x :: a) ++ b) with (x :: (a ++ b)).
  destruct a as [|y a'].
  - destruct b as [|z b']; simpl.
    + now rewrite app_nil_r_string.
    + reflexivity.
  - change (String.concat EmptyString (x :: (y :: a') ++ b))
      with (x +:+ String.concat EmptyString ((y :: a') ++ b)).
    rewrite IH.
    change (String.concat EmptyString (x :: y :: a'))
      with (x +:+ String.concat EmptyString (y :: a')).
    now rewrite app_assoc_string.
Qed.

(** X27. The sections of the prompt are made of one line per item, in
    order: the actions section of the actions of the request, each with
    its parameters joined by commas, and the conversation section of the
    turns of the history followed by the current user message, which is
    its last line even when there is no history.  The three copies of
    [buildActionsSection] and the two of [buildConversationSection] are
    the same functions, and the session id is not part of the prompt. *)
Theorem prompt_sections (actions : list ActionSchema.t)
    (history : list ConversationMessage.t) (currentMessage : string) :
  prompts.buildActionsSection actions
  = String.concat EmptyString (map (fun action => actionLine action) actions)
  /\
  prompts.buildConversationSection Title history currentMessage
  = String.concat EmptyString (map (fun msg => turnLine msg) history)
    +:+ "User: " +:+ currentMessage +:+ nl /\
  (forall earlier later,
     history = earlier ++ later ->
     prompts.buildConversationSection Title history currentMessage
     = String.concat EmptyString (map (fun msg => turnLine msg) earlier)
       +:+ prompts.buildConversationSection Title later currentMessage) /\
  llm.buildActionsSection actions = prompts.buildActionsSection actions /\
  llm_standalone.buildActionsSection actions
  = prompts.buildActionsSection actions /\
  llm_standalone.buildConversationSection Title history currentMessage
  = prompts.buildConversationSection Title history currentMessage /\
  (forall sid1 sid2,
     prompts.BuildIntentPrompt Title
       (IntentRequest.mk sid1 currentMessage history actions)
     = prompts.BuildIntentPrompt Title
         (IntentRequest.mk sid2 currentMessage history actions)).
Proof.
  assert (HA : prompts.buildActionsSection actions
               = String.concat EmptyString
                   (map (fun action => actionLine action) actions)).
  { unfold prompts.buildActionsSection.
    now rewrite (concat_lines (fun action => actionLine action)), app_nil. }
  assert (HC : forall h,
             prompts.buildConversationSection Title h currentMessage
             = String.concat EmptyString (map (fun msg => turnLine msg) h)
               +:+ "User: " +:+ currentMessage +:+ nl).
  { intros h. unfold prompts.buildConversationSection.
    now rewrite (concat_lines (fun msg => turnLine msg)), app_nil. }
  split; [exact HA |]. split; [apply HC |]. split.
  { intros earlier later ->.
    rewrite !HC, map_app, concat_app_lines.
    now rewrite app_assoc_string. }
  repeat split.
Qed.

End PromptFacts.

(** ** Clearing a session and the next turn *)

Section ForgetFacts.
Context {Data : Type}.
Variable Marshal : SessionData.t -> result Data.
Variable Unmarshal : Data -> result SessionData.t.
Variable clock : nat -> Time.
Variable model : string.
Variable Do : AnthropicRequest.t -> result (Z * result string).
Variable UnmarshalError : string -> result string.
Variable UnmarshalResponse : string -> result (list string).
Variable UnmarshalIntent : string -> result IntentResponse.t.

Local Abbreviation AnalyzeIntent :=
  (llm.AnalyzeIntent Marshal Unmarshal clock model Do UnmarshalError
     UnmarshalResponse UnmarshalIntent).

(** Whatever the backend and the store write do, the one request of a
    turn carries the buffer of the session as it was opened, followed by
    the user message. *)
Lemma prompt_history (request : IntentRequest.t) (w w1 : World Data)
    (mem : ConversationBuffer) :
  let sid := IntentRequest.SessionID request in
  memory.GetOrCreateSession Unmarshal clock sid w = (Ok mem, w1) ->
  sent (AnalyzeIntent request w).2
  = sent w ++
    [AnthropicRequest.mk model 1000 "0.1"
       [AnthropicMessage.mk "user"
          (llm.buildPromptWithHistory request
             (formatted
                (mem ++ [HumanChatMessage
                           (IntentRequest.UserMessage request)])))]].
Proof.
  intros sid G.
  destruct (AnalyzeIntent_prompt Marshal Unmarshal clock model Do
              UnmarshalError UnmarshalResponse UnmarshalIntent request w)
    as (r1 & w2 & loaded & w3 & E1 & E2 & Hsent).
  fold sid in E1, E2.
  rewrite (SaveUserMessage_steps Marshal Unmarshal clock w w1 sid _ _ mem G)
    in E1.
  match type of E1 with
  | context [memory.SaveMessage _ _ _ ?a ?b ?c ?d] =>
      destruct (memory.SaveMessage Marshal Unmarshal clock a b c d)
        as [r4 w4] eqn:S
  end.
  apply SaveMessage_kv in S as (S' & _). simpl in S'.
  assert (C2 : sessions w2 !! sid
               = Some (mem ++ [HumanChatMessage
                                 (IntentRequest.UserMessage request)])).
  { destruct r4 as [[]|e]; injection E1 as _ <-;
      rewrite S'; apply lookup_insert_eq. }
  rewrite (GetFormattedHistory_steps Unmarshal clock w2 w2 sid _
             (GetOrCreateSession_hit Unmarshal clock w2 sid _ C2)) in E2.
  rewrite formatted_snoc_history in E2. injection E2 as <- _.
  exact Hsent.
Qed.

(** X28. Clearing a session forgets its history: with the store
    answering, the turn that follows [ClearSession] sends a prompt whose
    history is the user message of that turn and nothing else, whatever
    was stored or cached for the session before and whatever the backend
    answers. *)
Theorem clear_forgets_history (request : IntentRequest.t)
    (w : World Data) :
  let sid := IntentRequest.SessionID request in
  reachable w = true ->
  exists w',
    memory.ManagerClearSession sid w = (Ok tt, w') /\
    sent (AnalyzeIntent request w').2
    = sent w ++
      [AnthropicRequest.mk model 1000 "0.1"
         [AnthropicMessage.mk "user"
            (llm.buildPromptWithHistory request
               ("User: " +:+ IntentRequest.UserMessage request +:+ nl))]].
Proof.
  intros sid R.
  pose (w' := mkWorld (delete (memory.sessionKey sid) (kv w))
                (reachable w) (tick w) (delete sid (sessions w)) (sent w)).
  assert (K' : kv w' !! memory.sessionKey sid = None)
    by apply lookup_delete_eq.
  assert (C' : sessions w' !! sid = None) by apply lookup_delete_eq.
  exists w'. split; [exact (ManagerClearSession_reachable w sid R) |].
  exact (prompt_history request w' _ []
           (GetOrCreateSession_miss Unmarshal clock w' _ sid _ C'
              (LoadSession_absent Unmarshal clock w' sid R K'))).
Qed.

End ForgetFacts.

(** ** The further properties on the reference instances *)

Section FurtherRuns.

Local Abbreviation decode := Json.UnmarshalIntentResponse.
Local Abbreviation Marshal := SessionJson.Marshal.
Local Abbreviation Unmarshal := SessionJson.Unmarshal.
Local Abbreviation AnalyzeIntent Do :=
  (llm.AnalyzeIntent Marshal Unmarshal Ref.clock "claude" Do
     Ref.UnmarshalError Ref.UnmarshalResponse decode).

(** The reference worlds satisfy the two invariants. *)
Lemma Ref_stored_session_ok : session_ok Unmarshal Ref.stored "s1".
Proof.
  exists Ref.record. split; [vm_compute; reflexivity | reflexivity].
Defined.

Lemma Ref_fresh_session_ok : session_ok Unmarshal Ref.fresh "s1".
Proof. exact I. Defined.

Lemma uncached_consistent (w : World Json.value) (sessionID : string) :
  sessions w !! sessionID = None -> cache_consistent Unmarshal w sessionID.
Proof. intros C mem H. rewrite C in H. discriminate H. Defined.

Lemma ClearSession_clears_witness :
  exists w',
    memory.ManagerClearSession "s1" Ref.stored = (Ok tt, w') /\
    memory.SessionExists "s1" w' = (Ok false, w') /\
    kv w' !! memory.sessionKey "s1" = None.
Proof.
  destruct (ClearSession_clears Unmarshal Ref.clock Ref.stored "s1" eq_refl)
    as (w' & H & _ & K & E & _).
  exists w'. repeat split; assumption.
Defined.

Lemma ClearSession_store_down_witness :
  exists err w',
    memory.ManagerClearSession "s1" Fix.down_cached = (Err err, w') /\
    sessions w' = delete "s1" (sessions Fix.down_cached).
Proof.
  destruct (ClearSession_store_down Fix.down_cached "s1" eq_refl)
    as (err & w' & H & _ & S & _).
  exists err, w'. split; assumption.
Defined.

Lemma SessionExists_spec_witness :
  memory.SessionExists "s1" Ref.stored = (Ok true, Ref.stored) /\
  exists err, memory.SessionExists "s1" Fix.down = (Err err, Fix.down).
Proof.
  destruct (SessionExists_spec Marshal Unmarshal Ref.clock Ref.stored "s1")
    as (Hup & _ & _).
  destruct (SessionExists_spec Marshal Unmarshal Ref.clock Fix.down "s1")
    as (_ & Hdown & _).
  split; [| exact (Hdown eq_refl)].
  destruct (Hup eq_refl) as (b & H & Hb).
  rewrite H. f_equal. f_equal. apply Hb.
  exists (SessionJson.to_json Ref.record). vm_compute. reflexivity.
Defined.



Lemma SaveMessage_writes_one_key_witness :
  let run :=
    memory.SaveMessage Marshal Unmarshal Ref.clock "s1" "u1" Ref.m_user
      Fix.two_sessions in
  kv run.2 !! memory.sessionKey "s2"
  = Some (SessionJson.to_json Fix.other_record) /\
  sessions run.2 = ∅.
Proof.
  intros run.
  destruct (SaveMessage_writes_one_key Marshal Unmarshal Ref.clock
              Fix.two_sessions Fix.two_sessions run.2 "s1" "u1" Ref.m_user
              Ref.record run.1) as (S & Ho & _).
  - vm_compute. reflexivity.
  - apply surjective_pairing.
  - split; [| exact S].
    rewrite (Ho "s2"); [vm_compute; reflexivity | discriminate].
Defined.

Lemma store_unreachable_witness :
  memory.GetOrCreateSession Unmarshal Ref.clock "s1" Fix.down_cached
  = (Ok [HumanChatMessage "hello"], Fix.down_cached) /\
  exists err,
    memory.GetOrCreateSession Unmarshal Ref.clock "s2" Fix.down_cached
    = (Err err, Fix.down_cached).
Proof.
  destruct (store_unreachable Marshal Unmarshal Ref.clock Fix.down_cached "s1"
              eq_refl) as (_ & _ & _ & Hhit).
  destruct (store_unreachable Marshal Unmarshal Ref.clock Fix.down_cached "s2"
              eq_refl) as (_ & _ & Hmiss & _).
  split.
  - now destruct (Hhit [HumanChatMessage "hello"] eq_refl).
  - apply Hmiss. vm_compute. reflexivity.
Defined.

Lemma corrupt_record_witness :
  (exists err,
     memory.SaveMessage Marshal Unmarshal Ref.clock "s1" "u1" Ref.m_user
       Fix.corrupt = (Err err, Fix.corrupt)) /\
  exists w' w'',
    memory.ManagerClearSession "s1" Fix.corrupt = (Ok tt, w') /\
    memory.GetOrCreateSession Unmarshal Ref.clock "s1" w' = (Ok [], w'').
Proof.
  destruct (corrupt_record Marshal Unmarshal Ref.clock Fix.corrupt "s1"
              (Json.Str "garbage")
              (Errorf "json: cannot unmarshal value into memory.SessionData"))
    as (_ & Hsave & _ & Hclear).
  - reflexivity.
  - vm_compute. reflexivity.
  - reflexivity.
  - split; [apply Hsave | exact Hclear].
Defined.


Lemma SaveUserMessage_cache_first_witness :
  let run :=
    memory.SaveUserMessage Marshal Unmarshal Ref.clock "s1" "u1" "again"
      Fix.down_cached in
  sessions run.2 !! "s1"
  = Some [HumanChatMessage "hello"; HumanChatMessage "again"] /\
  kv run.2 = kv Fix.down_cached /\ is_Ok run.1 = false.
Proof.
  intros run.
  destruct (SaveUserMessage_cache_first Marshal Unmarshal Ref.clock
              Fix.down_cached run.2 "s1" "u1" "again"
              [HumanChatMessage "hello"] run.1) as (C & Hdown).
  - reflexivity.
  - apply surjective_pairing.
  - destruct (Hdown eq_refl) as (K & E).
    split; [exact C |]. split; [exact K |]. now rewrite E.
Defined.

Lemma GetFormattedHistory_text_witness :
  let run :=
    memory.GetFormattedHistory Unmarshal Ref.clock "s1" Ref.stored in
  run.1 = Ok ("User: hello" +:+ nl +:+ "Assistant: hi!" +:+ nl) /\
  kv run.2 = kv Ref.stored /\
  sessions run.2 !! "s1"
  = Some [HumanChatMessage "hello"; AIChatMessage "hi!"].
Proof.
  intros run.
  assert (H : run
              = (Ok ("User: hello" +:+ nl +:+ "Assistant: hi!" +:+ nl),
                 run.2)).
  { vm_compute. reflexivity. }
  destruct (GetFormattedHistory_text Unmarshal Ref.clock Ref.stored run.2
              "s1" _ H) as (_ & K & _).
  split; [now rewrite H |]. split; [exact K |].
  vm_compute. reflexivity.
Defined.

Lemma LoadHistoryFromRequest_replaces_witness :
  let history :=
    [ConversationMessage.mk "system" "be brief";
     ConversationMessage.mk "user" "my domain is bar.example";
     ConversationMessage.mk "assistant" "Noted."] in
  let run :=
    memory.LoadHistoryFromRequest Unmarshal Ref.clock "s1" history
      Ref.stored in
  sessions run.2 !! "s1"
  = Some [HumanChatMessage "my domain is bar.example";
          AIChatMessage "Noted."] /\
  kv run.2 = kv Ref.stored.
Proof.
  intros history run.
  destruct (LoadHistoryFromRequest_replaces Unmarshal Ref.clock Ref.stored
              run.2 "s1" history run.1) as (K & _ & Hok & _).
  - apply surjective_pairing.
  - destruct Hok as (mem & C & -> & _); [vm_compute; reflexivity |].
    split; [exact C | exact K].
Defined.

Lemma GetActiveSessionCount_counts_cache_witness :
  let run := memory.GetOrCreateSession Unmarshal Ref.clock "s1" Ref.stored in
  memory.GetActiveSessionCount Ref.stored = (Ok 0, Ref.stored) /\
  memory.GetActiveSessionCount run.2 = (Ok 1, run.2).
Proof.
  intros run.
  destruct (GetActiveSessionCount_counts_cache Unmarshal Ref.clock
              Ref.stored run.2 "s1"
              [HumanChatMessage "hello"; AIChatMessage "hi!"])
    as (n & n1 & H0 & H1 & _ & Hz & Hmiss & _).
  - vm_compute. reflexivity.
  - assert (Hn : n = 0) by (apply Hz; reflexivity).
    rewrite H0, H1, (Hmiss eq_refl), Hn. split; reflexivity.
Defined.


Lemma turn_without_store_witness :
  exists w',
    AnalyzeIntent (Ref.Do_text Ref.scenario_completion) Ref.request Fix.down
    = (Ok (IntentResponse.mk "s1" (Some "CREATE_SERVICE") "NEEDS_INFO"
             (Some (<["domain_name" := Some "foo"]> ∅))
             "Got it, setting up foo. Any other requirements?" None None),
       w') /\
    kv w' = ∅ /\ sessions w' = ∅.
Proof.
  destruct (turn_without_store Marshal Unmarshal Ref.clock "claude"
              (Ref.Do_text Ref.scenario_completion) Ref.UnmarshalError
              Ref.UnmarshalResponse decode
              Ref.request Fix.down Ref.scenario_completion
              [Ref.scenario_completion]
              (IntentResponse.mk EmptyString (Some "CREATE_SERVICE")
                 "NEEDS_INFO" (Some (<["domain_name" := Some "foo"]> ∅))
                 "Got it, setting up foo. Any other requirements?"
                 None None))
    as (w' & H & _ & K & S).
  - reflexivity.
  - reflexivity.
  - reflexivity.
  - reflexivity.
  - vm_compute. reflexivity.
  - exists w'. split; [exact H |]. split; [exact K | exact S].
Defined.

Lemma AnalyzeIntent_errors_witness :
  let run := AnalyzeIntent Ref.Do_timeout Ref.request Ref.stored in
  run.1 = Err (Wrap "failed to make HTTP request: " DeadlineExceeded) /\
  only_user_turn_written Marshal "set up a CDN called foo"
    (kv Ref.stored) (kv run.2).
Proof.
  intros run.
  destruct (AnalyzeIntent_errors Marshal Unmarshal Ref.clock "claude"
              Ref.Do_timeout Ref.UnmarshalError Ref.UnmarshalResponse decode
              Ref.request Ref.stored run.2
              (Wrap "failed to make HTTP request: " DeadlineExceeded))
    as (_ & _ & W).
  - vm_compute. reflexivity.
  - split; [vm_compute; reflexivity | exact W].
Defined.

Lemma AnalyzeIntent_result_witness :
  let run :=
    AnalyzeIntent (Ref.Do_text Fix.silent_completion) Ref.request
      Ref.fresh in
  run.1 = Ok (IntentResponse.mk "s1" None "READY" (Some ∅) EmptyString
                None None) /\
  only_user_turn_written Marshal "set up a CDN called foo" ∅ (kv run.2).
Proof.
  intros run.
  destruct (AnalyzeIntent_result Marshal Unmarshal Ref.clock "claude"
              (Ref.Do_text Fix.silent_completion) Ref.UnmarshalError
              Ref.UnmarshalResponse decode Ref.request Ref.fresh run.2
              (IntentResponse.mk "s1" None "READY" (Some ∅) EmptyString
                 None None))
    as (_ & _ & _ & _ & W).
  - vm_compute. reflexivity.
  - split; [vm_compute; reflexivity | exact (W eq_refl)].
Defined.

Lemma clear_forgets_history_witness :
  exists w',
    memory.ManagerClearSession "s1" Ref.stored = (Ok tt, w') /\
    sent (AnalyzeIntent Ref.Do_timeout Ref.request w').2
    = [AnthropicRequest.mk "claude" 1000 "0.1"
         [AnthropicMessage.mk "user"
            (llm.buildPromptWithHistory Ref.request
               ("User: set up a CDN called foo" +:+ nl))]].
Proof.
  exact (clear_forgets_history Marshal Unmarshal Ref.clock "claude"
           Ref.Do_timeout Ref.UnmarshalError Ref.UnmarshalResponse decode
           Ref.request Ref.stored eq_refl).
Defined.

Lemma Load_requires_api_key_witness :
  (exists cfg,
     config.Load Fix.ParseDuration Fix.env_ok = Ok cfg /\
     config.Port cfg <> EmptyString /\
     config.AnthropicAPIKey cfg = "sk-test" /\
     config.AnthropicTimeout cfg = 5 * config.Second /\
     config.NatsTimeout cfg = 10 * config.Second) /\
  config.Load Fix.ParseDuration Fix.env_no_key
  = Err (Errorf "ANTHROPIC_API_KEY is required").
Proof.
  destruct (Load_requires_api_key Fix.ParseDuration Fix.env_ok)
    as (_ & _ & Hok).
  destruct (Load_requires_api_key Fix.ParseDuration Fix.env_no_key)
    as (Herr & _ & _).
  split.
  - eexists. split; [vm_compute; reflexivity |].
    destruct (Hok _ ltac:(vm_compute; reflexivity))
      as (_ & _ & _ & P & _ & _ & _ & _ & _ & N & A & _).
    split; [exact P |]. split; [reflexivity |]. split.
    + apply (A "5s"); [vm_compute; reflexivity | discriminate | reflexivity].
    + apply N. right. right.
      exists "soon", (Errorf "time: invalid duration").
      split; [vm_compute; reflexivity | reflexivity].
  - apply Herr. right. vm_compute. reflexivity.
Defined.

End FurtherRuns.


(** * The JSON text of a session *)

(** ** Well-formed sequences *)

Section Utf8Facts.

Lemma between_spec (lo hi : N) (c : ascii) :
  utf8.between lo hi c = true <-> (lo <= N_of_ascii c <= hi)%N.
Proof.
  unfold utf8.between. rewrite andb_true_iff, !N.leb_le. tauto.
Qed.

Lemma seq2_high (b0 b1 : ascii) :
  utf8.seq2 b0 b1 = true ->
  (128 <= N_of_ascii b0)%N /\ (128 <= N_of_ascii b1)%N /\
  (N_of_ascii b0 < 224)%N.
Proof.
  unfold utf8.seq2. rewrite andb_true_iff, !between_spec. lia.
Qed.

Lemma accept3_high (b0 b1 : ascii) :
  utf8.accept3 b0 b1 = true -> (128 <= N_of_ascii b1)%N.
Proof.
  unfold utf8.accept3.
  destruct (N_of_ascii b0 =? 224)%N; [rewrite between_spec; lia |].
  destruct (N_of_ascii b0 =? 237)%N; rewrite between_spec; lia.
Qed.

Lemma accept4_high (b0 b1 : ascii) :
  utf8.accept4 b0 b1 = true -> (128 <= N_of_ascii b1)%N.
Proof.
  unfold utf8.accept4.
  destruct (N_of_ascii b0 =? 240)%N; [rewrite between_spec; lia |].
  destruct (N_of_ascii b0 =? 244)%N; rewrite between_spec; lia.
Qed.

Lemma seq3_high (b0 b1 b2 : ascii) :
  utf8.seq3 b0 b1 b2 = true ->
  (224 <= N_of_ascii b0 < 240)%N /\ (128 <= N_of_ascii b1)%N /\
  (128 <= N_of_ascii b2)%N.
Proof.
  unfold utf8.seq3. rewrite !andb_true_iff, !between_spec.
  intros [[H0 H1] H2]. apply accept3_high in H1. lia.
Qed.

Lemma seq4_high (b0 b1 b2 b3 : ascii) :
  utf8.seq4 b0 b1 b2 b3 = true ->
  (240 <= N_of_ascii b0)%N /\ (128 <= N_of_ascii b1)%N /\
  (128 <= N_of_ascii b2)%N /\ (128 <= N_of_ascii b3)%N.
Proof.
  unfold utf8.seq4. rewrite !andb_true_iff, !between_spec.
  intros [[[H0 H1] H2] H3]. apply accept4_high in H1. lia.
Qed.

Lemma high_not_ascii (b : ascii) :
  (128 <= N_of_ascii b)%N -> (N_of_ascii b <? 128)%N = false.
Proof. intros H. apply N.ltb_ge. exact H. Qed.

(** The equations of [runes], one per kind of chunk. *)
Lemma runes_ascii (b0 : ascii) (r0 : string) :
  (N_of_ascii b0 <? 128)%N = true ->
  utf8.runes (String b0 r0)
  = utf8.Rune (String b0 EmptyString) :: utf8.runes r0.
Proof. intros H. cbn [utf8.runes]. now rewrite H. Qed.

Lemma runes_seq2 (b0 b1 : ascii) (r1 : string) :
  utf8.seq2 b0 b1 = true ->
  utf8.runes (String b0 (String b1 r1))
  = utf8.Rune (String b0 (String b1 EmptyString)) :: utf8.runes r1.
Proof.
  intros H. destruct (seq2_high b0 b1 H) as (H0 & _).
  cbn [utf8.runes]. now rewrite (high_not_ascii b0 H0), H.
Qed.

Lemma seq3_not_seq2 (b0 b1 b2 : ascii) :
  utf8.seq3 b0 b1 b2 = true -> utf8.seq2 b0 b1 = false.
Proof.
  intros H. destruct (seq3_high _ _ _ H) as (H0 & _).
  destruct (utf8.seq2 b0 b1) eqn:E; [| reflexivity].
  apply seq2_high in E. lia.
Qed.

Lemma seq4_not_seq2 (b0 b1 b2 b3 : ascii) :
  utf8.seq4 b0 b1 b2 b3 = true -> utf8.seq2 b0 b1 = false.
Proof.
  intros H. destruct (seq4_high _ _ _ _ H) as (H0 & _).
  destruct (utf8.seq2 b0 b1) eqn:E; [| reflexivity].
  apply seq2_high in E. lia.
Qed.

Lemma seq4_not_seq3 (b0 b1 b2 b3 : ascii) :
  utf8.seq4 b0 b1 b2 b3 = true -> utf8.seq3 b0 b1 b2 = false.
Proof.
  intros H. destruct (seq4_high _ _ _ _ H) as (H0 & _).
  destruct (utf8.seq3 b0 b1 b2) eqn:E; [| reflexivity].
  apply seq3_high in E. lia.
Qed.

Lemma runes_seq3 (b0 b1 b2 : ascii) (r2 : string) :
  utf8.seq3 b0 b1 b2 = true ->
  utf8.runes (String b0 (String b1 (String b2 r2)))
  = utf8.Rune (String b0 (String b1 (String b2 EmptyString)))
    :: utf8.runes r2.
Proof.
  intros H. destruct (seq3_high _ _ _ H) as (H0 & _).
  assert (A : (N_of_ascii b0 <? 128)%N = false)
    by (apply high_not_ascii; lia).
  cbn [utf8.runes]. now rewrite A, (seq3_not_seq2 _ _ _ H), H.
Qed.

Lemma runes_seq4 (b0 b1 b2 b3 : ascii) (r3 : string) :
  utf8.seq4 b0 b1 b2 b3 = true ->
  utf8.runes (String b0 (String b1 (String b2 (String b3 r3))))
  = utf8.Rune (String b0 (String b1 (String b2 (String b3 EmptyString))))
    :: utf8.runes r3.
Proof.
  intros H. destruct (seq4_high _ _ _ _ H) as (H0 & _).
  assert (A : (N_of_ascii b0 <? 128)%N = false)
    by (apply high_not_ascii; lia).
  cbn [utf8.runes].
  now rewrite A, (seq4_not_seq2 _ _ _ _ H), (seq4_not_seq3 _ _ _ _ H), H.
Qed.

(** Induction along the chunks of a string. *)
Lemma runes_induction (P : string -> Prop) :
  P EmptyString ->
  (forall b0 r0,
     (N_of_ascii b0 <? 128)%N = true -> P r0 -> P (String b0 r0)) ->
  (forall b0 b1 r1,
     utf8.seq2 b0 b1 = true -> P r1 -> P (String b0 (String b1 r1))) ->
  (forall b0 b1 b2 r2,
     utf8.seq3 b0 b1 b2 = true ->
     P r2 -> P (String b0 (String b1 (String b2 r2)))) ->
  (forall b0 b1 b2 b3 r3,
     utf8.seq4 b0 b1 b2 b3 = true ->
     P r3 -> P (String b0 (String b1 (String b2 (String b3 r3))))) ->
  (forall b0 r0,
     (128 <= N_of_ascii b0)%N ->
     utf8.runes (String b0 r0) = utf8.Bad b0 :: utf8.runes r0 ->
     P r0 -> P (String b0 r0)) ->
  forall s, P s.
Proof.
  intros H0 H1 H2 H3 H4 Hbad s.
  assert (H : forall n s, (String.length s <= n)%nat -> P s).
  { clear s. induction n as [|n IH]; intros s Hlen.
    - destruct s; [exact H0 | simpl in Hlen; lia].
    - destruct s as [|b0 r0]; [exact H0 |]. simpl in Hlen.
      destruct (N_of_ascii b0 <? 128)%N eqn:A.
      { apply H1; [exact A | apply IH; lia]. }
      assert (A' : (128 <= N_of_ascii b0)%N) by (apply N.ltb_ge; exact A).
      assert (Pr0 : P r0) by (apply IH; lia).
      destruct r0 as [|b1 r1].
      { apply Hbad; [exact A' | | exact Pr0]. cbn [utf8.runes].
        now rewrite A. }
      simpl in Hlen.
      destruct (utf8.seq2 b0 b1) eqn:S2.
      { apply H2; [exact S2 | apply IH; lia]. }
      destruct r1 as [|b2 r2].
      { apply Hbad; [exact A' | | exact Pr0]. cbn [utf8.runes].
        now rewrite A, S2. }
      simpl in Hlen.
      destruct (utf8.seq3 b0 b1 b2) eqn:S3.
      { apply H3; [exact S3 | apply IH; lia]. }
      destruct r2 as [|b3 r3].
      { apply Hbad; [exact A' | | exact Pr0]. cbn [utf8.runes].
        now rewrite A, S2, S3. }
      simpl in Hlen.
      destruct (utf8.seq4 b0 b1 b2 b3) eqn:S4.
      { apply H4; [exact S4 | apply IH; lia]. }
      apply Hbad; [exact A' | | exact Pr0]. cbn [utf8.runes].
      now rewrite A, S2, S3, S4. }
  exact (H (String.length s) s (le_n _)).
Qed.

Lemma coerce_chunk (s rest : string) (c : utf8.chunk) :
  utf8.runes s = c :: utf8.runes rest ->
  utf8.coerce s
  = (match c with
     | utf8.Rune bytes => bytes
     | utf8.Bad _ => utf8.replacement
     end) +:+ utf8.coerce rest.
Proof. intros H. unfold utf8.coerce. now rewrite H. Qed.

Lemma runes_replacement (rest : string) :
  utf8.runes (utf8.replacement +:+ rest)
  = utf8.Rune utf8.replacement :: utf8.runes rest.
Proof.
  unfold utf8.replacement. rewrite !app_cons, app_nil.
  now apply runes_seq3.
Qed.

(** Coercing changes nothing the second time. *)
Lemma coerce_idempotent (s : string) :
  utf8.coerce (utf8.coerce s) = utf8.coerce s.
Proof.
  induction s as [| b0 r0 A IH | b0 b1 r1 S IH | b0 b1 b2 r2 S IH
                 | b0 b1 b2 b3 r3 S IH | b0 r0 A E IH]
    using runes_induction.
  - reflexivity.
  - rewrite (coerce_chunk _ _ _ (runes_ascii b0 r0 A)).
    rewrite !app_cons, app_nil.
    rewrite (coerce_chunk _ _ _ (runes_ascii b0 (utf8.coerce r0) A)).
    rewrite !app_cons, app_nil. now rewrite IH.
  - rewrite (coerce_chunk _ _ _ (runes_seq2 b0 b1 r1 S)).
    rewrite !app_cons, app_nil.
    rewrite (coerce_chunk _ _ _ (runes_seq2 b0 b1 (utf8.coerce r1) S)).
    rewrite !app_cons, app_nil. now rewrite IH.
  - rewrite (coerce_chunk _ _ _ (runes_seq3 b0 b1 b2 r2 S)).
    rewrite !app_cons, app_nil.
    rewrite (coerce_chunk _ _ _ (runes_seq3 b0 b1 b2 (utf8.coerce r2) S)).
    rewrite !app_cons, app_nil. now rewrite IH.
  - rewrite (coerce_chunk _ _ _ (runes_seq4 b0 b1 b2 b3 r3 S)).
    rewrite !app_cons, app_nil.
    rewrite (coerce_chunk _ _ _
               (runes_seq4 b0 b1 b2 b3 (utf8.coerce r3) S)).
    rewrite !app_cons, app_nil. now rewrite IH.
  - rewrite (coerce_chunk _ _ _ E).
    rewrite (coerce_chunk _ _ _ (runes_replacement (utf8.coerce r0))).
    now rewrite IH.
Qed.

(** A valid string is left as it is. *)
Lemma coerce_valid (s : string) :
  utf8.ValidString s = true -> utf8.coerce s = s.
Proof.
  induction s as [| b0 r0 A IH | b0 b1 r1 S IH | b0 b1 b2 r2 S IH
                 | b0 b1 b2 b3 r3 S IH | b0 r0 A E IH]
    using runes_induction; unfold utf8.ValidString.
  - reflexivity.
  - rewrite (runes_ascii b0 r0 A). simpl. intros V.
    rewrite (coerce_chunk _ _ _ (runes_ascii b0 r0 A)).
    rewrite !app_cons, app_nil. now rewrite IH.
  - rewrite (runes_seq2 b0 b1 r1 S). simpl. intros V.
    rewrite (coerce_chunk _ _ _ (runes_seq2 b0 b1 r1 S)).
    rewrite !app_cons, app_nil. now rewrite IH.
  - rewrite (runes_seq3 b0 b1 b2 r2 S). simpl. intros V.
    rewrite (coerce_chunk _ _ _ (runes_seq3 b0 b1 b2 r2 S)).
    rewrite !app_cons, app_nil. now rewrite IH.
  - rewrite (runes_seq4 b0 b1 b2 b3 r3 S). simpl. intros V.
    rewrite (coerce_chunk _ _ _ (runes_seq4 b0 b1 b2 b3 r3 S)).
    rewrite !app_cons, app_nil. now rewrite IH.
  - rewrite E. simpl. discriminate.
Qed.

(** What coercing gives is valid, and a string it leaves alone was. *)
Lemma coerce_is_valid (s : string) :
  utf8.ValidString (utf8.coerce s) = true.
Proof.
  induction s as [| b0 r0 A IH | b0 b1 r1 S IH | b0 b1 b2 r2 S IH
                 | b0 b1 b2 b3 r3 S IH | b0 r0 A E IH]
    using runes_induction.
  - reflexivity.
  - rewrite (coerce_chunk _ _ _ (runes_ascii b0 r0 A)).
    rewrite !app_cons, app_nil. unfold utf8.ValidString.
    rewrite (runes_ascii b0 _ A). exact IH.
  - rewrite (coerce_chunk _ _ _ (runes_seq2 b0 b1 r1 S)).
    rewrite !app_cons, app_nil. unfold utf8.ValidString.
    rewrite (runes_seq2 b0 b1 _ S). exact IH.
  - rewrite (coerce_chunk _ _ _ (runes_seq3 b0 b1 b2 r2 S)).
    rewrite !app_cons, app_nil. unfold utf8.ValidString.
    rewrite (runes_seq3 b0 b1 b2 _ S). exact IH.
  - rewrite (coerce_chunk _ _ _ (runes_seq4 b0 b1 b2 b3 r3 S)).
    rewrite !app_cons, app_nil. unfold utf8.ValidString.
    rewrite (runes_seq4 b0 b1 b2 b3 _ S). exact IH.
  - rewrite (coerce_chunk _ _ _ E). unfold utf8.ValidString.
    rewrite runes_replacement. exact IH.
Qed.

End Utf8Facts.


(** ** String literals: what is written is read back, coerced *)

Section LiteralFacts.

Ltac each_byte b :=
  destruct b as [[] [] [] [] [] [] [] []].

Lemma scan_high (b : ascii) (X : string) :
  (N_of_ascii b <? 128)%N = false ->
  Json.scan_string (String b X)
  = match Json.scan_string X with
    | Some (us, rest) => Some (Json.Byte b :: us, rest)
    | None => None
    end.
Proof. each_byte b; intros H; try discriminate H; reflexivity. Qed.

Lemma scan_escape_byte (b : ascii) (X : string) us rest :
  (N_of_ascii b <? 128)%N = true ->
  Json.scan_string X = Some (us, rest) ->
  exists u,
    Json.scan_string (Json.escape_byte b +:+ X) = Some (u :: us, rest) /\
    forall tail,
      Json.encode_units (u :: tail) = b :: Json.encode_units tail.
Proof.
  intros A H.
  each_byte b; try discriminate A;
    match goal with
    | |- context [Json.escape_byte ?c] =>
        let e := eval vm_compute in (Json.escape_byte c) in
        change (Json.escape_byte c) with e
    end;
    rewrite ?app_cons, ?app_nil; cbn [Json.scan_string]; simpl;
    rewrite H; eexists; (split; [reflexivity | intros tail; reflexivity]).
Qed.

Lemma eqb_1_3 (b x y z : ascii) :
  String.eqb (String b EmptyString) (String x (String y (String z EmptyString)))
  = false.
Proof. cbn [String.eqb]. now destruct (Ascii.eqb b x). Qed.

Lemma eqb_2_3 (b c x y z : ascii) :
  String.eqb (String b (String c EmptyString))
             (String x (String y (String z EmptyString))) = false.
Proof.
  cbn [String.eqb]. destruct (Ascii.eqb b x); [| reflexivity].
  now destruct (Ascii.eqb c y).
Qed.

Lemma eqb_4_3 (b c d e x y z : ascii) :
  String.eqb (String b (String c (String d (String e EmptyString))))
             (String x (String y (String z EmptyString))) = false.
Proof.
  cbn [String.eqb]. destruct (Ascii.eqb b x); [| reflexivity].
  destruct (Ascii.eqb c y); [| reflexivity].
  now destruct (Ascii.eqb d z).
Qed.

Lemma escape_chunk_eq (s rest : string) (c : utf8.chunk) :
  utf8.runes s = c :: utf8.runes rest ->
  Json.escape s = Json.escape_chunk c +:+ Json.escape rest.
Proof. intros H. unfold Json.escape. now rewrite H. Qed.

(** The literal written for [s] scans up to its closing quote, and its
    units spell the coerced string. *)
Lemma scan_escape (s rest : string) :
  exists us,
    Json.scan_string (Json.escape s +:+ String dq rest) = Some (us, rest) /\
    string_of_list_ascii (Json.encode_units us) = utf8.coerce s.
Proof.
  induction s as [| b0 r0 A IH | b0 b1 r1 S IH | b0 b1 b2 r2 S IH
                 | b0 b1 b2 b3 r3 S IH | b0 r0 A E IH]
    using runes_induction.
  - exists []. split; reflexivity.
  - destruct IH as (us & Hs & Hu).
    rewrite (escape_chunk_eq _ _ _ (runes_ascii b0 r0 A)).
    rewrite (coerce_chunk _ _ _ (runes_ascii b0 r0 A)).
    unfold Json.escape_chunk, Json.line_separator,
      Json.paragraph_separator.
    rewrite !eqb_1_3, app_assoc_string.
    destruct (scan_escape_byte b0 _ us rest A Hs) as (u & -> & Hu').
    exists (u :: us). split; [reflexivity |].
    rewrite Hu'. cbn [string_of_list_ascii]. rewrite Hu.
    now rewrite !app_cons, app_nil.
  - destruct IH as (us & Hs & Hu).
    rewrite (escape_chunk_eq _ _ _ (runes_seq2 b0 b1 r1 S)).
    rewrite (coerce_chunk _ _ _ (runes_seq2 b0 b1 r1 S)).
    unfold Json.escape_chunk, Json.line_separator,
      Json.paragraph_separator.
    rewrite !eqb_2_3, !app_cons, !app_nil.
    destruct (seq2_high _ _ S) as (H0 & H1 & _).
    rewrite (scan_high b0 _ (high_not_ascii _ H0)).
    rewrite (scan_high b1 _ (high_not_ascii _ H1)), Hs.
    eexists. split; [reflexivity |].
    cbn [Json.encode_units string_of_list_ascii]. now rewrite Hu.
  - destruct IH as (us & Hs & Hu).
    rewrite (escape_chunk_eq _ _ _ (runes_seq3 b0 b1 b2 r2 S)).
    rewrite (coerce_chunk _ _ _ (runes_seq3 b0 b1 b2 r2 S)).
    unfold Json.escape_chunk.
    destruct (String.eqb_spec
                (String b0 (String b1 (String b2 EmptyString)))
                Json.line_separator) as [E|_].
    { rewrite E. unfold Json.backslash.
      rewrite !app_cons, !app_nil. cbn [Json.scan_string]. simpl.
      rewrite Hs. eexists. split; [reflexivity |].
      simpl. now rewrite Hu. }
    destruct (String.eqb_spec
                (String b0 (String b1 (String b2 EmptyString)))
                Json.paragraph_separator) as [E|_].
    { rewrite E. unfold Json.backslash.
      rewrite !app_cons, !app_nil. cbn [Json.scan_string]. simpl.
      rewrite Hs. eexists. split; [reflexivity |].
      simpl. now rewrite Hu. }
    rewrite !app_cons, !app_nil.
    destruct (seq3_high _ _ _ S) as (H0 & H1 & H2).
    rewrite (scan_high b0 _ (high_not_ascii b0 ltac:(lia))).
    rewrite (scan_high b1 _ (high_not_ascii _ H1)).
    rewrite (scan_high b2 _ (high_not_ascii _ H2)), Hs.
    eexists. split; [reflexivity |].
    cbn [Json.encode_units string_of_list_ascii]. now rewrite Hu.
  - destruct IH as (us & Hs & Hu).
    rewrite (escape_chunk_eq _ _ _ (runes_seq4 b0 b1 b2 b3 r3 S)).
    rewrite (coerce_chunk _ _ _ (runes_seq4 b0 b1 b2 b3 r3 S)).
    unfold Json.escape_chunk, Json.line_separator,
      Json.paragraph_separator.
    rewrite !eqb_4_3, !app_cons, !app_nil.
    destruct (seq4_high _ _ _ _ S) as (H0 & H1 & H2 & H3).
    rewrite (scan_high b0 _ (high_not_ascii b0 ltac:(lia))).
    rewrite (scan_high b1 _ (high_not_ascii _ H1)).
    rewrite (scan_high b2 _ (high_not_ascii _ H2)).
    rewrite (scan_high b3 _ (high_not_ascii _ H3)), Hs.
    eexists. split; [reflexivity |].
    cbn [Json.encode_units string_of_list_ascii]. now rewrite Hu.
  - destruct IH as (us & Hs & Hu).
    rewrite (escape_chunk_eq _ _ _ E), (coerce_chunk _ _ _ E).
    unfold Json.escape_chunk, Json.backslash.
    rewrite !app_cons, !app_nil. cbn [Json.scan_string]. simpl.
    rewrite Hs. eexists. split; [reflexivity |].
    simpl. now rewrite Hu.
Qed.

Lemma parse_string_escape (s rest : string) :
  Json.parse_string (Json.escape s +:+ String dq rest)
  = Some (utf8.coerce s, rest).
Proof.
  unfold Json.parse_string.
  destruct (scan_escape s rest) as (us & -> & ->).
  now rewrite coerce_idempotent.
Qed.

(** Text made of bytes that need no escape is written as it is. *)
Lemma plain_text (s : string) :
  forallb Json.html_safe (list_ascii_of_string s) = true ->
  Json.escape s = s /\ utf8.coerce s = s.
Proof.
  induction s as [|b r IH]; [now split |].
  cbn [list_ascii_of_string forallb]. rewrite andb_true_iff.
  intros [Hb Hr]. destruct (IH Hr) as [IHe IHc].
  assert (A : (N_of_ascii b <? 128)%N = true).
  { revert Hb. unfold Json.html_safe. rewrite !andb_true_iff.
    intros [[[[[[_ H] _] _] _] _] _]. apply N.leb_le in H.
    apply N.ltb_lt. lia. }
  rewrite (escape_chunk_eq _ _ _ (runes_ascii b r A)).
  rewrite (coerce_chunk _ _ _ (runes_ascii b r A)).
  unfold Json.escape_chunk, Json.line_separator, Json.paragraph_separator.
  rewrite !eqb_1_3. unfold Json.escape_byte. rewrite Hb.
  rewrite !app_cons, !app_nil. now rewrite IHe, IHc.
Qed.

End LiteralFacts.


(** ** Numbers *)

Section NumberFacts.

Lemma closes_not_digit (c : ascii) (r : string) :
  closes (String c r) ->
  strings.is_digit c = false /\ Ascii.eqb c "." = false /\
  Ascii.eqb c "e" = false /\ Ascii.eqb c "E" = false /\
  Json.is_ws c = false.
Proof. intros [-> | [-> | ->]]; repeat split. Qed.

Lemma span_digits_uint (d : Decimal.uint) (rest : string) :
  closes rest ->
  Json.span_digits (NilEmpty.string_of_uint d +:+ rest)
  = (NilEmpty.string_of_uint d, rest).
Proof.
  intros C. induction d as [|d IH|d IH|d IH|d IH|d IH|d IH|d IH|d IH|d IH|d IH];
    cbn [NilEmpty.string_of_uint]; rewrite ?app_cons, ?app_nil;
    try (cbn [Json.span_digits]; simpl strings.is_digit; cbv iota;
         now rewrite IH).
  destruct rest as [|c r]; [reflexivity |].
  destruct (closes_not_digit c r C) as (H & _).
  cbn [Json.span_digits]. now rewrite H.
Qed.

Lemma parse_frac_closes (rest : string) :
  closes rest -> Json.parse_frac rest = Some (EmptyString, rest).
Proof.
  destruct rest as [|c r]; [reflexivity |]. intros C.
  destruct (closes_not_digit c r C) as (_ & H & _).
  unfold Json.parse_frac. now rewrite H.
Qed.

Lemma parse_exp_closes (rest : string) :
  closes rest -> Json.parse_exp rest = Some (EmptyString, rest).
Proof.
  destruct rest as [|c r]; [reflexivity |]. intros C.
  destruct (closes_not_digit c r C) as (_ & _ & H1 & H2 & _).
  unfold Json.parse_exp. now rewrite H1, H2.
Qed.

(** The digits of a positive number do not start with a zero. *)
Lemma to_uint_head (p : positive) :
  Pos.to_uint p <> Decimal.Nil /\
  forall d, Pos.to_uint p <> Decimal.D0 d.
Proof.
  split; [apply DecimalPos.Unsigned.to_uint_nonnil |].
  intros d E.
  pose proof (DecimalPos.Unsigned.to_of (Pos.to_uint p)) as H.
  rewrite DecimalPos.Unsigned.of_to in H. simpl in H.
  rewrite E in H. rewrite DecimalFacts.unorm_D0 in H.
  unfold Decimal.unorm in H.
  destruct (Decimal.nzhead d) eqn:N; try discriminate H.
  - injection H as ->.
    exact (DecimalPos.Unsigned.to_uint_nonzero p E).
  - exact (DecimalFacts.nzhead_nonzero d _ N).
Qed.

Lemma parse_int_part_uint (p : positive) (rest : string) :
  closes rest ->
  Json.parse_int_part (NilEmpty.string_of_uint (Pos.to_uint p) +:+ rest)
  = Some (NilEmpty.string_of_uint (Pos.to_uint p), rest).
Proof.
  intros C. destruct (to_uint_head p) as (Hnil & Hzero).
  destruct (Pos.to_uint p) as [|d|d|d|d|d|d|d|d|d|d];
    [congruence | now elim (Hzero d) | | | | | | | | |];
    cbn [NilEmpty.string_of_uint]; rewrite app_cons;
    unfold Json.parse_int_part; simpl Ascii.eqb; simpl strings.is_digit;
    cbv iota; now rewrite (span_digits_uint d rest C).
Qed.

Lemma parse_number_itoa (n : Z) (rest : string) :
  closes rest ->
  Json.parse_number (itoa n +:+ rest) = Some (itoa n, rest).
Proof.
  intros C. unfold itoa. destruct n as [|p|p]; simpl Z.to_int;
    cbn [NilEmpty.string_of_int].
  - change (NilEmpty.string_of_uint (Decimal.D0 Decimal.Nil)) with "0".
    rewrite app_cons, app_nil. unfold Json.parse_number.
    simpl Ascii.eqb. cbv iota. unfold Json.parse_int_part.
    simpl Ascii.eqb. cbv iota.
    now rewrite (parse_frac_closes rest C), (parse_exp_closes rest C).
  - unfold Json.parse_number.
    destruct (to_uint_head p) as (Hnil & _).
    destruct (NilEmpty.string_of_uint (Pos.to_uint p) +:+ rest)
      as [|c r] eqn:E.
    { destruct (Pos.to_uint p); try congruence; discriminate E. }
    assert (Hc : Ascii.eqb c "-" = false).
    { destruct (Pos.to_uint p); try congruence;
        cbn [NilEmpty.string_of_uint] in E; rewrite app_cons in E;
        injection E as <- _; reflexivity. }
    rewrite Hc, <- E, (parse_int_part_uint p rest C).
    rewrite (parse_frac_closes rest C), (parse_exp_closes rest C).
    now rewrite app_nil, !app_nil_r_string.
  - rewrite app_cons. unfold Json.parse_number.
    simpl Ascii.eqb. cbv iota.
    rewrite (parse_int_part_uint p rest C).
    rewrite (parse_frac_closes rest C), (parse_exp_closes rest C).
    now rewrite !app_cons, !app_nil, !app_nil_r_string.
Qed.

(** A number starts with a digit or a minus sign. *)
Lemma itoa_head (n : Z) :
  exists c r,
    itoa n = String c r /\ (c = "-"%char \/ strings.is_digit c = true).
Proof.
  unfold itoa. destruct n as [|p|p]; simpl Z.to_int;
    cbn [NilEmpty.string_of_int].
  - exists "0"%char, EmptyString. split; [reflexivity | now right].
  - destruct (to_uint_head p) as (Hnil & _).
    destruct (Pos.to_uint p); try congruence;
      cbn [NilEmpty.string_of_uint]; do 2 eexists;
      (split; [reflexivity | now right]).
  - do 2 eexists. split; [reflexivity | now left].
Qed.

Ltac each_byte b :=
  destruct b as [[] [] [] [] [] [] [] []].

Lemma parse_value_number (f : nat) (c : ascii) (r : string) :
  c = "-"%char \/ strings.is_digit c = true ->
  Json.parse_value (S f) (String c r)
  = match Json.parse_number (String c r) with
    | Some (lit, rest) => Some (Json.Number lit, rest)
    | None => None
    end.
Proof.
  intros [-> | H]; [reflexivity |].
  each_byte c; try discriminate H; reflexivity.
Qed.

End NumberFacts.


(** ** Values: the compact text parses back to the value, coerced *)

Section PrintFacts.

Ltac flatten :=
  repeat (rewrite app_assoc_string || rewrite app_cons || rewrite app_nil).

Ltac lengths :=
  repeat first [rewrite length_app_string | progress cbn [String.length]].

Local Abbreviation member :=
  (fun kv : string * Json.value =>
     let '(k, v) := kv in Json.print_string k +:+ ":" +:+ Json.print v).
Local Abbreviation norm_member :=
  (fun kv : string * Json.value =>
     let '(k, v) := kv in (utf8.coerce k, Json.norm v)).

Lemma Join_cons (x y : string) (l : list string) (sep : string) :
  strings.Join (x :: y :: l) sep = x +:+ sep +:+ strings.Join (y :: l) sep.
Proof. reflexivity. Qed.

Lemma Join_one (x sep : string) : strings.Join [x] sep = x.
Proof. reflexivity. Qed.

(** Every value starts with a byte that is neither white space nor a
    closing bracket or brace. *)
Lemma print_head (v : Json.value) :
  printable v ->
  exists c r,
    Json.print v = String c r /\ Json.is_ws c = false /\
    Nat.eqb (nat_of_ascii c) 93 = false /\
    Nat.eqb (nat_of_ascii c) 125 = false.
Proof.
  destruct v as [|[]|lit|s|elems|members]; intros Pv;
    try (do 2 eexists; split; [reflexivity | repeat split]).
  destruct Pv as (n & ->).
  destruct (itoa_head n) as (c & r & E & [-> | H]).
  - exists "-"%char, r. now rewrite E.
  - exists c, r. rewrite E. split; [reflexivity |].
    destruct c as [[] [] [] [] [] [] [] []]; try discriminate H;
      repeat split.
Qed.

Lemma member_head (k : string) (v : Json.value) (tail : string) :
  member (k, v) +:+ tail
  = String dq (Json.escape k +:+ String dq (String ":" (Json.print v +:+ tail))).
Proof. unfold Json.print_string. now flatten. Qed.

Lemma parse_value_string (f : nat) (X : string) :
  Json.parse_value (S f) (String dq X)
  = match Json.parse_string X with
    | Some (str, rest) => Some (Json.Str str, rest)
    | None => None
    end.
Proof. reflexivity. Qed.

Lemma skip_ws_quote (X : string) :
  Json.skip_ws (String dq X) = String dq X.
Proof. reflexivity. Qed.

Lemma parse_value_object (f : nat) (R tail : string) :
  R = String dq tail ->
  Json.parse_value (S f) (String "{" R)
  = match Json.parse_members f R with
    | Some (ms, rest) => Some (Json.Object ms, rest)
    | None => None
    end.
Proof. intros ->. reflexivity. Qed.

Lemma parse_value_array (f : nat) (R : string) (c : ascii) (tail : string) :
  R = String c tail ->
  Json.is_ws c = false ->
  Nat.eqb (nat_of_ascii c) 93 = false ->
  Json.parse_value (S f) (String "[" R)
  = match Json.parse_elements f R with
    | Some (es, rest) => Some (Json.Array es, rest)
    | None => None
    end.
Proof.
  intros -> W B.
  destruct c as [[] [] [] [] [] [] [] []]; try discriminate W;
    try discriminate B; reflexivity.
Qed.

(** One member read: the key, the colon, the value, and what follows. *)
Lemma parse_members_step (f : nat) (k tail : string) :
  Json.parse_members (S f)
    (String dq (Json.escape k +:+ String dq (String ":" tail)))
  = match Json.parse_value f tail with
    | Some (v, r3) =>
        match Json.skip_ws r3 with
        | String c4 r4 =>
            if Nat.eqb (nat_of_ascii c4) 125 then
              Some ([(utf8.coerce k, v)], r4)
            else if Nat.eqb (nat_of_ascii c4) 44 then
              match Json.parse_members f (Json.skip_ws r4) with
              | Some (ms, rest) => Some ((utf8.coerce k, v) :: ms, rest)
              | None => None
              end
            else None
        | EmptyString => None
        end
    | None => None
    end.
Proof.
  cbn [Json.parse_members].
  change (Nat.eqb (nat_of_ascii dq) 34) with true. cbv iota.
  rewrite parse_string_escape. reflexivity.
Qed.

Lemma parse_members_last (f : nat) (k tail : string) v r :
  Json.parse_value f tail = Some (v, String "}" r) ->
  Json.parse_members (S f)
    (String dq (Json.escape k +:+ String dq (String ":" tail)))
  = Some ([(utf8.coerce k, v)], r).
Proof. intros H. rewrite parse_members_step, H. reflexivity. Qed.

Lemma parse_members_more (f : nat) (k tail : string) v r :
  Json.parse_value f tail = Some (v, String "," r) ->
  Json.parse_members (S f)
    (String dq (Json.escape k +:+ String dq (String ":" tail)))
  = match Json.parse_members f (Json.skip_ws r) with
    | Some (ms, rest) => Some ((utf8.coerce k, v) :: ms, rest)
    | None => None
    end.
Proof. intros H. rewrite parse_members_step, H. reflexivity. Qed.

Lemma parse_elements_last (f : nat) (R : string) v r :
  Json.parse_value f R = Some (v, String "]" r) ->
  Json.parse_elements (S f) R = Some ([v], r).
Proof. intros H. cbn [Json.parse_elements]. rewrite H. reflexivity. Qed.

Lemma parse_elements_more (f : nat) (R : string) v r :
  Json.parse_value f R = Some (v, String "," r) ->
  Json.parse_elements (S f) R
  = match Json.parse_elements f r with
    | Some (es, rest) => Some (v :: es, rest)
    | None => None
    end.
Proof. intros H. cbn [Json.parse_elements]. rewrite H. reflexivity. Qed.

Lemma parse_print_fuel (f : nat) :
  (forall v rest,
     printable v -> closes rest ->
     (String.length (Json.print v) < f)%nat ->
     Json.parse_value f (Json.print v +:+ rest)
     = Some (Json.norm v, rest)) /\
  (forall vs rest,
     vs <> [] ->
     fold_right (fun e P => printable e /\ P) True vs ->
     (String.length (strings.Join (map Json.print vs) ",") + 2 <= f)%nat ->
     Json.parse_elements f
       (strings.Join (map Json.print vs) "," +:+ String "]" rest)
     = Some (map Json.norm vs, rest)) /\
  (forall ms rest,
     ms <> [] ->
     fold_right (fun kv P => (let '(_, e) := kv in printable e) /\ P)
                True ms ->
     (String.length (strings.Join (map member ms) ",") + 2 <= f)%nat ->
     Json.parse_members f
       (strings.Join (map member ms) "," +:+ String "}" rest)
     = Some (map norm_member ms, rest)).
Proof.
  induction f as [|f (IHv & IHe & IHm)].
  { split; [| split]; intros; lia. }
  split; [| split].
  - (* values *)
    intros v rest Pv Cl Hlen.
    destruct v as [|[]|lit|s|elems|members].
    + cbn [Json.print]. flatten. reflexivity.
    + cbn [Json.print]. flatten. reflexivity.
    + cbn [Json.print]. flatten. reflexivity.
    + destruct Pv as (n & ->). cbn [Json.print Json.norm].
      destruct (itoa_head n) as (c & r & E & Hc).
      rewrite E, app_cons, (parse_value_number f c _ Hc).
      rewrite <- app_cons, <- E.
      now rewrite (parse_number_itoa n rest Cl).
    + cbn [Json.print Json.norm]. unfold Json.print_string. flatten.
      now rewrite parse_value_string, parse_string_escape.
    + cbn [Json.print Json.norm] in *.
      destruct elems as [|e es].
      { flatten. reflexivity. }
      assert (Pe : printable e) by (destruct Pv as [H _]; exact H).
      destruct (print_head e Pe) as (c & r & E & W & B1 & _).
      assert (Hhead : exists tail,
                strings.Join (map Json.print (e :: es)) ","
                +:+ String "]" rest = String c tail).
      { cbn [map]. destruct es as [|e' es'].
        - rewrite Join_one, E, app_cons. now eexists.
        - cbn [map]. rewrite Join_cons, E. flatten. now eexists. }
      destruct Hhead as (tail & Htail).
      flatten. rewrite (parse_value_array f _ c tail Htail W B1).
      rewrite (IHe (e :: es) rest); [reflexivity | discriminate | exact Pv |].
      revert Hlen. flatten. lengths. lia.
    + cbn [Json.print Json.norm] in *.
      destruct members as [|[k v] ms].
      { flatten. reflexivity. }
      assert (Hhead : exists tail,
                strings.Join (map member ((k, v) :: ms)) ","
                +:+ String "}" rest = String dq tail).
      { cbn [map]. destruct ms as [|kv' ms'].
        - rewrite Join_one, member_head. now eexists.
        - cbn [map]. rewrite Join_cons, member_head. now eexists. }
      destruct Hhead as (tail & Htail).
      flatten. rewrite (parse_value_object f _ tail Htail).
      rewrite (IHm ((k, v) :: ms) rest);
        [reflexivity | discriminate | exact Pv |].
      revert Hlen. flatten. lengths. lia.
  - (* elements *)
    intros vs rest Hne Hall Hlen.
    destruct vs as [|v vs]; [congruence |].
    destruct Hall as [Pv Pvs]. cbn [map] in *.
    destruct vs as [|v' vs'].
    + rewrite Join_one in *.
      apply parse_elements_last, IHv; [exact Pv | now right; left | lia].
    + cbn [map] in *. rewrite Join_cons in *. flatten.
      revert Hlen. lengths. intros Hlen.
      rewrite (parse_elements_more f _ (Json.norm v)
                 (strings.Join (Json.print v' :: map Json.print vs') ","
                  +:+ String "]" rest)).
      * assert (H := IHe (v' :: vs') rest).
        cbn [map] in H.
        rewrite H; [reflexivity | discriminate | exact Pvs | lia].
      * apply IHv; [exact Pv | now left | lia].
  - (* members *)
    intros ms rest Hne Hall Hlen.
    destruct ms as [|[k v] ms]; [congruence |].
    destruct Hall as [Pv Pms]. cbn [map] in *.
    destruct ms as [|kv' ms'].
    + rewrite Join_one in *. rewrite member_head.
      revert Hlen. unfold Json.print_string. flatten.
      lengths. intros Hlen.
      apply parse_members_last, IHv; [exact Pv | now right; right | lia].
    + cbn [map] in *. rewrite Join_cons in *.
      rewrite app_assoc_string, member_head.
      revert Hlen. unfold Json.print_string at 1. flatten.
      lengths. intros Hlen.
      destruct kv' as [k' v'].
      assert (Hhead : exists tail,
                strings.Join (member (k', v') :: map member ms') ","
                +:+ String "}" rest = String dq tail).
      { destruct ms' as [|kv'' ms''].
        - rewrite Join_one, member_head. now eexists.
        - cbn [map]. rewrite Join_cons, app_assoc_string, member_head.
          now eexists. }
      destruct Hhead as (tail & Htail).
      rewrite (parse_members_more f k _ (Json.norm v)
                 (strings.Join (member (k', v') :: map member ms') ","
                  +:+ String "}" rest)).
      * rewrite Htail, skip_ws_quote, <- Htail.
        assert (H := IHm ((k', v') :: ms') rest).
        cbn [map] in H.
        rewrite H; [reflexivity | discriminate | exact Pms | lia].
      * flatten. apply IHv; [exact Pv | now left | lia].
Qed.

(** The compact text of a printable value parses, to the value with
    its strings coerced. *)
Lemma parse_print (v : Json.value) :
  printable v -> Json.parse (Json.print v) = Some (Json.norm v).
Proof.
  intros Pv. unfold Json.parse.
  destruct (parse_print_fuel (S (String.length (Json.print v))))
    as (Hv & _).
  specialize (Hv v EmptyString Pv I (Nat.lt_succ_diag_r _)).
  rewrite app_nil_r_string in Hv. now rewrite Hv.
Qed.

End PrintFacts.

(** ** The session document: what is written reads back *)

Section SessionTextFacts.

Variable FormatTime : Time -> result string.
Variable ParseTime : string -> result Time.

Local Abbreviation carried := (carried FormatTime ParseTime).

Lemma time_text_roundtrip (t : Time) :
  carried t ->
  exists text,
    SessionText.time_to_json FormatTime t = Ok (Json.Str text) /\
    forall old,
      SessionText.time_of_json ParseTime (Some (Json.norm (Json.Str text)))
        old = Ok t.
Proof.
  intros (text & F & Safe & P). exists text.
  unfold SessionText.time_to_json. rewrite F. split; [reflexivity |].
  intros old. cbn [Json.norm SessionText.time_of_json].
  destruct (plain_text text Safe) as [_ ->]. exact P.
Qed.

Lemma message_text_roundtrip (m : Message.t) :
  carried (Message.Timestamp m) ->
  exists v,
    SessionText.message_to_json FormatTime m = Ok v /\
    printable v /\
    SessionText.message_of_json ParseTime (Json.norm v)
    = Ok (coerce_message m).
Proof.
  intros C. destruct (time_text_roundtrip _ C) as (text & F & P).
  destruct m as [role content t]. cbn [Message.Timestamp] in *.
  unfold SessionText.message_to_json. cbn [Message.Timestamp].
  rewrite F. eexists. split; [reflexivity |].
  split; [cbn; tauto |].
  cbn [Json.norm map]. unfold SessionText.message_of_json.
  change (SessionJson.lookup_field "role" _)
    with (Some (Json.Str (utf8.coerce role))).
  change (SessionJson.lookup_field "content" _)
    with (Some (Json.Str (utf8.coerce content))).
  change (SessionJson.lookup_field "timestamp" _)
    with (Some (Json.norm (Json.Str text))).
  cbn [SessionJson.string_of_json]. now rewrite P.
Qed.

Lemma messages_text_roundtrip (l : list Message.t) :
  Forall carried (map Message.Timestamp l) ->
  exists vs,
    SessionText.messages_to_json FormatTime l = Ok vs /\
    fold_right (fun e P => printable e /\ P) True vs /\
    SessionText.messages_of_json ParseTime (map Json.norm vs)
    = Ok (map coerce_message l).
Proof.
  induction l as [|m l IH]; cbn [map]; intros H.
  - exists []. now repeat split.
  - apply Forall_cons in H as [Hm Hl].
    destruct (message_text_roundtrip m Hm) as (v & E & Pv & D).
    destruct (IH Hl) as (vs & Es & Pvs & Ds).
    exists (v :: vs). cbn [SessionText.messages_to_json].
    rewrite E, Es. split; [reflexivity |]. split; [now split |].
    cbn [map SessionText.messages_of_json]. now rewrite D, Ds.
Qed.

Lemma metadata_text_roundtrip (md : Metadata.t) :
  carried (Metadata.StartedAt md) ->
  carried (Metadata.LastActivity md) ->
  exists v,
    SessionText.metadata_to_json FormatTime md = Ok v /\
    printable v /\
    SessionText.metadata_of_json ParseTime (Some (Json.norm v)) = Ok md.
Proof.
  intros Cs Cl.
  destruct (time_text_roundtrip _ Cs) as (ts & Fs & Ps).
  destruct (time_text_roundtrip _ Cl) as (tl & Fl & Pl).
  destruct md as [st la mc]. cbn [Metadata.StartedAt Metadata.LastActivity] in *.
  unfold SessionText.metadata_to_json.
  cbn [Metadata.StartedAt Metadata.LastActivity Metadata.MessageCount].
  rewrite Fs, Fl. eexists. split; [reflexivity |].
  split; [cbn; repeat split; now exists mc |].
  cbn [Json.norm map]. unfold SessionText.metadata_of_json.
  change (SessionJson.lookup_field "started_at" _)
    with (Some (Json.norm (Json.Str ts))).
  change (SessionJson.lookup_field "last_activity" _)
    with (Some (Json.norm (Json.Str tl))).
  change (SessionJson.lookup_field "message_count" _)
    with (Some (Json.Number (itoa mc))).
  rewrite Ps, Pl. cbn [SessionJson.int_of_json]. now rewrite atoi_itoa.
Qed.

(** The document of a session whose instants are carried is written, and
    read back as the session with its strings coerced to valid UTF-8. *)
Lemma SessionText_roundtrip (s : SessionData.t) :
  Forall carried (instants s) ->
  exists text,
    SessionText.Marshal FormatTime s = Ok text /\
    SessionText.Unmarshal ParseTime text = Ok (coerce_session s).
Proof.
  unfold instants. intros H.
  apply Forall_cons in H as [Cs H]. apply Forall_cons in H as [Cl Cm].
  destruct (messages_text_roundtrip _ Cm) as (vs & Em & Pm & Dm).
  destruct (metadata_text_roundtrip _ Cs Cl) as (vmd & Emd & Pmd & Dmd).
  destruct s as [sid uid msgs md].
  cbn [SessionData.Messages SessionData.Metadata] in *.
  unfold SessionText.Marshal, SessionText.to_json.
  cbn [SessionData.Messages SessionData.Metadata SessionData.SessionID
       SessionData.UserID].
  rewrite Em, Emd. eexists. split; [reflexivity |].
  unfold SessionText.Unmarshal. rewrite parse_print.
  2:{ cbn [printable fold_right]. tauto. }
  cbn [Json.norm map]. unfold SessionText.of_json.
  change (SessionJson.lookup_field "session_id" _)
    with (Some (Json.Str (utf8.coerce sid))).
  change (SessionJson.lookup_field "user_id" _)
    with (Some (Json.Str (utf8.coerce uid))).
  change (SessionJson.lookup_field "messages" _)
    with (Some (Json.Array (map Json.norm vs))).
  change (SessionJson.lookup_field "metadata" _)
    with (Some (Json.norm vmd)).
  cbn [SessionJson.string_of_json]. now rewrite Dm, Dmd.
Qed.

Lemma coerce_message_valid (m : Message.t) :
  coerce_message m = m <-> valid_message m.
Proof.
  destruct m as [role content t].
  unfold coerce_message, valid_message.
  cbn [Message.Role Message.Content Message.Timestamp]. split.
  - intros [= Hr Hc]. split.
    + rewrite <- Hr. apply coerce_is_valid.
    + rewrite <- Hc. apply coerce_is_valid.
  - intros [Hr Hc]. now rewrite (coerce_valid _ Hr), (coerce_valid _ Hc).
Qed.

Lemma coerce_messages_valid (l : list Message.t) :
  map coerce_message l = l <-> Forall valid_message l.
Proof.
  induction l as [|m l IH]; cbn [map].
  - split; [constructor | reflexivity].
  - split.
    + intros [= Hm Hl]. constructor;
        [now apply coerce_message_valid | now apply IH].
    + intros H. apply Forall_cons in H as [Hm Hl].
      apply coerce_message_valid in Hm. apply IH in Hl. congruence.
Qed.

(** Coercion leaves exactly the sessions of valid UTF-8 strings alone. *)
Lemma coerce_session_valid (s : SessionData.t) :
  coerce_session s = s <-> valid_session s.
Proof.
  destruct s as [sid uid msgs md].
  unfold coerce_session, valid_session.
  cbn [SessionData.SessionID SessionData.UserID SessionData.Messages
       SessionData.Metadata]. split.
  - intros [= Hs Hu Hm]. repeat split.
    + rewrite <- Hs. apply coerce_is_valid.
    + rewrite <- Hu. apply coerce_is_valid.
    + now apply coerce_messages_valid.
  - intros (Hs & Hu & Hm). apply coerce_messages_valid in Hm.
    now rewrite (coerce_valid _ Hs), (coerce_valid _ Hu), Hm.
Qed.

End SessionTextFacts.

(** ** RFC 3339: the text of an instant reads back as the instant *)

Section TimeTextFacts.


Lemma year_of_era (doe : Z) :
  0 <= doe < 146097 ->
  let yoe := (doe - doe / 1460 + doe / 36524 - doe / 146096) / 365 in
  let doy := doe - (365 * yoe + yoe / 4 - yoe / 100) in
  0 <= yoe < 400 /\ 0 <= doy <= 365 /\
  (doy = 365 ->
   (yoe + 1) mod 4 = 0 /\ ((yoe + 1) mod 100 <> 0 \/ yoe = 399)).
Proof.
  intros H yoe doy. subst yoe doy. Z.div_mod_to_equations. lia.
Qed.

Lemma month_of_year (doy : Z) :
  0 <= doy <= 365 ->
  let mp := (5 * doy + 2) / 153 in
  let d := doy - (153 * mp + 2) / 5 + 1 in
  0 <= mp < 12 /\ 1 <= d /\
  (mp = 11 -> d = doy - 336) /\
  (mp = 1 \/ mp = 3 \/ mp = 6 \/ mp = 8 -> d <= 30) /\
  (mp <> 11 -> d <= 31).
Proof.
  intros H mp d. subst mp d. Z.div_mod_to_equations. lia.
Qed.

Lemma civil_from_days_spec (z : Z) :
  let '(y, m, d) := rfc3339.civil_from_days z in
  rfc3339.days_from_civil y m d = z /\
  1 <= m <= 12 /\ 1 <= d <= rfc3339.days_in_month y m.
Proof.
  unfold rfc3339.civil_from_days. cbv zeta.
  set (z1 := z + 719468).
  set (era := z1 / 146097).
  set (doe := z1 - era * 146097).
  assert (Hz : z = era * 146097 + doe - 719468) by (subst doe z1; lia).
  assert (Hdoe : 0 <= doe < 146097).
  { subst doe era. Z.div_mod_to_equations. lia. }
  clearbody doe era. clear z1.
  generalize (year_of_era doe Hdoe). cbv zeta.
  set (yoe := (doe - doe / 1460 + doe / 36524 - doe / 146096) / 365).
  clearbody yoe.
  set (doy := doe - (365 * yoe + yoe / 4 - yoe / 100)).
  intros (Hyoe & Hdoy & Hleap).
  generalize (month_of_year doy Hdoy). cbv zeta.
  set (mp := (5 * doy + 2) / 153).
  set (d := doy - (153 * mp + 2) / 5 + 1).
  intros (Hmp & Hd1 & Hfeb & H30 & H31).
  assert (Hera : forall y, 0 <= y < 400 -> (y + era * 400) / 400 = era).
  { intros y Hy. Z.div_mod_to_equations. lia. }
  set (m := if mp <? 10 then mp + 3 else mp - 9).
  assert (Hm : mp < 10 /\ m = mp + 3 \/ 10 <= mp /\ m = mp - 9)
    by (subst m; destruct (Z.ltb_spec mp 10); lia).
  set (y := if m <=? 2 then yoe + era * 400 + 1 else yoe + era * 400).
  assert (Hy : m <= 2 /\ y = yoe + era * 400 + 1
               \/ 2 < m /\ y = yoe + era * 400)
    by (subst y; destruct (Z.leb_spec m 2); lia).
  clearbody y m.
  split; [| split].
  - unfold rfc3339.days_from_civil.
    destruct (Z.leb_spec m 2) as [L|L], (Z.ltb_spec 2 m) as [L'|L'];
      try lia; cbv zeta.
    + replace (y - 1) with (yoe + era * 400) by lia.
      rewrite (Hera yoe Hyoe).
      replace (m + 9) with mp by lia.
      replace (yoe + era * 400 - era * 400) with yoe by lia.
      subst d doy. lia.
    + replace y with (yoe + era * 400) by lia.
      rewrite (Hera yoe Hyoe).
      replace (m - 3) with mp by lia.
      replace (yoe + era * 400 - era * 400) with yoe by lia.
      subst d doy. lia.
  - lia.
  - split; [exact Hd1 |].
    unfold rfc3339.days_in_month.
    destruct (Z.eqb_spec m 2) as [F|F].
    + assert (Hd : d <= 28 \/ d = 29) by lia.
      destruct Hd as [Hd | Hd]; [destruct (_ || _); lia |].
      assert (E : doy = 365) by lia. destruct (Hleap E) as [H4 H100].
      replace (y mod 4) with ((yoe + 1) mod 4)
        by (Z.div_mod_to_equations; lia).
      rewrite H4. change (0 =? 0) with true. cbn [andb].
      destruct H100 as [H100 | H100].
      * replace (y mod 100) with ((yoe + 1) mod 100)
          by (Z.div_mod_to_equations; lia).
        destruct (Z.eqb_spec ((yoe + 1) mod 100) 0); [contradiction |].
        cbn [negb orb]. lia.
      * replace (y mod 400) with 0 by (Z.div_mod_to_equations; lia).
        change (0 =? 0) with true. rewrite orb_true_r. lia.
    + destruct (Z.eqb_spec m 4), (Z.eqb_spec m 6), (Z.eqb_spec m 9),
        (Z.eqb_spec m 11); cbn [orb]; lia.
Qed.

Lemma digit_spec (v : Z) :
  0 <= v < 10 ->
  strings.is_digit (rfc3339.digit v) = true /\
  Z.of_N (N_of_ascii (rfc3339.digit v)) - 48 = v /\
  Json.html_safe (rfc3339.digit v) = true.
Proof.
  intros H.
  assert (C : v = 0 \/ v = 1 \/ v = 2 \/ v = 3 \/ v = 4 \/ v = 5 \/ v = 6
              \/ v = 7 \/ v = 8 \/ v = 9) by lia.
  destruct C as [-> | [-> | [-> | [-> | [-> | [-> | [-> | [-> | [-> | ->]]]]]]]]];
    vm_compute; repeat split.
Qed.

Lemma pow_succ (w : nat) : 10 ^ Z.of_nat (S w) = 10 * 10 ^ Z.of_nat w.
Proof. rewrite Nat2Z.inj_succ, Z.pow_succ_r; lia. Qed.

Lemma pad_snoc (w : nat) (n : Z) (rest : string) :
  rfc3339.pad (S w) n +:+ rest
  = rfc3339.pad w (n / 10) +:+ String (rfc3339.digit (n mod 10)) rest.
Proof.
  cbn [rfc3339.pad]. now rewrite app_assoc_string, app_cons, app_nil.
Qed.

(** Reading [w] digits takes back what [pad] wrote. *)
Lemma number_pad (w k : nat) (acc n : Z) (rest : string) :
  0 <= n < 10 ^ Z.of_nat w ->
  rfc3339.number (w + k) acc (rfc3339.pad w n +:+ rest)
  = rfc3339.number k (acc * 10 ^ Z.of_nat w + n) rest.
Proof.
  revert k n rest. induction w as [|w IH]; intros k n rest H.
  - cbn [rfc3339.pad Nat.add]. rewrite app_nil. f_equal.
    change (10 ^ Z.of_nat 0) with 1 in *. lia.
  - rewrite pow_succ in H. rewrite pad_snoc.
    replace (S w + k)%nat with (w + S k)%nat by lia.
    rewrite IH by (Z.div_mod_to_equations; lia).
    destruct (digit_spec (n mod 10)) as (D & V & _);
      [Z.div_mod_to_equations; lia |].
    cbn [rfc3339.number]. rewrite D. f_equal.
    rewrite pow_succ. Z.div_mod_to_equations. lia.
Qed.

Lemma number_pad_all (w : nat) (n : Z) (rest : string) :
  0 <= n < 10 ^ Z.of_nat w ->
  rfc3339.number w 0 (rfc3339.pad w n +:+ rest) = Some (n, rest).
Proof.
  intros H. generalize (number_pad w 0 0 n rest H).
  rewrite Nat.add_0_r. intros ->. cbn [rfc3339.number].
  now replace (0 * 10 ^ Z.of_nat w + n) with n by lia.
Qed.

Lemma fraction_pad (w k : nat) (acc n : Z) (rest : string) :
  0 <= n < 10 ^ Z.of_nat w ->
  rfc3339.fraction (w + k) acc (rfc3339.pad w n +:+ rest)
  = rfc3339.fraction k (acc * 10 ^ Z.of_nat w + n) rest.
Proof.
  revert k n rest. induction w as [|w IH]; intros k n rest H.
  - cbn [rfc3339.pad Nat.add]. rewrite app_nil. f_equal.
    change (10 ^ Z.of_nat 0) with 1 in *. lia.
  - rewrite pow_succ in H. rewrite pad_snoc.
    replace (S w + k)%nat with (w + S k)%nat by lia.
    rewrite IH by (Z.div_mod_to_equations; lia).
    destruct (digit_spec (n mod 10)) as (D & V & _);
      [Z.div_mod_to_equations; lia |].
    cbn [rfc3339.fraction]. rewrite D. f_equal.
    rewrite pow_succ. Z.div_mod_to_equations. lia.
Qed.

(** A padded number starts with a digit. *)
Lemma pad_head (w : nat) (n : Z) :
  exists c r, rfc3339.pad (S w) n = String c r /\ strings.is_digit c = true.
Proof.
  revert n. induction w as [|w IH]; intros n.
  - do 2 eexists. split; [reflexivity |].
    apply digit_spec. Z.div_mod_to_equations. lia.
  - destruct (IH (n / 10)) as (c & r & E & D).
    exists c, (r +:+ String (rfc3339.digit (n mod 10)) EmptyString).
    split; [| exact D].
    change (rfc3339.pad (S (S w)) n)
      with (rfc3339.pad (S w) (n / 10)
            +:+ String (rfc3339.digit (n mod 10)) EmptyString).
    now rewrite E, app_cons.
Qed.

(** The fraction without its trailing zeros is a shorter padded number. *)
Lemma trim_zeros_pad (w : nat) (n : Z) :
  0 < n < 10 ^ Z.of_nat w ->
  exists (j k : nat) (m : Z),
    (S j + k)%nat = w /\ rfc3339.trim_zeros w n = rfc3339.pad (S j) m /\
    0 <= m < 10 ^ Z.of_nat (S j) /\ n = m * 10 ^ Z.of_nat k.
Proof.
  revert n. induction w as [|w IH]; intros n H.
  - change (10 ^ Z.of_nat 0) with 1 in H. lia.
  - rewrite pow_succ in H. cbn [rfc3339.trim_zeros].
    destruct (Z.eqb_spec (n mod 10) 0) as [E|E].
    + destruct (IH (n / 10)) as (j & k & m & Hw & Ht & Hm & Hn);
        [Z.div_mod_to_equations; lia |].
      exists j, (S k), m. repeat split; try lia; try assumption.
      rewrite pow_succ. Z.div_mod_to_equations. lia.
    + exists w, O, n. rewrite pow_succ.
      change (10 ^ Z.of_nat 0) with 1. repeat split; lia.
Qed.

Lemma verbatim_app (a b : string) :
  verbatim a -> verbatim b -> verbatim (a +:+ b).
Proof.
  unfold verbatim. induction a as [|x a IH]; rewrite ?app_nil, ?app_cons;
    [easy |].
  cbn [list_ascii_of_string forallb]. rewrite !andb_true_iff.
  intros [Hx Ha] Hb. split; [exact Hx | now apply IH].
Qed.

Lemma verbatim_pad (w : nat) (n : Z) : verbatim (rfc3339.pad w n).
Proof.
  revert n. induction w as [|w IH]; intros n; [reflexivity |].
  cbn [rfc3339.pad]. apply verbatim_app; [apply IH |].
  unfold verbatim. cbn [list_ascii_of_string forallb].
  destruct (digit_spec (n mod 10)) as (_ & _ & ->);
    [Z.div_mod_to_equations; lia | reflexivity].
Qed.

Lemma expect_head (c : ascii) (r : string) :
  rfc3339.expect c (String c r) = Some r.
Proof. cbn [rfc3339.expect]. now rewrite Ascii.eqb_refl. Qed.

(** An instant of a year from 0 to 9999 is written, in text that needs
    no escape, and read back from that text; any other instant is not
    written. *)
Lemma Format_Parse (t : Time) :
  rfc3339.in_range t -> carried rfc3339.Format rfc3339.Parse t.
Proof.
  unfold rfc3339.in_range, rfc3339.year, carried, rfc3339.Format.
  cbv zeta.
  set (secs := t / 1000000000). set (nanos := t mod 1000000000).
  set (days := secs / 86400). set (sod := secs mod 86400).
  generalize (civil_from_days_spec days).
  destruct (rfc3339.civil_from_days days) as [[y m] d].
  intros (Hdays & Hm & Hd) Hy.
  replace ((y <? 0) || (9999 <? y)) with false
    by (symmetry; apply orb_false_iff; split; apply Z.ltb_ge; lia).
  assert (Hd31 : d <= 31).
  { generalize Hd. unfold rfc3339.days_in_month.
    repeat match goal with |- context [if ?b then _ else _] => destruct b end;
      lia. }
  assert (Hn : 0 <= nanos < 1000000000)
    by (subst nanos; Z.div_mod_to_equations; lia).
  assert (Hs : 0 <= sod < 86400)
    by (subst sod; Z.div_mod_to_equations; lia).
  set (h := sod / 3600). set (mi := sod mod 3600 / 60).
  set (sec := sod mod 60).
  assert (Hh : 0 <= h < 24) by (subst h; Z.div_mod_to_equations; lia).
  assert (Hmi : 0 <= mi < 60) by (subst mi; Z.div_mod_to_equations; lia).
  assert (Hsec : 0 <= sec < 60) by (subst sec; Z.div_mod_to_equations; lia).
  assert (Ht : t = (days * 86400 + h * 3600 + mi * 60 + sec - 0)
                   * 1000000000 + nanos).
  { subst h mi sec sod days nanos secs. Z.div_mod_to_equations. lia. }
  set (frac := if nanos =? 0 then EmptyString
               else "." +:+ rfc3339.trim_zeros 9 nanos).
  assert (Hfrac :
            verbatim frac /\
            forall s : string,
              (let '(ns, s') :=
                 match frac +:+ "Z" with
                 | String c (String c1 r1) =>
                     if Ascii.eqb c "." && strings.is_digit c1 then
                       rfc3339.fraction 9 0 (String c1 r1)
                     else (0, frac +:+ "Z")
                 | _ => (0, frac +:+ "Z")
                 end in (ns, s')) = (nanos, "Z")).
  { subst frac. destruct (Z.eqb_spec nanos 0) as [E|E].
    - split; [reflexivity |]. intros _. rewrite E. reflexivity.
    - destruct (trim_zeros_pad 9 nanos) as (j & k & n & Hw & -> & Hb & Hv);
        [change (10 ^ Z.of_nat 9) with 1000000000; lia |].
      split.
      + apply verbatim_app; [reflexivity | apply verbatim_pad].
      + intros _. destruct (pad_head j n) as (c & r & Ec & Dc).
        rewrite app_assoc_string, app_cons, app_nil.
        generalize (fraction_pad (S j) k 0 n "Z" Hb).
        rewrite Hw, Ec, app_cons. intros F.
        cbn [Ascii.eqb Bool.eqb andb]. rewrite Dc, F.
        cbn [rfc3339.fraction]. change (strings.is_digit "Z") with false.
        cbv iota. f_equal. lia. }
  destruct Hfrac as [Sfrac Pfrac].
  eexists. split; [reflexivity |]. split.
  - repeat (apply verbatim_app; [first [apply verbatim_pad | reflexivity
                                  | exact Sfrac] |]).
    reflexivity.
  - unfold rfc3339.Parse, rfc3339.fields.
    rewrite (number_pad_all 4 y) by (change (10 ^ Z.of_nat 4) with 10000; lia).
    rewrite app_cons, app_nil, expect_head.
    rewrite (number_pad_all 2 m) by (change (10 ^ Z.of_nat 2) with 100; lia).
    rewrite app_cons, app_nil, expect_head.
    rewrite (number_pad_all 2 d) by (change (10 ^ Z.of_nat 2) with 100; lia).
    rewrite app_cons, app_nil, expect_head.
    rewrite (number_pad_all 2 h) by (change (10 ^ Z.of_nat 2) with 100; lia).
    rewrite app_cons, app_nil, expect_head.
    rewrite (number_pad_all 2 mi)
      by (change (10 ^ Z.of_nat 2) with 100; lia).
    rewrite app_cons, app_nil, expect_head.
    rewrite (number_pad_all 2 sec)
      by (change (10 ^ Z.of_nat 2) with 100; lia).
    specialize (Pfrac EmptyString). cbv zeta in Pfrac.
    fold frac.
    destruct (match frac +:+ "Z" with
              | String c (String c1 r1) =>
                  if Ascii.eqb c "." && strings.is_digit c1 then
                    rfc3339.fraction 9 0 (String c1 r1)
                  else (0, frac +:+ "Z")
              | _ => (0, frac +:+ "Z")
              end) as [ns s'] eqn:E.
    injection Pfrac as -> ->.
    cbn [rfc3339.zone]. change (Ascii.eqb "Z" "Z") with true. cbv iota.
    replace ((1 <=? m) && (m <=? 12) && (1 <=? d)
             && (d <=? rfc3339.days_in_month y m)
             && (h <? 24) && (mi <? 60) && (sec <? 60)) with true.
    + rewrite Hdays. now rewrite <- Ht.
    + symmetry. rewrite !andb_true_iff.
      repeat split; first [apply Z.leb_le | apply Z.ltb_lt]; lia.
Qed.

Lemma Format_out_of_range (t : Time) :
  ~ rfc3339.in_range t -> exists e, rfc3339.Format t = Err e.
Proof.
  unfold rfc3339.in_range, rfc3339.year, rfc3339.Format. cbv zeta.
  destruct (rfc3339.civil_from_days _) as [[y m] d]. intros H.
  replace ((y <? 0) || (9999 <? y)) with true; [now eexists |].
  symmetry. apply orb_true_iff.
  destruct (Z.ltb_spec y 0); [now left | right]. apply Z.ltb_lt. lia.
Qed.

End TimeTextFacts.

(** ** Write, then reload *)

Section ReloadFacts.


End ReloadFacts.

Section ReloadRuns.



End ReloadRuns.
